(** * cppbmpfile: a shallow embedding of [cppbmpfile.hpp] and its properties

    The development follows [include/cppbmpfile/cppbmpfile.hpp].  Machine
    integers are mathematical integers with their wrap-around written out
    ([uint16_t], [uint32_t], [int32_t], and a 64-bit [size_t]); bytes are
    [Byte.byte]; the pixel buffer is a [list byte]; file streams are records
    threaded through the functions that use them. *)

From Stdlib Require Import ZArith Lia List.
From coqutil Require Import Byte Word.LittleEndianList.
From stdpp Require Import base list gmap strings.

Local Open Scope Z_scope.

(** Bytes are the 256 values of [Init.Byte.byte]. *)
Abbreviation byte := Init.Byte.byte.

(** ** Machine integers *)

Definition u16 (z : Z) : Z := z mod 2 ^ 16.
Definition u32 (z : Z) : Z := z mod 2 ^ 32.
(** [size_t] of a 64-bit target. *)
Definition usize (z : Z) : Z := z mod 2 ^ 64.
(** Conversion to [int32_t] (two's complement). *)
Definition i32 (z : Z) : Z := (z + 2 ^ 31) mod 2 ^ 32 - 2 ^ 31.

(** [abs] of [<cstdlib>] on an [int].  The C++ standard leaves
    [abs(INT_MIN)] undefined; the model takes the two's-complement result
    of the usual implementations, which is [INT_MIN] again. *)
Definition abs (x : Z) : Z := i32 (Z.abs x).

(** ** Public data types *)

(** [enum class pixel_format]; the type carries the suffix because the
    record field below has the name [pixel_format] as in the source. *)
Inductive pixel_format_type : Set :=
| Mono8
| BGR8
| BGRA8
| pixel_format_invalid.

Inductive orientation_type : Set :=
| top_down
| bottom_up
| orientation_invalid.

Record image_properties := mk_image_properties {
  width : Z;          (* uint32_t *)
  height : Z;         (* uint32_t *)
  line_padding : Z;   (* size_t *)
  pixel_format : pixel_format_type;
  orientation : orientation_type
}.

(** The member initialisers of [struct image_properties]. *)
Definition default_image_properties : image_properties :=
  {| width := 0; height := 0; line_padding := 0;
     pixel_format := pixel_format_invalid; orientation := bottom_up |}.

Inductive operation_result_type : Set :=
| ok
| file_not_found
| file_open_for_writing_error
| file_read_error
| file_write_error
| buffer_too_small
| not_a_bmp_file
| unsupported_compression
| unsupported_bit_per_pixel
| unsupported_use_of_color_table
| too_large_color_table
| corrupt
| null_argument
| invalid_argument
| result_invalid.

(** [class operation_result] wraps one [operation_result_type]; its
    [operator bool] is [is_ok]. *)
Definition operation_result := operation_result_type.

Definition is_ok (result : operation_result) : bool :=
  match result with ok => true | _ => false end.

(** [operation_result_type_to_string].  The [default:] case of the switch
    serves values outside the enumeration, which the inductive type does
    not have. *)
Definition operation_result_type_to_string (result_type : operation_result_type)
  : string :=
  match result_type with
  | ok => "BMP file operation successful."
  | file_not_found => "BMP file not found."
  | file_open_for_writing_error => "Failed to open BMP file for writing."
  | file_read_error => "BMP file read error."
  | file_write_error => "BMP file write error."
  | buffer_too_small => "Buffer too small for BMP file operation."
  | not_a_bmp_file => "BMP file read error. Not a BMP.file."
  | unsupported_compression => "BMP file read error. Compression type not supported."
  | unsupported_bit_per_pixel => "BMP file read error. Bit per pixel not supported."
  | unsupported_use_of_color_table =>
      "BMP file read error. Color table variant not supported."
  | too_large_color_table => "BMP file read error. Color table too large."
  | corrupt => "BMP file read error. File has been corrupted."
  | null_argument => "Argument must not be null."
  | invalid_argument => "An argument passed is invalid."
  | result_invalid => "Invalid operation type. No operation executed."
  end%string.

#[global] Instance pixel_format_eq_dec : EqDecision pixel_format_type.
Proof. solve_decision. Defined.
#[global] Instance orientation_eq_dec : EqDecision orientation_type.
Proof. solve_decision. Defined.
#[global] Instance operation_result_eq_dec : EqDecision operation_result_type.
Proof. solve_decision. Defined.

(** The values a caller can really pass: the fields are in the range of
    their C++ types. *)
Definition props_in_range (p : image_properties) : Prop :=
  0 <= width p < 2 ^ 32 /\ 0 <= height p < 2 ^ 32 /\
  0 <= line_padding p < 2 ^ 64.

(** ** Private data types *)

(** [struct bmp_header], packed to 54 bytes. *)
Module bmp_header.
Record t := mk {
  type : Z;                     (* uint16_t *)
  size : Z;                     (* uint32_t *)
  reserved1 : Z;                (* uint16_t *)
  reserved2 : Z;                (* uint16_t *)
  offset : Z;                   (* uint32_t *)
  bitmap_info_header_size : Z;  (* uint32_t *)
  width : Z;                    (* int32_t *)
  height : Z;                   (* int32_t *)
  num_planes : Z;               (* uint16_t *)
  bits_per_pixel : Z;           (* uint16_t *)
  compression : Z;              (* uint32_t *)
  image_size_bytes : Z;         (* uint32_t *)
  x_resolution : Z;             (* int32_t *)
  y_resolution : Z;             (* int32_t *)
  num_colors : Z;               (* uint32_t *)
  important_colors : Z          (* uint32_t *)
}.

(** [bmp_header header = {}]. *)
Definition zero : t := mk 0 0 0 0 0 0 0 0 0 0 0 0 0 0 0 0.

(** [sizeof(bmp_header)] under [#pragma pack(1)]. *)
Definition sizeof : Z := 54.
End bmp_header.

(** [struct color_table_entry], 4 bytes. *)
Module color_table_entry.
Record t := mk { b : byte; g : byte; r : byte; reserved : byte }.
Definition zero : t := mk Byte.x00 Byte.x00 Byte.x00 Byte.x00.
Definition sizeof : Z := 4.
End color_table_entry.

(** ** Geometry *)

(** The [assert(false)] of the last case is compiled out in a release
    build, where the function returns 0. *)
Definition byte_per_pixel_in_file (bits_per_pixel : Z) : Z :=
  if bits_per_pixel =? 8 then 1
  else if bits_per_pixel =? 24 then 3
  else if bits_per_pixel =? 32 then 4
  else 0.

(** [determine_stride(uint16_t bits_per_pixel, int32_t width)]. *)
Definition determine_stride (bits_per_pixel width : Z) : Z :=
  let stride := usize (byte_per_pixel_in_file bits_per_pixel * usize (abs width)) in
  let dividableByFour := stride mod 4 =? 0 in
  if negb dividableByFour then usize (stride + (4 - stride mod 4)) else stride.

Definition determine_line_padding (bits_per_pixel width : Z) : Z :=
  let line_padding := 0 in
  let stride := usize (byte_per_pixel_in_file bits_per_pixel * usize (abs width)) in
  let dividableByFour := stride mod 4 =? 0 in
  if negb dividableByFour then 4 - stride mod 4 else line_padding.

(** [determine_stride(const image_properties&)], the second overload. *)
Definition determine_stride_props (the_image_properties : image_properties) : Z :=
  let byte_per_pixel :=
    match pixel_format the_image_properties with
    | Mono8 => 1
    | BGR8 => 3
    | BGRA8 => 4
    | pixel_format_invalid => 0 (* assert(false), compiled out *)
    end in
  usize (width the_image_properties * byte_per_pixel + line_padding the_image_properties).

(** [compute_buffer_size(image_properties&)].  The parameter is a mutable
    reference, so the model returns the properties as the call leaves
    them next to the computed size. *)
Definition compute_buffer_size (the_image_properties : image_properties)
  : Z * image_properties :=
  let buffer_size := 0 in
  let buffer_size :=
    if negb ((height the_image_properties =? 0)
             || (width the_image_properties =? 0)
             || bool_decide (pixel_format the_image_properties = pixel_format_invalid))
    then usize (determine_stride_props the_image_properties * height the_image_properties)
    else buffer_size in
  (buffer_size, the_image_properties).

(** ** File streams

    A stream is a record threaded through the code.  [fail] stands for
    [failbit | badbit], so [operator!] is [fail] and the conversion to
    [bool] is its negation.  [faults] is the script of the device for the
    operations still to come: each read, seek or write that reaches the
    device consumes the head of the script and fails when it is [true]
    (an I/O error, a full disk, a medium that refuses the seek); an empty
    script is a device that works.

    The output stream is modelled without its buffer: a [write] reaches
    the device at once and a refusal shows in the next check of the
    stream.  [std::ofstream] buffers, and [save] checks neither a flush
    nor the close, so on a device that refuses a write the library can
    see the refusal later than here, or not at all.  The properties that
    name the bytes a call leaves on the disk are therefore stated for a
    device that works; the others hold for every script. *)

Definition next_fault (faults : list bool) : bool * list bool :=
  match faults with
  | [] => (false, [])
  | fault :: faults' => (fault, faults')
  end.

Module ifstream.
Record t := mk {
  is_open : bool;
  contents : list byte;
  gpos : nat;
  fail : bool;
  faults : list bool
}.

Definition setstate_failbit (s : t) : t :=
  mk (is_open s) (contents s) (gpos s) true (faults s).

(** [read(p, count)]: the characters extracted (those stored at [p]) and
    the stream afterwards.  A stream that is not good extracts nothing;
    reaching the end of the file before [count] characters sets
    [eofbit | failbit]. *)
Definition read (count : Z) (s : t) : list byte * t :=
  if fail s then ([], s)
  else
    let (fault, faults') := next_fault (faults s) in
    if fault then ([], mk (is_open s) (contents s) (gpos s) true faults')
    else
      let chunk := take (Z.to_nat count) (drop (gpos s) (contents s)) in
      (chunk,
       mk (is_open s) (contents s) (gpos s + length chunk)
          (bool_decide (length chunk < Z.to_nat count)%nat) faults').

(** [seekg(pos)].  Seeking past the end of a file is allowed. *)
Definition seekg (pos : Z) (s : t) : t :=
  if fail s then s
  else
    let (fault, faults') := next_fault (faults s) in
    if fault || (pos <? 0)
    then mk (is_open s) (contents s) (gpos s) true faults'
    else mk (is_open s) (contents s) (Z.to_nat pos) false faults'.

(** [seekg(off, std::ios_base::cur)]. *)
Definition seekg_cur (off : Z) (s : t) : t :=
  if fail s then s
  else
    let (fault, faults') := next_fault (faults s) in
    if fault || (Z.of_nat (gpos s) + off <? 0)
    then mk (is_open s) (contents s) (gpos s) true faults'
    else mk (is_open s) (contents s) (Z.to_nat (Z.of_nat (gpos s) + off)) false faults'.
End ifstream.

Module ofstream.
Record t := mk {
  is_open : bool;
  written : list byte;
  fail : bool;
  faults : list bool
}.

(** [write(p, count)] with the [count] bytes at [p] given as a list. *)
Definition write (bytes : list byte) (s : t) : t :=
  if fail s then s
  else
    let (fault, faults') := next_fault (faults s) in
    if fault then mk (is_open s) (written s) true faults'
    else mk (is_open s) (written s ++ bytes) false faults'.
End ofstream.

(** The part of the file system the library sees: the regular files by
    path, the paths that cannot be opened for writing, and the fault
    script of the device for the next call. *)
Record filesystem := mk_filesystem {
  files : gmap string (list byte);
  write_protected : gset string;
  pending_faults : list bool
}.

(** [std::ifstream file(filename, std::ios::binary)]. *)
Definition open_ifstream (filename : string) (fs : filesystem) : ifstream.t :=
  match files fs !! filename with
  | Some bytes => ifstream.mk true bytes 0 false (pending_faults fs)
  | None => ifstream.mk false [] 0 true (pending_faults fs)
  end.

(** [std::ofstream file(filename, std::ios::binary)]: an existing file is
    truncated. *)
Definition open_ofstream (filename : string) (fs : filesystem) : ofstream.t :=
  if bool_decide (filename ∈ write_protected fs)
  then ofstream.mk false [] true (pending_faults fs)
  else ofstream.mk true [] false (pending_faults fs).

(** The file system once the [ofstream] goes out of scope: what was
    written stays on disk, also after a failed write. *)
Definition close_ofstream (filename : string) (file : ofstream.t) (fs : filesystem)
  : filesystem :=
  if ofstream.is_open file
  then mk_filesystem (<[filename := ofstream.written file]> (files fs))
                     (write_protected fs) (ofstream.faults file)
  else fs.

(** ** Object representation of the packed structures (little-endian) *)

Definition header_bytes (h : bmp_header.t) : list byte :=
  le_split 2 (bmp_header.type h) ++
  le_split 4 (bmp_header.size h) ++
  le_split 2 (bmp_header.reserved1 h) ++
  le_split 2 (bmp_header.reserved2 h) ++
  le_split 4 (bmp_header.offset h) ++
  le_split 4 (bmp_header.bitmap_info_header_size h) ++
  le_split 4 (bmp_header.width h) ++
  le_split 4 (bmp_header.height h) ++
  le_split 2 (bmp_header.num_planes h) ++
  le_split 2 (bmp_header.bits_per_pixel h) ++
  le_split 4 (bmp_header.compression h) ++
  le_split 4 (bmp_header.image_size_bytes h) ++
  le_split 4 (bmp_header.x_resolution h) ++
  le_split 4 (bmp_header.y_resolution h) ++
  le_split 4 (bmp_header.num_colors h) ++
  le_split 4 (bmp_header.important_colors h).

(** The unsigned field of [len] bytes at byte offset [off]. *)
Definition field (off len : nat) (bytes : list byte) : Z :=
  le_combine (take len (drop off bytes)).

Definition header_of_bytes (bytes : list byte) : bmp_header.t :=
  bmp_header.mk
    (field 0 2 bytes) (field 2 4 bytes) (field 6 2 bytes) (field 8 2 bytes)
    (field 10 4 bytes) (field 14 4 bytes)
    (i32 (field 18 4 bytes)) (i32 (field 22 4 bytes))
    (field 26 2 bytes) (field 28 2 bytes)
    (field 30 4 bytes) (field 34 4 bytes)
    (i32 (field 38 4 bytes)) (i32 (field 42 4 bytes))
    (field 46 4 bytes) (field 50 4 bytes).

Definition entry_bytes (e : color_table_entry.t) : list byte :=
  [color_table_entry.b e; color_table_entry.g e;
   color_table_entry.r e; color_table_entry.reserved e].

Fixpoint color_table_of_bytes (bytes : list byte) : list color_table_entry.t :=
  match bytes with
  | b :: g :: r :: reserved :: rest =>
      color_table_entry.mk b g r reserved :: color_table_of_bytes rest
  | _ => []
  end.

(** The bytes of an object after [read] stored [chunk] at its start: a
    short read leaves the tail of the object as it was. *)
Definition store (chunk object : list byte) : list byte :=
  list_inserts 0 chunk object.

(** ** Header codec *)

Definition load_and_check_header (stream : ifstream.t) (header_out : bmp_header.t)
  : operation_result * ifstream.t * bmp_header.t :=
  let result := ok in
  let '(chunk, stream) := ifstream.read bmp_header.sizeof stream in
  let header_out := header_of_bytes (store chunk (header_bytes header_out)) in
  let header := header_out in
  if ifstream.fail stream then (not_a_bmp_file, stream, header_out)
  else
    let result :=
      if negb (bmp_header.type header =? 0x4D42) then not_a_bmp_file
      else if bmp_header.bitmap_info_header_size header <? 40 then corrupt
      else if bmp_header.offset header <? bmp_header.sizeof then corrupt
      else if (bmp_header.height header =? 0) || (bmp_header.width header <=? 0)
      then corrupt
      else if negb ((bmp_header.bits_per_pixel header =? 1)
                    || (bmp_header.bits_per_pixel header =? 4)
                    || (bmp_header.bits_per_pixel header =? 8)
                    || (bmp_header.bits_per_pixel header =? 16)
                    || (bmp_header.bits_per_pixel header =? 24)
                    || (bmp_header.bits_per_pixel header =? 32))
      then corrupt
      else if negb (bmp_header.compression header =? 0) then unsupported_compression
      else if negb ((bmp_header.bits_per_pixel header =? 8)
                    || (bmp_header.bits_per_pixel header =? 24)
                    || (bmp_header.bits_per_pixel header =? 32))
      then unsupported_bit_per_pixel
      else if ((bmp_header.bits_per_pixel header =? 24)
               || (bmp_header.bits_per_pixel header =? 32))
              && (negb (bmp_header.num_colors header =? 0)
                  || negb (bmp_header.important_colors header =? 0))
      then unsupported_use_of_color_table
      else if (bmp_header.bits_per_pixel header =? 8)
              && ((256 <? bmp_header.num_colors header)
                  || (256 <? bmp_header.important_colors header))
      then too_large_color_table
      else
        let image_data_size :=
          usize (determine_stride (bmp_header.bits_per_pixel header)
                                  (bmp_header.width header)
                 * usize (abs (bmp_header.height header))) in
        if negb ((bmp_header.image_size_bytes header =? 0)
                 || (bmp_header.image_size_bytes header =? image_data_size))
        then corrupt
        else result in
    (result, stream, header_out).

(** ** Color table *)

(** [std::vector::resize]. *)
Definition resize (count : Z) (v : list color_table_entry.t) : list color_table_entry.t :=
  take (Z.to_nat count) v
  ++ replicate (Z.to_nat count - length v) color_table_entry.zero.

Definition load_color_table (stream : ifstream.t) (header : bmp_header.t)
    (color_table_out : list color_table_entry.t)
  : operation_result * ifstream.t * list color_table_entry.t :=
  let result := ok in
  let stream :=
    ifstream.seekg (u32 (bmp_header.bitmap_info_header_size header + 14)) stream in
  if ifstream.fail stream then (file_read_error, stream, color_table_out)
  else
    let color_table_out :=
      if negb (bmp_header.num_colors header =? 0)
      then resize (bmp_header.num_colors header) color_table_out
      else if (bmp_header.num_colors header =? 0)
              && (bmp_header.bits_per_pixel header =? 1)
      then resize 1 color_table_out
      else if (bmp_header.num_colors header =? 0)
              && (bmp_header.bits_per_pixel header =? 4)
      then resize 16 color_table_out
      else if (bmp_header.num_colors header =? 0)
              && (bmp_header.bits_per_pixel header =? 8)
      then resize 256 color_table_out
      else color_table_out in
    if negb (Z.of_nat (length color_table_out) =? 0) then
      let size_of_color_table_bytes :=
        usize (Z.of_nat (length color_table_out) * color_table_entry.sizeof) in
      let '(chunk, stream) := ifstream.read size_of_color_table_bytes stream in
      let color_table_out :=
        color_table_of_bytes (store chunk (concat (map entry_bytes color_table_out))) in
      if ifstream.fail stream then (file_read_error, stream, color_table_out)
      else (result, stream, color_table_out)
    else (unsupported_use_of_color_table, stream, color_table_out).

(** The loop of [check_is_linear_mono8] from counter value [i]
    ([uint8_t], so the increment wraps at 256). *)
Fixpoint check_is_linear_mono8_from (i : Z) (color_table : list color_table_entry.t)
  : bool :=
  match color_table with
  | [] => true
  | entry :: color_table' =>
      if negb ((byte.unsigned (color_table_entry.b entry) =? i)
               && (byte.unsigned (color_table_entry.g entry) =? i)
               && (byte.unsigned (color_table_entry.r entry) =? i))
      then false
      else check_is_linear_mono8_from ((i + 1) mod 256) color_table'
  end.

Definition check_is_linear_mono8 (color_table : list color_table_entry.t) : bool :=
  check_is_linear_mono8_from 0 color_table.

Fixpoint check_is_mono8 (color_table : list color_table_entry.t) : bool :=
  match color_table with
  | [] => true
  | entry :: color_table' =>
      if negb ((byte.unsigned (color_table_entry.r entry)
                  =? byte.unsigned (color_table_entry.g entry))
               && (byte.unsigned (color_table_entry.r entry)
                     =? byte.unsigned (color_table_entry.b entry)))
      then false
      else check_is_mono8 color_table'
  end.

(** ** Property inference *)

Definition determine_image_properties (header : bmp_header.t)
    (color_table_out : list color_table_entry.t)
    (the_image_properties : image_properties) : image_properties :=
  let height' := u32 (abs (bmp_header.height header)) in
  let width' := u32 (abs (bmp_header.width header)) in
  let pixel_format' :=
    if bmp_header.bits_per_pixel header <=? 8 then
      if check_is_mono8 color_table_out then Mono8 else BGR8
    else if bmp_header.bits_per_pixel header =? 24 then BGR8
    else if bmp_header.bits_per_pixel header =? 32 then BGRA8
    else pixel_format the_image_properties (* assert(false), compiled out *) in
  let orientation' :=
    if bmp_header.height header <? 0 then top_down else bottom_up in
  let line_padding' :=
    determine_line_padding (bmp_header.bits_per_pixel header) (bmp_header.width header) in
  {| width := width'; height := height'; line_padding := line_padding';
     pixel_format := pixel_format'; orientation := orientation' |}.

Definition load_image_properties (stream : ifstream.t) (header : bmp_header.t)
    (color_table_out : list color_table_entry.t)
    (the_image_properties : image_properties)
  : operation_result * ifstream.t * bmp_header.t * list color_table_entry.t
    * image_properties :=
  let result := result_invalid in
  let '(result, stream, header) :=
    if negb (ifstream.is_open stream) then (file_not_found, stream, header)
    else load_and_check_header stream header in
  let '(result, stream, color_table_out) :=
    if is_ok result && (bmp_header.bits_per_pixel header =? 8)
    then load_color_table stream header color_table_out
    else (result, stream, color_table_out) in
  let the_image_properties :=
    if is_ok result
    then determine_image_properties header color_table_out the_image_properties
    else default_image_properties (* clear *) in
  (result, stream, header, color_table_out, the_image_properties).

(** ** Public API: loading the properties

    [filename] is [None] for a null pointer. *)
Definition load (filename : option string) (the_image_properties : image_properties)
    (fs : filesystem) : operation_result * image_properties :=
  let result := result_invalid in
  let header := bmp_header.zero in
  let color_table : list color_table_entry.t := [] in
  match filename with
  | None => (null_argument, the_image_properties)
  | Some filename =>
      let file := open_ifstream filename fs in
      let '(result, file, header, color_table, the_image_properties) :=
        load_image_properties file header color_table the_image_properties in
      (result, the_image_properties)
  end.

(** ** Pixel transfer *)

(** [color_table[index]].  An index past the end of the vector is
    undefined in the source; the model reads a zero entry there, and the
    properties that name the bytes stored for a pixel are stated for
    indices inside the table. *)
Definition color_table_at (color_table : list color_table_entry.t) (index : byte)
  : color_table_entry.t :=
  default color_table_entry.zero (color_table !! Z.to_nat (byte.unsigned index)).

(** The bytes a [write] or a table lookup takes from the buffer at
    [p .. p + count).  Reading past the end of the buffer is undefined in
    the source; the model stops at the end. *)
Definition bytes_at (p count : Z) (buffer : list byte) : list byte :=
  take (Z.to_nat count) (drop (Z.to_nat p) buffer).

(** The bytes of the buffer after [bytes] were stored at [p].  Writing
    past the end of the buffer is undefined in the source; the model drops
    those bytes. *)
Definition store_at (p : Z) (bytes buffer : list byte) : list byte :=
  list_inserts (Z.to_nat p) bytes buffer.

Section line_loops.
Variable the_image_properties : image_properties.
Variable orientation_in_file : orientation_type.
Variables stride_in_buffer stride_in_file line_padding_in_file : Z.

(** [p_target - buffer] (decode) and [p_source - buffer] (encode) of a
    line: the same two assignments open the body of each of the four
    loops.  [line] is a [uint32_t] or a non-negative [int32_t], the
    difference is computed in [uint32_t] and the product in [size_t]. *)
Definition line_offset (line : Z) : Z :=
  if bool_decide (orientation the_image_properties = orientation_in_file)
  then usize (line * stride_in_buffer)
  else usize (u32 (height the_image_properties - line - 1) * stride_in_buffer).

(** The loops run [line] from 0 up to a bound; [count] is the number of
    iterations left, so [line] stays below the bound and [++line] does
    not wrap. *)

(** More than 8 bits per pixel into [BGR8] or [BGRA8]. *)
Fixpoint load_lines_direct (count : nat) (line : Z) (result : operation_result)
    (file : ifstream.t) (buffer : list byte)
  : operation_result * ifstream.t * list byte :=
  match count with
  | O => (result, file, buffer)
  | S count' =>
      let p_target := line_offset line in
      let '(chunk, file) :=
        ifstream.read (usize (stride_in_file - line_padding_in_file)) file in
      let buffer := store_at p_target chunk buffer in
      if ifstream.fail file then (file_read_error, file, buffer)
      else if negb (line_padding_in_file =? 0) then
        let file := ifstream.seekg_cur line_padding_in_file file in
        if ifstream.fail file then (file_write_error, file, buffer)
        else load_lines_direct count' (line + 1) result file buffer
      else load_lines_direct count' (line + 1) result file buffer
  end.

Variable header : bmp_header.t.
Variable color_table : list color_table_entry.t.

(** Into [Mono8]; [b == g == r] in the color table. *)
Fixpoint load_lines_mono8 (linear_lut : bool) (count : nat) (line : Z)
    (result : operation_result) (file : ifstream.t) (buffer : list byte)
  : operation_result * ifstream.t * list byte :=
  match count with
  | O => (result, file, buffer)
  | S count' =>
      let p_target := line_offset line in
      let '(chunk, file) :=
        ifstream.read (usize (stride_in_file - line_padding_in_file)) file in
      let buffer := store_at p_target chunk buffer in
      if ifstream.fail file then (file_read_error, file, buffer)
      else
        let buffer :=
          if negb linear_lut then
            store_at p_target
              (map (fun index => color_table_entry.b (color_table_at color_table index))
                   (bytes_at p_target (abs (bmp_header.width header)) buffer))
              buffer
          else buffer in
        if negb (line_padding_in_file =? 0) then
          let file := ifstream.seekg_cur line_padding_in_file file in
          if ifstream.fail file then (file_write_error, file, buffer)
          else load_lines_mono8 linear_lut count' (line + 1) result file buffer
        else load_lines_mono8 linear_lut count' (line + 1) result file buffer
  end.

(** The three bytes an index expands to. *)
Definition expand_index (index : byte) : list byte :=
  let entry := color_table_at color_table index in
  [color_table_entry.b entry; color_table_entry.g entry; color_table_entry.r entry].

(** 8 bits per pixel into [BGR8]; [b != g != r] somewhere in the color
    table.  [stride_buffer] is the scratch vector of one file line. *)
Fixpoint load_lines_indexed (count : nat) (line : Z) (result : operation_result)
    (stride_buffer : list byte) (file : ifstream.t) (buffer : list byte)
  : operation_result * ifstream.t * list byte :=
  match count with
  | O => (result, file, buffer)
  | S count' =>
      let '(chunk, file) := ifstream.read (Z.of_nat (length stride_buffer)) file in
      let stride_buffer := store chunk stride_buffer in
      if negb (length chunk =? length stride_buffer)%nat
      then (file_read_error, file, buffer)
      else
        let p_target := line_offset line in
        let buffer :=
          store_at p_target
            (flat_map expand_index
               (take (Z.to_nat (abs (bmp_header.width header))) stride_buffer))
            buffer in
        load_lines_indexed count' (line + 1) result stride_buffer file buffer
  end.

(** The line loop of [save]. *)
Fixpoint save_lines (buffer : list byte) (count : nat) (line : Z)
    (result : operation_result) (file : ofstream.t)
  : operation_result * ofstream.t :=
  match count with
  | O => (result, file)
  | S count' =>
      let p_source := line_offset line in
      let file :=
        ofstream.write
          (bytes_at p_source
             (usize (stride_in_buffer - line_padding the_image_properties)) buffer)
          file in
      if ofstream.fail file then (file_write_error, file)
      else if negb (line_padding_in_file =? 0) && (line_padding_in_file <=? 4) then
        let padding := 0 in
        let file :=
          ofstream.write (take (Z.to_nat line_padding_in_file) (le_split 4 padding))
                         file in
        if ofstream.fail file then (file_write_error, file)
        else save_lines buffer count' (line + 1) result file
      else (* line_padding_in_file == 0, or assert(false) compiled out *)
        save_lines buffer count' (line + 1) result file
  end.
End line_loops.

(** ** Public API: loading into a buffer

    The second overload of [load].  [buffer] is [None] for a null pointer;
    the result carries the buffer and the properties as the call leaves
    them. *)
Definition load_buffer (filename : option string) (buffer : option (list byte))
    (buffersize : Z) (the_image_properties : image_properties)
    (force_line_padding force_orientation : bool) (fs : filesystem)
  : operation_result * option (list byte) * image_properties :=
  let result := ok in
  let header := bmp_header.zero in
  let color_table : list color_table_entry.t := [] in
  match buffer, filename with
  | Some buffer, Some filename =>
      if force_orientation
         && bool_decide (orientation the_image_properties = orientation_invalid)
      then (invalid_argument, Some buffer, the_image_properties)
      else
        let file := open_ifstream filename fs in
        let suggested_orientation := orientation the_image_properties in
        let suggested_line_padding := line_padding the_image_properties in
        let '(result, file, header, color_table, the_image_properties) :=
          load_image_properties file header color_table the_image_properties in
        let orientation_in_file := orientation the_image_properties in
        if is_ok result then
          let the_image_properties :=
            if force_line_padding
            then {| width := width the_image_properties;
                    height := height the_image_properties;
                    line_padding := suggested_line_padding;
                    pixel_format := pixel_format the_image_properties;
                    orientation := orientation the_image_properties |}
            else the_image_properties in
          let the_image_properties :=
            if force_orientation
            then {| width := width the_image_properties;
                    height := height the_image_properties;
                    line_padding := line_padding the_image_properties;
                    pixel_format := pixel_format the_image_properties;
                    orientation := suggested_orientation |}
            else the_image_properties in
          let stride_in_file :=
            determine_stride (bmp_header.bits_per_pixel header) (bmp_header.width header) in
          let stride_in_buffer := determine_stride_props the_image_properties in
          let line_padding_in_file :=
            determine_line_padding (bmp_header.bits_per_pixel header)
                                   (bmp_header.width header) in
          let image_size_in_buffer :=
            usize (stride_in_buffer * usize (abs (bmp_header.height header))) in
          if buffersize <? image_size_in_buffer
          then (buffer_too_small, Some buffer, the_image_properties)
          else
            let file := ifstream.seekg (bmp_header.offset header) file in
            if ifstream.fail file
            then (file_read_error, Some buffer, the_image_properties)
            else if (8 <? bmp_header.bits_per_pixel header)
                    && (bool_decide (pixel_format the_image_properties = BGR8)
                        || bool_decide (pixel_format the_image_properties = BGRA8))
            then
              let '(result, file, buffer) :=
                load_lines_direct the_image_properties orientation_in_file
                  stride_in_buffer stride_in_file line_padding_in_file
                  (Z.to_nat (height the_image_properties)) 0 result file buffer in
              (result, Some buffer, the_image_properties)
            else if bool_decide (pixel_format the_image_properties = Mono8)
            then
              let linear_lut := check_is_linear_mono8 color_table in
              let '(result, file, buffer) :=
                load_lines_mono8 the_image_properties orientation_in_file
                  stride_in_buffer stride_in_file line_padding_in_file
                  header color_table linear_lut
                  (Z.to_nat (abs (bmp_header.height header))) 0 result file buffer in
              (result, Some buffer, the_image_properties)
            else if bool_decide (pixel_format the_image_properties = BGR8)
                    && (bmp_header.bits_per_pixel header =? 8)
            then
              let stride_buffer := replicate (Z.to_nat stride_in_file) Byte.x00 in
              let '(result, file, buffer) :=
                load_lines_indexed the_image_properties orientation_in_file
                  stride_in_buffer header color_table
                  (Z.to_nat (abs (bmp_header.height header))) 0 result
                  stride_buffer file buffer in
              (result, Some buffer, the_image_properties)
            else (unsupported_bit_per_pixel, Some buffer, the_image_properties)
        else (result, Some buffer, the_image_properties)
  | _, _ => (null_argument, buffer, the_image_properties)
  end.

(** ** Public API: saving *)

(** The header [save] fills in before it writes it (the assignments up to
    [header.size += image_size_in_file]) and the orientation of the lines
    in the file. *)
Definition save_header (the_image_properties : image_properties)
    (force_bottom_up : bool) : bmp_header.t * orientation_type :=
  let orientation_in_file := bottom_up in
  let type := 0x4D42 in
  let size := bmp_header.sizeof in
  let offset := bmp_header.sizeof in
  let bitmap_info_header_size := bmp_header.sizeof - 14 in
  let width' := i32 (width the_image_properties) in
  let height' := i32 (height the_image_properties) in
  let '(height', orientation_in_file) :=
    if negb force_bottom_up
       && bool_decide (orientation the_image_properties = top_down)
    then (i32 (- height'), top_down)
    else (height', orientation_in_file) in
  let bits_per_pixel :=
    match pixel_format the_image_properties with
    | Mono8 => 8
    | BGR8 => 24
    | BGRA8 => 32
    | pixel_format_invalid => 0 (* assert(false), compiled out *)
    end in
  let num_colors := 0 in
  let important_colors := 0 in
  let '(size, offset, num_colors, important_colors) :=
    if bool_decide (pixel_format the_image_properties = Mono8)
    then (u32 (size + 256 * color_table_entry.sizeof),
          u32 (offset + 256 * color_table_entry.sizeof), 256, 256)
    else (size, offset, num_colors, important_colors) in
  let stride_in_file := determine_stride bits_per_pixel width' in
  let image_size_in_file := usize (stride_in_file * usize (abs height')) in
  let size := u32 (size + u32 image_size_in_file) in
  (bmp_header.mk type size 0 0 offset bitmap_info_header_size width' height'
                 1 bits_per_pixel 0 0 0 0 num_colors important_colors,
   orientation_in_file).

(** The loop that writes the 256 gray entries, from entry [i]. *)
Fixpoint write_color_table (count : nat) (i : Z) (result : operation_result)
    (file : ofstream.t) : operation_result * ofstream.t :=
  match count with
  | O => (result, file)
  | S count' =>
      let entry :=
        color_table_entry.mk (byte.of_Z i) (byte.of_Z i) (byte.of_Z i) (byte.of_Z 255) in
      let file := ofstream.write (entry_bytes entry) file in
      if ofstream.fail file then (file_write_error, file)
      else write_color_table count' (i + 1) result file
  end.

Definition save (filename : option string) (buffer : option (list byte))
    (buffersize : Z) (the_image_properties : image_properties)
    (force_bottom_up : bool) (fs : filesystem)
  : operation_result * filesystem :=
  let result := ok in
  match buffer, filename with
  | Some buffer, Some filename =>
      if (height the_image_properties =? 0)
         || (width the_image_properties =? 0)
         || bool_decide (pixel_format the_image_properties = pixel_format_invalid)
         || bool_decide (orientation the_image_properties = orientation_invalid)
         || (buffersize =? 0)
         || (determine_stride_props the_image_properties =? 0)
      then (invalid_argument, fs)
      else if buffersize
              <? usize (determine_stride_props the_image_properties
                        * height the_image_properties)
      then (buffer_too_small, fs)
      else
        let file := open_ofstream filename fs in
        if negb (ofstream.is_open file) then (file_open_for_writing_error, fs)
        else
          let stride_in_buffer := determine_stride_props the_image_properties in
          let '(header, orientation_in_file) :=
            save_header the_image_properties force_bottom_up in
          (* write header *)
          let file := ofstream.write (header_bytes header) file in
          let result := if ofstream.fail file then file_write_error else result in
          (* write color table if needed *)
          let '(result, file) :=
            if is_ok result && bool_decide (pixel_format the_image_properties = Mono8)
            then write_color_table 256 0 result file
            else (result, file) in
          (* write image data, linewise *)
          let line_padding_in_file :=
            determine_line_padding (bmp_header.bits_per_pixel header)
                                   (bmp_header.width header) in
          let '(result, file) :=
            save_lines the_image_properties orientation_in_file stride_in_buffer
              line_padding_in_file buffer
              (Z.to_nat (height the_image_properties)) 0 result file in
          (result, close_ofstream filename file fs)
  | _, _ => (null_argument, fs)
  end.

(** * Notions of the specification *)

(** The bytes per pixel of a buffer format, as the specification names
    them (section 4.3); 0 for the invalid format. *)
Definition bytes_per_pixel (format : pixel_format_type) : Z :=
  match format with
  | Mono8 => 1
  | BGR8 => 3
  | BGRA8 => 4
  | pixel_format_invalid => 0
  end.

(** The magic of a BMP file: the ASCII pair "BM" read as a little-endian
    16-bit number. *)
Definition magic_BM : Z := le_combine [Byte.x42; Byte.x4d].

(** File stride (section 4.3): the bytes of a line in the file, rounded up
    to the next multiple of 4. *)
Definition file_stride (bits_per_pixel width : Z) : Z :=
  (bits_per_pixel / 8 * Z.abs width + 3) / 4 * 4.

(** File padding: the rounding remainder. *)
Definition file_padding (bits_per_pixel width : Z) : Z :=
  file_stride bits_per_pixel width - bits_per_pixel / 8 * Z.abs width.

Definition one_of (z : Z) (values : list Z) : bool :=
  existsb (Z.eqb z) values.

(** The ten checks of the header validation in the order of the
    specification (section 4.1): each is the condition under which the
    check fails and the error it reports. *)
Definition validation_rules : list ((bmp_header.t -> bool) * operation_result_type) :=
  [ (fun h => negb (bmp_header.type h =? magic_BM), not_a_bmp_file);
    (fun h => bmp_header.bitmap_info_header_size h <? 40, corrupt);
    (fun h => bmp_header.offset h <? 54, corrupt);
    (fun h => (bmp_header.height h =? 0) || (bmp_header.width h <=? 0), corrupt);
    (fun h => negb (one_of (bmp_header.bits_per_pixel h) [1; 4; 8; 16; 24; 32]),
     corrupt);
    (fun h => negb (bmp_header.compression h =? 0), unsupported_compression);
    (fun h => negb (one_of (bmp_header.bits_per_pixel h) [8; 24; 32]),
     unsupported_bit_per_pixel);
    (fun h => one_of (bmp_header.bits_per_pixel h) [24; 32]
              && (negb (bmp_header.num_colors h =? 0)
                  || negb (bmp_header.important_colors h =? 0)),
     unsupported_use_of_color_table);
    (fun h => (bmp_header.bits_per_pixel h =? 8)
              && ((bmp_header.num_colors h >? 256)
                  || (bmp_header.important_colors h >? 256)),
     too_large_color_table);
    (fun h => negb (bmp_header.image_size_bytes h =? 0)
              && negb (bmp_header.image_size_bytes h
                       =? file_stride (bmp_header.bits_per_pixel h) (bmp_header.width h)
                          * Z.abs (bmp_header.height h)),
     corrupt) ].

(** The error of the first check that fails, [ok] when none does. *)
Definition first_failure (rules : list ((bmp_header.t -> bool) * operation_result_type))
    (h : bmp_header.t) : operation_result_type :=
  match find (fun rule => fst rule h) rules with
  | Some rule => snd rule
  | None => ok
  end.

(** Every field is in the range of its C++ type. *)
Definition header_in_range (h : bmp_header.t) : Prop :=
  0 <= bmp_header.type h < 2 ^ 16 /\
  0 <= bmp_header.size h < 2 ^ 32 /\
  0 <= bmp_header.reserved1 h < 2 ^ 16 /\
  0 <= bmp_header.reserved2 h < 2 ^ 16 /\
  0 <= bmp_header.offset h < 2 ^ 32 /\
  0 <= bmp_header.bitmap_info_header_size h < 2 ^ 32 /\
  - 2 ^ 31 <= bmp_header.width h < 2 ^ 31 /\
  - 2 ^ 31 <= bmp_header.height h < 2 ^ 31 /\
  0 <= bmp_header.num_planes h < 2 ^ 16 /\
  0 <= bmp_header.bits_per_pixel h < 2 ^ 16 /\
  0 <= bmp_header.compression h < 2 ^ 32 /\
  0 <= bmp_header.image_size_bytes h < 2 ^ 32 /\
  - 2 ^ 31 <= bmp_header.x_resolution h < 2 ^ 31 /\
  - 2 ^ 31 <= bmp_header.y_resolution h < 2 ^ 31 /\
  0 <= bmp_header.num_colors h < 2 ^ 32 /\
  0 <= bmp_header.important_colors h < 2 ^ 32.

(** A stream on which the next operation reaches a working device. *)
Definition ready (s : ifstream.t) : Prop :=
  ifstream.fail s = false /\ fst (next_fault (ifstream.faults s)) = false.

(** What the checks of [load_and_check_header] establish about a header
    they let pass. *)
Definition accepted (h : bmp_header.t) : Prop :=
  header_in_range h /\
  bmp_header.type h = 0x4D42 /\
  40 <= bmp_header.bitmap_info_header_size h /\
  54 <= bmp_header.offset h /\
  0 < bmp_header.width h /\
  bmp_header.height h <> 0 /\
  (bmp_header.bits_per_pixel h = 8 \/ bmp_header.bits_per_pixel h = 24
   \/ bmp_header.bits_per_pixel h = 32) /\
  bmp_header.compression h = 0 /\
  (bmp_header.bits_per_pixel h = 8 ->
   bmp_header.num_colors h <= 256 /\ bmp_header.important_colors h <= 256) /\
  (bmp_header.bits_per_pixel h <> 8 ->
   bmp_header.num_colors h = 0 /\ bmp_header.important_colors h = 0).

(** A color-table entry with equal red, green and blue. *)
Definition gray (entry : color_table_entry.t) : Prop :=
  color_table_entry.r entry = color_table_entry.g entry
  /\ color_table_entry.g entry = color_table_entry.b entry.

(** The number of entries the color table of an 8-bit file has: the
    declared color count, or 256 when that is 0 (section 3). *)
Definition color_table_length (h : bmp_header.t) : Z :=
  if bmp_header.num_colors h =? 0 then 256 else bmp_header.num_colors h.

(** The validity invariant of the properties (section 3), with the
    orientation set. *)
Definition valid_properties (p : image_properties) : Prop :=
  0 < width p /\ 0 < height p
  /\ pixel_format p <> pixel_format_invalid
  /\ orientation p <> orientation_invalid.

(** ** Sample values *)

Definition sample_properties : image_properties :=
  {| width := 3; height := 2; line_padding := 1;
     pixel_format := Mono8; orientation := top_down |}.

(** Two lines of three pixels, each followed by one byte of padding. *)
Definition sample_buffer : list byte :=
  map byte.of_Z [1; 2; 3; 99; 4; 5; 6; 98].

Definition empty_disk : filesystem := mk_filesystem ∅ ∅ [].

(** The disk after the sample image was saved. *)
Definition sample_disk : filesystem :=
  snd (save (Some "image.bmp"%string) (Some sample_buffer) 8 sample_properties
            true empty_disk).

Definition bgr_properties : image_properties :=
  {| width := 1; height := 2; line_padding := 0;
     pixel_format := BGR8; orientation := bottom_up |}.

(** Two lines of one [BGR8] pixel. *)
Definition bgr_buffer : list byte := map byte.of_Z [1; 2; 3; 4; 5; 6].

(** The disk after the one-pixel-wide image was saved: each line of the
    file carries one byte of padding. *)
Definition bgr_disk : filesystem :=
  snd (save (Some "bgr.bmp"%string) (Some bgr_buffer) 6 bgr_properties true
            empty_disk).

(** The same disk on a device that serves the header read, the seek to
    the pixel data and the read of the first line, and then refuses the
    seek over the padding of that line. *)
Definition bgr_disk_failing_skip : filesystem :=
  mk_filesystem (files bgr_disk) ∅ [false; false; false; true].

(** The same disk on a device that fails the read of the first line. *)
Definition bgr_disk_failing_read : filesystem :=
  mk_filesystem (files bgr_disk) ∅ [false; false; true].

(** ** The transfer, line by line *)

Section line_placement.
Variable the_image_properties : image_properties.
Variable orientation_in_file : orientation_type.
Variable stride_in_buffer : Z.

(** The buffer after the decoded rows of consecutive file lines, the
    first of them line [line], were stored where [line_offset] has
    them. *)
Fixpoint place_lines (rows : list (list byte)) (line : Z) (buffer : list byte)
  : list byte :=
  match rows with
  | [] => buffer
  | row :: rows' =>
      place_lines rows' (line + 1)
        (store_at (line_offset the_image_properties orientation_in_file
                               stride_in_buffer line)
                  row buffer)
  end.

(** The lines [save] writes for [count] consecutive file lines from
    [line] on: [count_bytes] bytes of the buffer and the padding of the
    file. *)
Fixpoint saved_lines (buffer : list byte) (count_bytes line_padding_in_file : Z)
    (count : nat) (line : Z) : list (list byte) :=
  match count with
  | O => []
  | S count' =>
      (bytes_at (line_offset the_image_properties orientation_in_file
                             stride_in_buffer line)
                count_bytes buffer
       ++ replicate (Z.to_nat line_padding_in_file) Byte.x00)
      :: saved_lines buffer count_bytes line_padding_in_file count' (line + 1)
  end.

(** The byte offset of the specification (section 4.4) for file line
    [line]: the line itself when the orientations agree, the mirrored
    line otherwise. *)
Definition row_offset (line : Z) : Z :=
  if bool_decide (orientation the_image_properties = orientation_in_file)
  then line * stride_in_buffer
  else (height the_image_properties - 1 - line) * stride_in_buffer.
End line_placement.

(** The bytes of the 256-entry gray palette from entry [i] on. *)
Fixpoint gray_ramp (count : nat) (i : Z) : list byte :=
  match count with
  | O => []
  | S count' =>
      [byte.of_Z i; byte.of_Z i; byte.of_Z i; byte.of_Z 255]
      ++ gray_ramp count' (i + 1)
  end.

(** A stream on a working device whose next bytes are [data]. *)
Definition delivers (s : ifstream.t) (data : list byte) : Prop :=
  ifstream.fail s = false /\ ifstream.faults s = []
  /\ exists rest, drop (ifstream.gpos s) (ifstream.contents s) = data ++ rest.

(** The pixels of a [Mono8] line as they are stored: the bytes of the
    file, or their gray values in the color table when the table is not
    the identity. *)
Definition decode_mono8 (color_table : list color_table_entry.t) (linear_lut : bool)
    (pixels : list byte) : list byte :=
  if linear_lut then pixels
  else map (fun index => color_table_entry.b (color_table_at color_table index)) pixels.

(** The contents of the file a successful [save] leaves: the header, the
    gray palette of a [Mono8] image, and the lines. *)
Definition saved_file (p : image_properties) (force_bottom_up : bool)
    (buffer : list byte) : list byte :=
  let '(header, orientation_in_file) := save_header p force_bottom_up in
  header_bytes header
  ++ (if bool_decide (pixel_format p = Mono8) then gray_ramp 256 0 else [])
  ++ concat
       (saved_lines p orientation_in_file (determine_stride_props p) buffer
          (usize (determine_stride_props p - line_padding p))
          (determine_line_padding (bmp_header.bits_per_pixel header)
                                  (bmp_header.width header))
          (Z.to_nat (height p)) 0).

(** The color table [load] reads from the bytes of an 8-bit file; empty
    for the other depths. *)
Definition loaded_color_table (header : bmp_header.t) (bytes : list byte)
  : list color_table_entry.t :=
  if bmp_header.bits_per_pixel header =? 8
  then color_table_of_bytes
         (take (Z.to_nat (4 * color_table_length header))
               (drop (Z.to_nat (u32 (bmp_header.bitmap_info_header_size header + 14)))
                     bytes))
  else [].

(** The bytes a file line decodes to: the pixel bytes themselves for 24
    and 32 bits per pixel; for 8 bits per pixel the gray values of a gray
    table, or the three bytes of each index of a table that is not gray
    (section 4.4). *)
Definition decoded_row (header : bmp_header.t)
    (color_table : list color_table_entry.t) (file_line : list byte) : list byte :=
  if 8 <? bmp_header.bits_per_pixel header
  then take (Z.to_nat (bmp_header.bits_per_pixel header / 8 * bmp_header.width header))
            file_line
  else if check_is_mono8 color_table
  then decode_mono8 color_table (check_is_linear_mono8 color_table)
                    (take (Z.to_nat (bmp_header.width header)) file_line)
  else flat_map (expand_index color_table)
                (take (Z.to_nat (bmp_header.width header)) file_line).

(** Every pixel of the lines of an 8-bit file indexes the color table
    inside it.  [load] reads the table at the index of each pixel without
    a check, so this is what its lookups need to be defined. *)
Definition indices_in_table (header : bmp_header.t)
    (color_table : list color_table_entry.t) (lines : list (list byte)) : Prop :=
  bmp_header.bits_per_pixel header = 8 ->
  Forall (fun file_line =>
            Forall (fun index =>
                      (Z.to_nat (byte.unsigned index) < length color_table)%nat)
                   (take (Z.to_nat (bmp_header.width header)) file_line))
         lines.

(** The properties the buffer overload of [load] returns: those of the
    file, with the caller's line padding or orientation when forced. *)
Definition forced_properties (p0 p : image_properties)
    (force_line_padding force_orientation : bool) : image_properties :=
  {| width := width p0; height := height p0;
     line_padding := if force_line_padding then line_padding p else line_padding p0;
     pixel_format := pixel_format p0;
     orientation := if force_orientation then orientation p else orientation p0 |}.

(** The stride of a buffer, in exact arithmetic (section 4.3). *)
Definition buffer_stride (p : image_properties) : Z :=
  width p * bytes_per_pixel (pixel_format p) + line_padding p.

(** Row [r] of the image, counted from the top, as the buffer holds it:
    a top-down buffer starts with the top row of the image, a bottom-up
    buffer with its bottom row (section 3).  The row is the pixel bytes,
    without the line padding. *)
Definition image_row (p : image_properties) (buffer : list byte) (r : Z)
  : list byte :=
  bytes_at ((if bool_decide (orientation p = top_down) then r else height p - 1 - r)
            * buffer_stride p)
           (width p * bytes_per_pixel (pixel_format p)) buffer.

(** The bytes of the sample file and its two lines: the file is
    bottom-up, so the second line of the top-down buffer comes first. *)
Definition sample_file : list byte := saved_file sample_properties true sample_buffer.

Definition sample_lines : list (list byte) :=
  [map byte.of_Z [4; 5; 6; 0]; map byte.of_Z [1; 2; 3; 0]].

(** An 8-bit file of one line of two pixels with a table of two colors
    that are not gray: the header, the table, and the line on four
    bytes. *)
Definition palette_header : bmp_header.t :=
  bmp_header.mk 0x4D42 66 0 0 62 40 2 1 1 8 0 0 0 0 2 2.

Definition palette_file : list byte :=
  header_bytes palette_header
  ++ map byte.of_Z [10; 20; 30; 0; 40; 50; 60; 0]
  ++ map byte.of_Z [1; 0; 0; 0].

Definition palette_disk : filesystem :=
  mk_filesystem {[ "palette.bmp"%string := palette_file ]} ∅ [].

(** The color table [save] writes for a [Mono8] image, as [load] reads it
    back: entry [i] is the gray value [i]. *)
Definition gray_table : list color_table_entry.t :=
  color_table_of_bytes (gray_ramp 256 0).

(** The arguments [save] rejects as invalid once both pointers are set. *)
Definition save_rejects (p : image_properties) (buffersize : Z) : Prop :=
  height p = 0 \/ width p = 0
  \/ pixel_format p = pixel_format_invalid
  \/ orientation p = orientation_invalid
  \/ buffersize = 0 \/ determine_stride_props p = 0.

(** What a loop of writes has appended to a file: all the bytes when it
    keeps the result, a prefix of them when it reports a write error, and
    nothing on a stream that had failed before. *)
Definition appended (file file' : ofstream.t) (result result' : operation_result)
    (all : list byte) : Prop :=
  ofstream.is_open file' = ofstream.is_open file
  /\ exists w,
       ofstream.written file' = ofstream.written file ++ w
       /\ (ofstream.fail file = true -> w = [] /\ ofstream.fail file' = true)
       /\ ((result' = result /\ ofstream.fail file' = ofstream.fail file /\ w = all)
           \/ (result' = file_write_error /\ ofstream.fail file' = true
               /\ w `prefix_of` all)).

(** A disk whose only file is the sample file cut after 53 bytes. *)
Definition cut_disk : filesystem :=
  mk_filesystem {[ "cut.bmp"%string := take 53 sample_file ]} ∅ [].

(** A disk whose only file is the sample file cut after 100 bytes, inside
    its color table. *)
Definition cut_table_disk : filesystem :=
  mk_filesystem {[ "cut.bmp"%string := take 100 sample_file ]} ∅ [].

(** A stream on a working device whose remaining bytes are exactly
    [data]. *)
Definition ends_with (s : ifstream.t) (data : list byte) : Prop :=
  ifstream.fail s = false /\ ifstream.faults s = []
  /\ drop (ifstream.gpos s) (ifstream.contents s) = data.

(** A disk whose only file is the sample file cut after 1084 bytes: the
    first of its two lines and two bytes of the second. *)
Definition cut_pixels_disk : filesystem :=
  mk_filesystem {[ "cut.bmp"%string := take 1084 sample_file ]} ∅ [].

(** * Properties *)

(** ** Arithmetic of the machine integers *)

Lemma usize_range z : 0 <= usize z < 2 ^ 64.
Proof. unfold usize. apply Z.mod_pos_bound. lia. Qed.

Lemma usize_small z : 0 <= z < 2 ^ 64 -> usize z = z.
Proof. unfold usize. intros. apply Z.mod_small. lia. Qed.

Lemma u32_range z : 0 <= u32 z < 2 ^ 32.
Proof. unfold u32. apply Z.mod_pos_bound. lia. Qed.

Lemma u32_small z : 0 <= z < 2 ^ 32 -> u32 z = z.
Proof. unfold u32. intros. apply Z.mod_small. lia. Qed.

Lemma i32_range z : - 2 ^ 31 <= i32 z < 2 ^ 31.
Proof.
  unfold i32. pose proof (Z.mod_pos_bound (z + 2 ^ 31) (2 ^ 32)). lia.
Qed.

Lemma i32_small z : - 2 ^ 31 <= z < 2 ^ 31 -> i32 z = z.
Proof. unfold i32. intros. rewrite Z.mod_small; lia. Qed.

Lemma i32_u32 z : i32 (u32 z) = i32 z.
Proof.
  unfold i32, u32.
  rewrite Zplus_mod_idemp_l. reflexivity.
Qed.

Lemma abs_pos x : 0 <= x < 2 ^ 31 -> abs x = x.
Proof. intros. unfold abs. rewrite Z.abs_eq by lia. apply i32_small. lia. Qed.

Lemma abs_neg x : - 2 ^ 31 < x <= 0 -> abs x = - x.
Proof. intros. unfold abs. rewrite Z.abs_neq by lia. apply i32_small. lia. Qed.

Lemma abs_min : abs (- 2 ^ 31) = - 2 ^ 31.
Proof. reflexivity. Qed.

(** ** Buffer size *)

Lemma determine_stride_props_eq p :
  determine_stride_props p
  = usize (width p * bytes_per_pixel (pixel_format p) + line_padding p).
Proof. unfold determine_stride_props. destruct (pixel_format p); reflexivity. Qed.

Lemma compute_buffer_size_zero p :
  width p = 0 \/ height p = 0 \/ pixel_format p = pixel_format_invalid ->
  fst (compute_buffer_size p) = 0.
Proof.
  intros H. unfold compute_buffer_size. cbn [fst].
  destruct (Z.eqb_spec (height p) 0) as [|Hh]; [reflexivity|].
  destruct (Z.eqb_spec (width p) 0) as [|Hw]; [reflexivity|].
  destruct (bool_decide_reflect (pixel_format p = pixel_format_invalid)) as [|Hf];
    [reflexivity|].
  exfalso. destruct H as [H|[H|H]]; auto.
Qed.

Lemma compute_buffer_size_nonzero p :
  width p <> 0 -> height p <> 0 -> pixel_format p <> pixel_format_invalid ->
  fst (compute_buffer_size p)
  = ((width p * bytes_per_pixel (pixel_format p) + line_padding p) * height p)
    mod 2 ^ 64.
Proof.
  intros Hw Hh Hf. unfold compute_buffer_size. cbn [fst].
  destruct (Z.eqb_spec (height p) 0) as [|_]; [contradiction|].
  destruct (Z.eqb_spec (width p) 0) as [|_]; [contradiction|].
  destruct (bool_decide_reflect (pixel_format p = pixel_format_invalid)) as [|_];
    [contradiction|].
  cbn [orb negb]. rewrite determine_stride_props_eq. unfold usize.
  rewrite Zmult_mod_idemp_l. reflexivity.
Qed.

(** C3 (as stated, refuted): with a line padding near the top of the
    [size_t] range the sum wraps around, and the size returned is not the
    exact product [(width * bytes_per_pixel + line_padding) * height]. *)
Lemma compute_buffer_size_exact_counterexample :
  let p := {| width := 1; height := 1; line_padding := 2 ^ 64 - 1;
              pixel_format := Mono8; orientation := bottom_up |} in
  props_in_range p /\
  width p <> 0 /\ height p <> 0 /\ pixel_format p <> pixel_format_invalid /\
  fst (compute_buffer_size p)
  <> (width p * bytes_per_pixel (pixel_format p) + line_padding p) * height p.
Proof.
  cbv zeta. unfold props_in_range. cbn [width height line_padding pixel_format].
  repeat split; try lia; discriminate.
Qed.

(** C3 (amended): for every [image_properties] value, [compute_buffer_size]
    returns 0 when the width or the height is 0 or the pixel format is
    invalid; otherwise it returns
    [(width * bytes_per_pixel + line_padding) * height] reduced modulo
    [2 ^ 64], the arithmetic of [size_t]. *)
Theorem compute_buffer_size_spec (p : image_properties) :
  fst (compute_buffer_size p)
  = if bool_decide (width p = 0 \/ height p = 0
                    \/ pixel_format p = pixel_format_invalid)
    then 0
    else ((width p * bytes_per_pixel (pixel_format p) + line_padding p) * height p)
         mod 2 ^ 64.
Proof.
  case_bool_decide as H.
  - apply compute_buffer_size_zero, H.
  - apply compute_buffer_size_nonzero; intros E; apply H; auto.
Qed.

(** When the exact size fits in [size_t], it is the size returned. *)
Lemma compute_buffer_size_exact (p : image_properties) :
  width p <> 0 -> height p <> 0 -> pixel_format p <> pixel_format_invalid ->
  0 <= (width p * bytes_per_pixel (pixel_format p) + line_padding p) * height p
    < 2 ^ 64 ->
  fst (compute_buffer_size p)
  = (width p * bytes_per_pixel (pixel_format p) + line_padding p) * height p.
Proof.
  intros. rewrite compute_buffer_size_nonzero by assumption.
  apply Z.mod_small. assumption.
Qed.

(** C9: [compute_buffer_size] leaves the properties it receives by
    mutable reference as they were, for every input. *)
Theorem compute_buffer_size_frame (p : image_properties) :
  snd (compute_buffer_size p) = p.
Proof. unfold compute_buffer_size. cbn [snd]. reflexivity. Qed.

(** ** Object representation *)

Lemma field_range off len bytes : 0 <= field off len bytes < 2 ^ (8 * Z.of_nat len).
Proof.
  unfold field.
  pose proof (le_combine_bound (take len (drop off bytes))) as Hb.
  assert (Hl : (length (take len (drop off bytes)) <= len)%nat)
    by (rewrite length_take; lia).
  assert (2 ^ (8 * Z.of_nat (length (take len (drop off bytes))))
          <= 2 ^ (8 * Z.of_nat len)) by (apply Z.pow_le_mono_r; lia).
  lia.
Qed.

Lemma header_of_bytes_in_range bytes : header_in_range (header_of_bytes bytes).
Proof.
  unfold header_in_range, header_of_bytes; cbn.
  repeat split; try apply i32_range;
    match goal with
    | |- context [field ?off 2 bytes] =>
        pose proof (field_range off 2 bytes); change (2 ^ (8 * Z.of_nat 2)) with (2 ^ 16) in *; lia
    | |- context [field ?off 4 bytes] =>
        pose proof (field_range off 4 bytes); change (2 ^ (8 * Z.of_nat 4)) with (2 ^ 32) in *; lia
    end.
Qed.

Lemma length_header_bytes h : length (header_bytes h) = 54%nat.
Proof. unfold header_bytes. rewrite !length_app, !length_le_split. reflexivity. Qed.

Lemma store_full (chunk object : list byte) :
  length chunk = length object -> store chunk object = chunk.
Proof.
  intros H. unfold store.
  rewrite <- (app_nil_r chunk) at 1. apply list_inserts_0_l. exact H.
Qed.

(** ** Streams *)

Lemma read_full count s :
  ifstream.fail s = false ->
  fst (next_fault (ifstream.faults s)) = false ->
  (ifstream.gpos s + Z.to_nat count <= length (ifstream.contents s))%nat ->
  ifstream.read count s
  = (take (Z.to_nat count) (drop (ifstream.gpos s) (ifstream.contents s)),
     ifstream.mk (ifstream.is_open s) (ifstream.contents s)
                 (ifstream.gpos s + Z.to_nat count) false
                 (snd (next_fault (ifstream.faults s)))).
Proof.
  intros Hf Hq Hlen. unfold ifstream.read. rewrite Hf.
  destruct (next_fault (ifstream.faults s)) as [fault faults'].
  cbn [fst snd] in *. subst fault.
  assert (Hl : length (take (Z.to_nat count) (drop (ifstream.gpos s) (ifstream.contents s)))
               = Z.to_nat count)
    by (rewrite length_take, length_drop; lia).
  rewrite Hl. rewrite bool_decide_eq_false_2 by lia. reflexivity.
Qed.

(** ** Geometry *)

(** Linear arithmetic with division and remainder by constants. *)
Ltac dlia := Z.div_mod_to_equations; lia.

Lemma byte_per_pixel_in_file_eq bpp :
  bpp = 8 \/ bpp = 24 \/ bpp = 32 ->
  byte_per_pixel_in_file bpp = bpp / 8 /\ 1 <= bpp / 8 <= 4.
Proof.
  intros [-> | [-> | ->]];
    (split; [reflexivity | split; apply Z.leb_le; reflexivity]).
Qed.

(** The bytes of the pixels of a file line. *)
Lemma line_bytes_range bpp w :
  bpp = 8 \/ bpp = 24 \/ bpp = 32 -> 0 < w < 2 ^ 31 ->
  1 <= bpp / 8 * w <= 2 ^ 33 - 4.
Proof.
  intros Hb Hw. destruct (byte_per_pixel_in_file_eq bpp Hb) as [_ Hq]. nia.
Qed.

Lemma determine_stride_eq bpp w :
  bpp = 8 \/ bpp = 24 \/ bpp = 32 -> 0 < w < 2 ^ 31 ->
  determine_stride bpp w = file_stride bpp w.
Proof.
  intros Hb Hw. unfold determine_stride, file_stride.
  destruct (byte_per_pixel_in_file_eq bpp Hb) as [-> _].
  pose proof (line_bytes_range bpp w Hb Hw) as Hn.
  rewrite abs_pos by lia. rewrite Z.abs_eq by lia.
  rewrite (usize_small w) by lia.
  generalize dependent (bpp / 8 * w). intros n Hn.
  rewrite (usize_small n) by lia.
  destruct (Z.eqb_spec (n mod 4) 0) as [E|E]; cbn [negb].
  - dlia.
  - rewrite usize_small by dlia. dlia.
Qed.

Lemma determine_line_padding_eq bpp w :
  bpp = 8 \/ bpp = 24 \/ bpp = 32 -> 0 < w < 2 ^ 31 ->
  determine_line_padding bpp w = file_padding bpp w.
Proof.
  intros Hb Hw. unfold determine_line_padding, file_padding, file_stride.
  destruct (byte_per_pixel_in_file_eq bpp Hb) as [-> _].
  pose proof (line_bytes_range bpp w Hb Hw) as Hn.
  rewrite abs_pos by lia. rewrite Z.abs_eq by lia.
  rewrite (usize_small w) by lia.
  generalize dependent (bpp / 8 * w). intros n Hn.
  rewrite (usize_small n) by lia.
  destruct (Z.eqb_spec (n mod 4) 0) as [E|E]; cbn [negb]; dlia.
Qed.

Lemma file_padding_range bpp w : 0 <= file_padding bpp w <= 3.
Proof.
  unfold file_padding, file_stride.
  generalize (bpp / 8 * Z.abs w). intros n. dlia.
Qed.

Lemma file_stride_bounds bpp w :
  bpp = 8 \/ bpp = 24 \/ bpp = 32 -> 0 < w < 2 ^ 31 ->
  4 <= file_stride bpp w <= 2 ^ 33 - 4 /\ file_stride bpp w mod 4 = 0.
Proof.
  intros Hb Hw. unfold file_stride. rewrite Z.abs_eq by lia.
  pose proof (line_bytes_range bpp w Hb Hw) as Hn.
  generalize dependent (bpp / 8 * w). intros n Hn.
  split; [dlia | apply Z_mod_mult].
Qed.

(** The tenth check: the size the code computes in [size_t] and the
    exact product agree on whether a declared size matches. *)
Lemma image_data_size_check bpp w h declared :
  bpp = 8 \/ bpp = 24 \/ bpp = 32 -> 0 < w < 2 ^ 31 ->
  - 2 ^ 31 <= h < 2 ^ 31 -> h <> 0 -> 0 <= declared < 2 ^ 32 ->
  (declared =? usize (determine_stride bpp w * usize (abs h)))
  = (declared =? file_stride bpp w * Z.abs h).
Proof.
  intros Hb Hw Hh Hh0 Hd.
  rewrite determine_stride_eq by assumption.
  destruct (file_stride_bounds bpp w Hb Hw) as [Hs Hm].
  generalize dependent (file_stride bpp w). intros s Hs Hm.
  destruct (Z.eq_dec h (- 2 ^ 31)) as [-> | Hmin].
  - rewrite abs_min. change (usize (- 2 ^ 31)) with (2 ^ 64 - 2 ^ 31).
    change (Z.abs (- 2 ^ 31)) with (2 ^ 31).
    assert (Hu : usize (s * (2 ^ 64 - 2 ^ 31)) = 2 ^ 64 - s * 2 ^ 31).
    { unfold usize.
      replace (s * (2 ^ 64 - 2 ^ 31)) with ((2 ^ 64 - s * 2 ^ 31) + (s - 1) * 2 ^ 64) by lia.
      rewrite Z_mod_plus_full. apply Z.mod_small. lia. }
    rewrite Hu.
    destruct (Z.eqb_spec declared (2 ^ 64 - s * 2 ^ 31));
      destruct (Z.eqb_spec declared (s * 2 ^ 31)); try reflexivity; lia.
  - assert (Ha : abs h = Z.abs h).
    { destruct (Z_le_gt_dec 0 h); [rewrite abs_pos | rewrite abs_neg]; lia. }
    rewrite Ha. rewrite (usize_small (Z.abs h)) by lia.
    rewrite usize_small by nia. reflexivity.
Qed.

(** ** Header validation *)

Lemma first_failure_cons rule rules h :
  first_failure (rule :: rules) h
  = if fst rule h then snd rule else first_failure rules h.
Proof. unfold first_failure. cbn [find]. destruct (fst rule h); reflexivity. Qed.

Ltac header_fields :=
  cbn [bmp_header.type bmp_header.bitmap_info_header_size bmp_header.offset
       bmp_header.height bmp_header.width bmp_header.bits_per_pixel
       bmp_header.compression bmp_header.num_colors bmp_header.important_colors
       bmp_header.image_size_bytes] in *.

(** C2: on a stream that delivers the 54 bytes of a header,
    [load_and_check_header] stores the header and reports the error of the
    first of the ten checks of the specification that fails, in their
    order, and [ok] when none fails. *)
Theorem load_and_check_header_first_failure
    (stream : ifstream.t) (header_out : bmp_header.t) :
  ready stream ->
  (ifstream.gpos stream + 54 <= length (ifstream.contents stream))%nat ->
  let header :=
    header_of_bytes (take 54 (drop (ifstream.gpos stream) (ifstream.contents stream))) in
  let '(result, stream', header') := load_and_check_header stream header_out in
  result = first_failure validation_rules header
  /\ header' = header
  /\ ifstream.fail stream' = false
  /\ ifstream.gpos stream' = (ifstream.gpos stream + 54)%nat.
Proof.
  intros [Hf Hq] Hlen. unfold load_and_check_header.
  rewrite read_full by (try assumption; change (Z.to_nat bmp_header.sizeof) with 54%nat; lia).
  change (Z.to_nat bmp_header.sizeof) with 54%nat.
  rewrite store_full
    by (rewrite length_header_bytes, length_take, length_drop; lia).
  cbn [ifstream.fail ifstream.gpos].
  pose proof (header_of_bytes_in_range
                (take 54 (drop (ifstream.gpos stream) (ifstream.contents stream)))) as Hr.
  generalize dependent
    (header_of_bytes (take 54 (drop (ifstream.gpos stream) (ifstream.contents stream)))).
  intros h Hr. cbv zeta.
  split; [|repeat split].
  destruct h as [type size r1 r2 offset info w ht planes bpp compr declared xr yr nc ic].
  unfold header_in_range in Hr. header_fields.
  unfold validation_rules.
  repeat (rewrite first_failure_cons; cbn [fst snd]).
  header_fields. cbn [one_of existsb].
  change magic_BM with 0x4D42. change bmp_header.sizeof with 54.
  rewrite !Z.gtb_ltb.
  destruct (type =? 19778); cbn [negb]; [|reflexivity].
  destruct (info <? 40); [reflexivity|].
  destruct (offset <? 54); [reflexivity|].
  destruct (Z.eqb_spec ht 0); cbn [orb]; [reflexivity|].
  destruct (Z.leb_spec w 0); [reflexivity|].
  destruct (Z.eqb_spec bpp 1) as [-> | ?]; [cbn; destruct (compr =? 0); reflexivity|].
  destruct (Z.eqb_spec bpp 4) as [-> | ?]; [cbn; destruct (compr =? 0); reflexivity|].
  destruct (Z.eqb_spec bpp 16) as [-> | ?]; [cbn; destruct (compr =? 0); reflexivity|].
  destruct (Z.eqb_spec bpp 8) as [-> | ?].
  { cbn - [Z.ltb usize determine_stride abs file_stride Z.mul].
    destruct (compr =? 0); cbn [negb]; [|reflexivity].
    destruct ((256 <? nc) || (256 <? ic)); [reflexivity|].
    rewrite image_data_size_check by lia.
    destruct (declared =? 0); reflexivity. }
  destruct (Z.eqb_spec bpp 24) as [-> | ?].
  { cbn - [Z.ltb usize determine_stride abs file_stride Z.mul].
    destruct (compr =? 0); cbn [negb]; [|reflexivity].
    destruct (negb (nc =? 0) || negb (ic =? 0)); [reflexivity|].
    rewrite image_data_size_check by lia.
    destruct (declared =? 0); reflexivity. }
  destruct (Z.eqb_spec bpp 32) as [-> | ?].
  { cbn - [Z.ltb usize determine_stride abs file_stride Z.mul].
    destruct (compr =? 0); cbn [negb]; [|reflexivity].
    destruct (negb (nc =? 0) || negb (ic =? 0)); [reflexivity|].
    rewrite image_data_size_check by lia.
    destruct (declared =? 0); reflexivity. }
  reflexivity.
Qed.

(** The header [save] writes for a 3 x 2 [Mono8] image, as a stream. *)
Lemma load_and_check_header_first_failure_witness :
  let stream :=
    ifstream.mk true
      (header_bytes
         (fst (save_header
                 {| width := 3; height := 2; line_padding := 0;
                    pixel_format := Mono8; orientation := bottom_up |} true)))
      0 false [] in
  ready stream /\
  (ifstream.gpos stream + 54 <= length (ifstream.contents stream))%nat /\
  let header :=
    header_of_bytes (take 54 (drop (ifstream.gpos stream) (ifstream.contents stream))) in
  let '(result, stream', header') := load_and_check_header stream bmp_header.zero in
  result = first_failure validation_rules header
  /\ header' = header
  /\ ifstream.fail stream' = false
  /\ ifstream.gpos stream' = (ifstream.gpos stream + 54)%nat.
Proof.
  intros stream.
  assert (Hr : ready stream) by (split; reflexivity).
  assert (Hl : (ifstream.gpos stream + 54 <= length (ifstream.contents stream))%nat)
    by (vm_compute; lia).
  split; [exact Hr|]. split; [exact Hl|].
  exact (load_and_check_header_first_failure stream bmp_header.zero Hr Hl).
Defined.

(** ** Loading the properties *)

Lemma read_inv count s chunk s' :
  ifstream.read count s = (chunk, s') -> ifstream.fail s' = false ->
  ifstream.fail s = false
  /\ chunk = take (Z.to_nat count) (drop (ifstream.gpos s) (ifstream.contents s))
  /\ length chunk = Z.to_nat count
  /\ ifstream.contents s' = ifstream.contents s
  /\ ifstream.gpos s' = (ifstream.gpos s + Z.to_nat count)%nat.
Proof.
  unfold ifstream.read. destruct (ifstream.fail s) eqn:Hf.
  { intros [= <- <-] H. congruence. }
  destruct (next_fault (ifstream.faults s)) as [[] faults'].
  { intros [= <- <-] H. discriminate. }
  intros [= <- <-] H. cbn in H. apply bool_decide_eq_false in H.
  cbn [ifstream.contents ifstream.gpos].
  assert (Hl : (length (take (Z.to_nat count)
                          (drop (ifstream.gpos s) (ifstream.contents s)))
                <= Z.to_nat count)%nat) by (rewrite length_take; lia).
  repeat split; try reflexivity; lia.
Qed.

Lemma seekg_inv pos s :
  0 <= pos -> ifstream.fail (ifstream.seekg pos s) = false ->
  ifstream.fail s = false
  /\ ifstream.contents (ifstream.seekg pos s) = ifstream.contents s
  /\ ifstream.gpos (ifstream.seekg pos s) = Z.to_nat pos.
Proof.
  unfold ifstream.seekg. intros Hp.
  destruct (ifstream.fail s) eqn:Hf; [congruence|].
  destruct (next_fault (ifstream.faults s)) as [[] faults']; cbn; [discriminate|].
  destruct (Z.ltb_spec pos 0); [lia|]. cbn. auto.
Qed.


Lemma load_and_check_header_ok stream header_out stream' header :
  load_and_check_header stream header_out = (ok, stream', header) ->
  accepted header /\ ifstream.fail stream' = false
  /\ ifstream.contents stream' = ifstream.contents stream
  /\ header
     = header_of_bytes (take 54 (drop (ifstream.gpos stream) (ifstream.contents stream))).
Proof.
  unfold load_and_check_header.
  destruct (ifstream.read bmp_header.sizeof stream) as [chunk s1] eqn:Hread.
  destruct (ifstream.fail s1) eqn:Hfail; [discriminate|].
  apply read_inv in Hread; [|assumption].
  destruct Hread as (_ & Hchunk & Hcl & Hcontents & _).
  change (Z.to_nat bmp_header.sizeof) with 54%nat in *.
  rewrite store_full by (rewrite length_header_bytes; assumption).
  rewrite <- Hchunk. clear Hchunk Hcl.
  pose proof (header_of_bytes_in_range chunk) as Hr.
  generalize dependent (header_of_bytes chunk).
  intros h Hr H.
  destruct h as [type size r1 r2 offset info w ht planes bpp compr declared xr yr nc ic].
  header_fields. change bmp_header.sizeof with 54 in H.
  unfold accepted. header_fields.
  destruct (Z.eqb_spec type 19778); cbn [negb] in H; [|discriminate].
  destruct (Z.ltb_spec info 40); [discriminate|].
  destruct (Z.ltb_spec offset 54); [discriminate|].
  destruct (Z.eqb_spec ht 0); cbn [orb] in H; [discriminate|].
  destruct (Z.leb_spec w 0); [discriminate|].
  destruct (Z.eqb_spec bpp 1) as [-> | ?];
    [cbn in H; destruct (compr =? 0); discriminate|].
  destruct (Z.eqb_spec bpp 4) as [-> | ?];
    [cbn in H; destruct (compr =? 0); discriminate|].
  destruct (Z.eqb_spec bpp 16) as [-> | ?];
    [cbn in H; destruct (compr =? 0); discriminate|].
  destruct (Z.eqb_spec compr 0);
    [|destruct (bpp =? 8), (bpp =? 24), (bpp =? 32); discriminate].
  destruct (Z.eqb_spec bpp 8) as [-> | ?].
  { cbn - [Z.ltb usize determine_stride abs Z.mul] in H.
    destruct (Z.ltb_spec 256 nc); [discriminate|].
    destruct (Z.ltb_spec 256 ic); [discriminate|]. cbn [orb] in H.
    destruct (negb _) in H; [discriminate|]. inversion H; subst.
    split; [split; [exact Hr|]; repeat split; intros; header_fields; lia | auto]. }
  destruct (Z.eqb_spec bpp 24) as [-> | ?].
  { cbn - [Z.ltb usize determine_stride abs Z.mul] in H.
    destruct (Z.eqb_spec nc 0); [|discriminate].
    destruct (Z.eqb_spec ic 0); [|discriminate]. cbn [orb negb] in H.
    destruct (negb _) in H; [discriminate|]. inversion H; subst.
    split; [split; [exact Hr|]; repeat split; intros; header_fields; lia | auto]. }
  destruct (Z.eqb_spec bpp 32) as [-> | ?].
  { cbn - [Z.ltb usize determine_stride abs Z.mul] in H.
    destruct (Z.eqb_spec nc 0); [|discriminate].
    destruct (Z.eqb_spec ic 0); [|discriminate]. cbn [orb negb] in H.
    destruct (negb _) in H; [discriminate|]. inversion H; subst.
    split; [split; [exact Hr|]; repeat split; intros; header_fields; lia | auto]. }
  discriminate.
Qed.

Lemma length_resize count v : 0 <= count -> length (resize count v) = Z.to_nat count.
Proof.
  intros. unfold resize. rewrite length_app, length_take, length_replicate. lia.
Qed.

Lemma length_entries_bytes (table : list color_table_entry.t) :
  length (concat (map entry_bytes table)) = (4 * length table)%nat.
Proof. induction table as [|e table IH]; cbn; lia. Qed.

(** What a successful [load_color_table] read: the entries at the
    position after the info header. *)
Lemma load_color_table_ok stream header stream' color_table :
  load_color_table stream header [] = (ok, stream', color_table) ->
  accepted header -> bmp_header.bits_per_pixel header = 8 ->
  ifstream.fail stream' = false
  /\ ifstream.contents stream' = ifstream.contents stream
  /\ color_table
     = color_table_of_bytes
         (take (Z.to_nat (4 * color_table_length header))
               (drop (Z.to_nat (u32 (bmp_header.bitmap_info_header_size header + 14)))
                     (ifstream.contents stream))).
Proof.
  unfold load_color_table. intros H Hacc Hbpp.
  destruct Hacc as (Hr & _ & _ & _ & _ & _ & _ & _ & Hnc & _).
  destruct (Hnc Hbpp) as [Hnc1 _]. destruct Hr as (_ & _ & _ & _ & _ & _ & _ & _ & _ & _ & _ & _ & _ & _ & Hnc0 & _).
  destruct (ifstream.fail (ifstream.seekg _ stream)) eqn:Hseek; [discriminate|].
  apply seekg_inv in Hseek; [|apply u32_range].
  destruct Hseek as (Hf0 & Hc0 & Hp0).
  set (table0 := if negb (bmp_header.num_colors header =? 0) then _ else _) in H.
  assert (Hlen : length table0 = Z.to_nat (color_table_length header)
                 /\ 0 < color_table_length header <= 256).
  { unfold table0, color_table_length. rewrite Hbpp.
    destruct (Z.eqb_spec (bmp_header.num_colors header) 0); cbn.
    - split; [reflexivity | lia].
    - rewrite length_resize by lia. split; [reflexivity | lia]. }
  destruct Hlen as [Hlen Hn]. clearbody table0.
  destruct (Z.eqb_spec (Z.of_nat (length table0)) 0); [lia|]. cbn [negb] in H.
  destruct (ifstream.read _ _) as [chunk s2] eqn:Hread.
  destruct (ifstream.fail s2) eqn:Hf2; [discriminate|].
  injection H as <- <-.
  apply read_inv in Hread; [|assumption].
  destruct Hread as (_ & Hchunk & Hcl & Hc2 & _).
  change color_table_entry.sizeof with 4 in *.
  rewrite usize_small in Hchunk, Hcl by lia.
  split; [assumption|]. split; [congruence|].
  rewrite store_full by (rewrite length_entries_bytes; lia).
  rewrite Hchunk, Hc0, Hp0. do 2 f_equal. lia.
Qed.

Lemma check_is_mono8_gray (color_table : list color_table_entry.t) :
  check_is_mono8 color_table = true <-> Forall gray color_table.
Proof.
  induction color_table as [|entry color_table IH]; cbn [check_is_mono8].
  - split; [constructor | reflexivity].
  - destruct (Z.eqb_spec (byte.unsigned (color_table_entry.r entry))
                         (byte.unsigned (color_table_entry.g entry))) as [Hrg|Hrg];
      [destruct (Z.eqb_spec (byte.unsigned (color_table_entry.r entry))
                            (byte.unsigned (color_table_entry.b entry))) as [Hrb|Hrb]|];
      cbn [andb negb].
    + apply byte.unsigned_inj in Hrg, Hrb. rewrite IH. split.
      * intros H. constructor; [split; congruence | exact H].
      * intros H. inversion H; assumption.
    + split; [discriminate|]. intros H. inversion H as [|? ? [Hg1 Hg2] _]; subst.
      exfalso. apply Hrb. congruence.
    + split; [discriminate|]. intros H. inversion H as [|? ? [Hg1 Hg2] _]; subst.
      exfalso. apply Hrg. congruence.
Qed.

(** The properties inferred from an accepted header. *)
Lemma determine_image_properties_accepted header color_table p :
  accepted header ->
  determine_image_properties header color_table p
  = {| width := bmp_header.width header;
       height := Z.abs (bmp_header.height header);
       line_padding :=
         file_padding (bmp_header.bits_per_pixel header) (bmp_header.width header);
       pixel_format :=
         if bmp_header.bits_per_pixel header =? 8
         then (if check_is_mono8 color_table then Mono8 else BGR8)
         else if bmp_header.bits_per_pixel header =? 24 then BGR8 else BGRA8;
       orientation :=
         if bmp_header.height header <? 0 then top_down else bottom_up |}.
Proof.
  intros (Hr & _ & _ & _ & Hw & Hh & Hb & _).
  destruct Hr as (_ & _ & _ & _ & _ & _ & Hwr & Hhr & _).
  unfold determine_image_properties.
  rewrite determine_line_padding_eq by (try assumption; lia).
  rewrite (abs_pos (bmp_header.width header)) by lia.
  rewrite (u32_small (bmp_header.width header)) by lia.
  f_equal.
  - destruct (Z.eq_dec (bmp_header.height header) (- 2 ^ 31)) as [-> | Hmin];
      [reflexivity|].
    destruct (Z_le_gt_dec 0 (bmp_header.height header)).
    + rewrite abs_pos, Z.abs_eq by lia. apply u32_small. lia.
    + rewrite abs_neg, Z.abs_neq by lia. apply u32_small. lia.
  - destruct Hb as [-> | [-> | ->]]; reflexivity.
Qed.

Lemma load_image_properties_inv stream p result stream' header color_table p' :
  load_image_properties stream bmp_header.zero [] p
  = (result, stream', header, color_table, p') ->
  (result <> ok /\ p' = default_image_properties)
  \/ (result = ok
      /\ accepted header
      /\ ifstream.is_open stream = true
      /\ ifstream.fail stream' = false
      /\ ifstream.contents stream' = ifstream.contents stream
      /\ header
         = header_of_bytes
             (take 54 (drop (ifstream.gpos stream) (ifstream.contents stream)))
      /\ (if bmp_header.bits_per_pixel header =? 8
          then color_table
               = color_table_of_bytes
                   (take (Z.to_nat (4 * color_table_length header))
                      (drop (Z.to_nat
                               (u32 (bmp_header.bitmap_info_header_size header + 14)))
                            (ifstream.contents stream)))
          else color_table = [])
      /\ p' = determine_image_properties header color_table p).
Proof.
  unfold load_image_properties.
  destruct (ifstream.is_open stream) eqn:Hopen; cbn [negb].
  2: { cbn [is_ok andb]. intros [= <- <- <- <- <-]. left. split; [discriminate | reflexivity]. }
  destruct (load_and_check_header stream bmp_header.zero) as [[r1 s1] h1] eqn:Hh.
  destruct (is_ok r1) eqn:Hok1.
  2: { cbn [andb]. rewrite Hok1. intros [= <- <- <- <- <-]. left.
       split; [|reflexivity]. intros ->. discriminate. }
  assert (r1 = ok) as -> by (destruct r1; try discriminate; reflexivity).
  apply load_and_check_header_ok in Hh. destruct Hh as (Hacc & Hf1 & Hc1 & Hhdr).
  cbn [andb].
  destruct (Z.eqb_spec (bmp_header.bits_per_pixel h1) 8) as [Hb|Hb].
  - destruct (load_color_table s1 h1 []) as [[r2 s2] t2] eqn:Ht.
    destruct (is_ok r2) eqn:Hok2.
    2: { intros [= <- <- <- <- <-]. left. split; [|reflexivity]. intros ->. discriminate. }
    assert (r2 = ok) as -> by (destruct r2; try discriminate; reflexivity).
    apply load_color_table_ok in Ht; [|assumption..].
    destruct Ht as (Hf2 & Hc2 & Htable). rewrite Hc1 in Htable, Hc2.
    intros [= <- <- <- <- <-]. right.
    rewrite (proj2 (Z.eqb_eq _ _) Hb).
    do 7 (split; [first [reflexivity | assumption | congruence]|]). reflexivity.
  - cbn [is_ok]. intros [= <- <- <- <- <-]. right.
    rewrite (proj2 (Z.eqb_neq _ _) Hb).
    do 7 (split; [first [reflexivity | assumption | congruence]|]). reflexivity.
Qed.

Lemma is_ok_true result : is_ok result = true <-> result = ok.
Proof. destruct result; cbn; split; congruence. Qed.

Lemma load_inv filename p fs result p' :
  load filename p fs = (result, p') ->
  (filename = None /\ result = null_argument /\ p' = p)
  \/ (exists f stream' header color_table,
        filename = Some f
        /\ load_image_properties (open_ifstream f fs) bmp_header.zero [] p
           = (result, stream', header, color_table, p')).
Proof.
  unfold load. destruct filename as [f|].
  - destruct (load_image_properties _ _ _ _) as [[[[r s] h] t] q] eqn:E.
    intros [= <- <-]. right. exists f, s, h, t. auto.
  - intros [= <- <-]. left. auto.
Qed.

(** The paths of the buffer overload of [load], as far as the result and
    the properties go. *)
Lemma load_buffer_inv filename buffer buffersize p flp fo fs result buffer' p' :
  load_buffer filename buffer buffersize p flp fo fs = (result, buffer', p') ->
  (result = null_argument /\ p' = p /\ (filename = None \/ buffer = None))
  \/ (result = invalid_argument /\ p' = p
      /\ fo = true /\ orientation p = orientation_invalid)
  \/ (exists f result0 stream0 header color_table p0,
        filename = Some f
        /\ (fo = true -> orientation p <> orientation_invalid)
        /\ load_image_properties (open_ifstream f fs) bmp_header.zero [] p
           = (result0, stream0, header, color_table, p0)
        /\ ((result0 <> ok /\ result = result0 /\ p' = p0)
            \/ (result0 = ok
                /\ p' = {| width := width p0; height := height p0;
                           line_padding :=
                             if flp then line_padding p else line_padding p0;
                           pixel_format := pixel_format p0;
                           orientation :=
                             if fo then orientation p else orientation p0 |}))).
Proof.
  unfold load_buffer.
  destruct buffer as [buffer|]; [destruct filename as [f|]|];
    [| intros [= <- <- <-]; left; auto ..].
  destruct (fo && bool_decide (orientation p = orientation_invalid)) eqn:Hfo.
  { intros [= <- <- <-]. right. left.
    apply andb_true_iff in Hfo. destruct Hfo as [-> Ho].
    apply bool_decide_eq_true in Ho. auto. }
  destruct (load_image_properties _ _ _ _) as [[[[r0 s0] h] t] p0] eqn:E.
  intros H. right. right. exists f, r0, s0, h, t, p0.
  split; [reflexivity|]. split.
  { intros -> Ho. rewrite Ho in Hfo. discriminate. }
  split; [exact E|].
  destruct (is_ok r0) eqn:Hok.
  2: { injection H as <- <- <-. left. split; [|auto].
       intros ->. discriminate. }
  right. apply is_ok_true in Hok. split; [assumption|].
  destruct p0 as [w0 h0 lp0 pf0 o0].
  destruct flp, fo; cbn [width height line_padding pixel_format orientation] in *;
    repeat match type of H with
           | context [if ?c then _ else _] => destruct c
           | context [let '(_, _) := ?x in _] => destruct x as [[? ?] ?]
           end;
    injection H as <- <- <-; reflexivity.
Qed.

(** C10: a call of either overload of [load] that returns [ok] leaves
    valid properties: positive width and height, a pixel format and an
    orientation that are not invalid, and the line padding of the file,
    between 0 and 3, unless the buffer overload was told to keep the
    caller's line padding; a forced orientation is the caller's. *)
Theorem load_ok_properties_valid :
  (forall filename p fs p',
     load filename p fs = (ok, p') ->
     valid_properties p' /\ 0 <= line_padding p' <= 3)
  /\ (forall filename buffer buffersize p flp fo fs buffer' p',
        load_buffer filename buffer buffersize p flp fo fs = (ok, buffer', p') ->
        valid_properties p'
        /\ (if flp then line_padding p' = line_padding p
            else 0 <= line_padding p' <= 3)
        /\ (fo = true -> orientation p' = orientation p)).
Proof.
  assert (Hvalid : forall header color_table p,
            accepted header ->
            let q := determine_image_properties header color_table p in
            valid_properties q /\ 0 <= line_padding q <= 3).
  { intros header color_table p Hacc.
    rewrite determine_image_properties_accepted by assumption. cbv zeta.
    destruct Hacc as (_ & _ & _ & _ & Hw & Hh & Hb & _).
    unfold valid_properties. cbn [width height line_padding pixel_format orientation].
    split; [|apply file_padding_range].
    repeat split; try lia.
    - destruct (_ =? 8); [destruct (check_is_mono8 _)|destruct (_ =? 24)];
        discriminate.
    - destruct (_ <? 0); discriminate. }
  split.
  - intros filename p fs p' H. apply load_inv in H.
    destruct H as [(_ & [=] & _) | (f & s & h & t & _ & H)].
    apply load_image_properties_inv in H.
    destruct H as [[H _] | (_ & Hacc & _ & _ & _ & _ & _ & ->)]; [congruence|].
    apply Hvalid, Hacc.
  - intros filename buffer buffersize p flp fo fs buffer' p' H.
    apply load_buffer_inv in H.
    destruct H as [([=] & _) | [([=] & _) | (f & r0 & s & h & t & p0 & _ & Hfo & H & Hp)]].
    apply load_image_properties_inv in H.
    destruct Hp as [(Hr & <- & _) | (-> & ->)]; [congruence|].
    destruct H as [[H _] | (_ & Hacc & _ & _ & _ & _ & _ & ->)]; [congruence|].
    destruct (Hvalid h t p Hacc) as [(Hw & Hh & Hf & Ho) Hl].
    unfold valid_properties. cbn [width height line_padding pixel_format orientation].
    split; [|split].
    + repeat split; try assumption. destruct fo; [apply Hfo; reflexivity | assumption].
    + destruct flp; [reflexivity | assumption].
    + intros ->. reflexivity.
Qed.

Lemma load_ok_properties_valid_witness :
  let p1 := {| width := 3; height := 2; line_padding := 1;
               pixel_format := Mono8; orientation := bottom_up |} in
  let p2 := {| width := 3; height := 2; line_padding := 2;
               pixel_format := Mono8; orientation := top_down |} in
  let request := {| width := 0; height := 0; line_padding := 2;
                    pixel_format := pixel_format_invalid; orientation := top_down |} in
  let buffer := replicate 10 Byte.x00 in
  let buffer' := map byte.of_Z [1; 2; 3; 0; 0; 4; 5; 6; 0; 0] in
  load (Some "image.bmp"%string) default_image_properties sample_disk = (ok, p1)
  /\ (valid_properties p1 /\ 0 <= line_padding p1 <= 3)
  /\ load_buffer (Some "image.bmp"%string) (Some buffer) 10 request true true
                 sample_disk
     = (ok, Some buffer', p2)
  /\ (valid_properties p2
      /\ line_padding p2 = line_padding request
      /\ (true = true -> orientation p2 = orientation request)).
Proof.
  intros p1 p2 request buffer buffer'.
  assert (H1 : load (Some "image.bmp"%string) default_image_properties sample_disk
               = (ok, p1)) by (vm_compute; reflexivity).
  assert (H2 : load_buffer (Some "image.bmp"%string) (Some buffer) 10 request
                 true true sample_disk
               = (ok, Some buffer', p2)) by (vm_compute; reflexivity).
  split; [exact H1|]. split; [exact (proj1 load_ok_properties_valid _ _ _ _ H1)|].
  split; [exact H2|].
  exact (proj2 load_ok_properties_valid _ _ _ _ _ _ _ _ _ H2).
Defined.

(** C4 (as stated, refuted): a call rejected for a null file name
    returns the properties it was given, and a call of the buffer overload
    that fails with [buffer_too_small] returns the properties of the file;
    neither is the default value. *)
Lemma load_failure_default_counterexample :
  let loaded := {| width := 3; height := 2; line_padding := 1;
                   pixel_format := Mono8; orientation := bottom_up |} in
  load None sample_properties empty_disk = (null_argument, sample_properties)
  /\ sample_properties <> default_image_properties
  /\ load_buffer (Some "image.bmp"%string) (Some []) 0 default_image_properties
                 false false sample_disk
     = (buffer_too_small, Some [], loaded)
  /\ loaded <> default_image_properties.
Proof.
  cbv zeta. split; [reflexivity|]. split; [discriminate|].
  split; [vm_compute; reflexivity | discriminate].
Qed.

(** C4 (amended): a failing call of [load] leaves the default properties
    exactly when the failure comes from loading the header and the color
    table.  A call rejected with [null_argument] or [invalid_argument]
    leaves the properties untouched, and a call of the buffer overload
    that fails after the properties were loaded leaves the properties of
    the file, with the forced line padding and orientation. *)
Theorem load_failure_properties :
  (forall filename p fs result p',
     load filename p fs = (result, p') -> result <> ok ->
     match filename with
     | None => result = null_argument /\ p' = p
     | Some _ => p' = default_image_properties
     end)
  /\ (forall filename buffer buffersize p flp fo fs result buffer' p',
        load_buffer filename buffer buffersize p flp fo fs = (result, buffer', p') ->
        result <> ok ->
        (result = null_argument /\ p' = p)
        \/ (result = invalid_argument /\ p' = p)
        \/ (load filename p fs = (result, default_image_properties)
            /\ p' = default_image_properties)
        \/ (exists p0,
              load filename p fs = (ok, p0)
              /\ p' = {| width := width p0; height := height p0;
                         line_padding :=
                           if flp then line_padding p else line_padding p0;
                         pixel_format := pixel_format p0;
                         orientation :=
                           if fo then orientation p else orientation p0 |})).
Proof.
  split.
  - intros filename p fs result p' H Hr. apply load_inv in H.
    destruct H as [(-> & -> & ->) | (f & s & h & t & -> & H)]; [auto|].
    apply load_image_properties_inv in H.
    destruct H as [[_ ->] | (-> & _)]; [reflexivity | congruence].
  - intros filename buffer buffersize p flp fo fs result buffer' p' H Hr.
    apply load_buffer_inv in H.
    destruct H as [(-> & -> & _) | [(-> & -> & _)
                     | (f & r0 & s & h & t & p0 & -> & _ & H & Hp)]]; [auto ..|].
    right. right.
    assert (Hload : load (Some f) p fs = (r0, p0))
      by (unfold load; rewrite H; reflexivity).
    destruct Hp as [(Hr0 & -> & ->) | (-> & ->)].
    + left. apply load_image_properties_inv in H.
      destruct H as [[_ ->] | (-> & _)]; [auto | congruence].
    + right. exists p0. auto.
Qed.

Lemma load_failure_properties_witness :
  let loaded := {| width := 3; height := 2; line_padding := 1;
                   pixel_format := Mono8; orientation := bottom_up |} in
  (load (Some "missing.bmp"%string) sample_properties sample_disk
   = (file_not_found, default_image_properties)
   /\ file_not_found <> ok)
  /\ (load_buffer (Some "image.bmp"%string) (Some []) 0 default_image_properties
                  false false sample_disk
      = (buffer_too_small, Some [], loaded)
      /\ buffer_too_small <> ok)
  /\ ((buffer_too_small = null_argument /\ loaded = default_image_properties)
      \/ (buffer_too_small = invalid_argument /\ loaded = default_image_properties)
      \/ (load (Some "image.bmp"%string) default_image_properties sample_disk
          = (buffer_too_small, default_image_properties)
          /\ loaded = default_image_properties)
      \/ (exists p0,
            load (Some "image.bmp"%string) default_image_properties sample_disk
            = (ok, p0)
            /\ loaded = {| width := width p0; height := height p0;
                           line_padding := line_padding p0;
                           pixel_format := pixel_format p0;
                           orientation := orientation p0 |})).
Proof.
  intros loaded.
  assert (H1 : load (Some "missing.bmp"%string) sample_properties sample_disk
               = (file_not_found, default_image_properties))
    by (vm_compute; reflexivity).
  assert (H2 : load_buffer (Some "image.bmp"%string) (Some []) 0
                 default_image_properties false false sample_disk
               = (buffer_too_small, Some [], loaded))
    by (vm_compute; reflexivity).
  assert (N1 : file_not_found <> ok) by discriminate.
  assert (N2 : buffer_too_small <> ok) by discriminate.
  split; [split; assumption|]. split; [split; assumption|].
  exact (proj2 load_failure_properties _ _ _ _ _ _ _ _ _ _ H2 N2).
Defined.

(** ** Failures during the transfer *)

(** C6 (the code at the failing input): when the seek over the padding
    of a file line fails while a 24-bit file is decoded, the buffer
    overload of [load] reports [file_write_error], where the claim has
    [file_read_error]; a failed read of the line itself reports
    [file_read_error]. *)
Lemma load_failed_skip_reports_write_error :
  fst (fst (load_buffer (Some "bgr.bmp"%string) (Some (replicate 8 Byte.x00)) 8
                        default_image_properties false false
                        bgr_disk_failing_skip))
  = file_write_error
  /\ fst (fst (load_buffer (Some "bgr.bmp"%string) (Some (replicate 8 Byte.x00)) 8
                           default_image_properties false false
                           bgr_disk_failing_read))
     = file_read_error.
Proof. split; vm_compute; reflexivity. Qed.

(** ** Placement of the lines in the buffer *)

Section line_placement_facts.
Variable P : image_properties.
Variable orientation_in_file : orientation_type.
Variable S : Z.

Hypothesis height_range : 0 <= height P < 2 ^ 32.
Hypothesis stride_nonneg : 0 <= S.
Hypothesis image_fits : height P * S < 2 ^ 64.

Lemma line_offset_exact line :
  0 <= line < height P ->
  line_offset P orientation_in_file S line = row_offset P orientation_in_file S line.
Proof.
  intros Hl. unfold line_offset, row_offset. case_bool_decide.
  - apply usize_small. nia.
  - rewrite u32_small by lia. rewrite usize_small by nia. ring.
Qed.

Lemma row_offset_range line :
  0 <= line < height P ->
  0 <= row_offset P orientation_in_file S line
  /\ row_offset P orientation_in_file S line + S <= height P * S.
Proof. intros Hl. unfold row_offset. case_bool_decide; nia. Qed.

(** Distinct lines occupy disjoint strides of the buffer. *)
Lemma row_offset_disjoint line line' :
  0 <= line < height P -> 0 <= line' < height P -> line <> line' ->
  row_offset P orientation_in_file S line + S
    <= row_offset P orientation_in_file S line'
  \/ row_offset P orientation_in_file S line' + S
       <= row_offset P orientation_in_file S line.
Proof. intros Hl Hl' Hne. unfold row_offset. case_bool_decide; nia. Qed.

Lemma length_place_lines rows : forall line buffer,
  length (place_lines P orientation_in_file S rows line buffer) = length buffer.
Proof.
  induction rows as [|row rows IH]; intros line buffer; cbn [place_lines].
  - reflexivity.
  - rewrite IH. unfold store_at. apply length_inserts.
Qed.

(** A position outside the rows that are placed keeps its byte. *)
Lemma place_lines_outside rows : forall line buffer (k : nat),
  0 <= line -> line + Z.of_nat (length rows) <= height P ->
  (forall (i : nat) row, rows !! i = Some row ->
     Z.of_nat k < row_offset P orientation_in_file S (line + Z.of_nat i)
     \/ row_offset P orientation_in_file S (line + Z.of_nat i)
          + Z.of_nat (length row) <= Z.of_nat k) ->
  place_lines P orientation_in_file S rows line buffer !! k = buffer !! k.
Proof.
  induction rows as [|row rows IH]; intros line buffer k Hl Hh Hout;
    cbn [place_lines].
  - reflexivity.
  - cbn [length] in Hh. rewrite IH; [| lia | lia |].
    + specialize (Hout 0%nat row eq_refl).
      rewrite Z.add_0_r in Hout.
      rewrite line_offset_exact by lia.
      pose proof (row_offset_range line ltac:(lia)) as Hr.
      unfold store_at. destruct Hout as [Hout|Hout].
      * apply list_lookup_inserts_lt. lia.
      * apply list_lookup_inserts_ge. lia.
    + intros i row' Hi. specialize (Hout (Datatypes.S i) row' Hi).
      replace (line + 1 + Z.of_nat i) with (line + Z.of_nat (Datatypes.S i)) by lia.
      exact Hout.
Qed.

(** A byte of a placed row is found at the offset of its line. *)
Lemma place_lines_inside rows : forall line buffer (i j : nat) row,
  0 <= line -> line + Z.of_nat (length rows) <= height P ->
  Forall (fun row => Z.of_nat (length row) <= S) rows ->
  height P * S <= Z.of_nat (length buffer) ->
  rows !! i = Some row -> (j < length row)%nat ->
  place_lines P orientation_in_file S rows line buffer
    !! (Z.to_nat (row_offset P orientation_in_file S (line + Z.of_nat i)) + j)%nat
  = row !! j.
Proof.
  induction rows as [|row0 rows IH]; intros line buffer i j row Hl Hh Hlen Hfit Hi Hj;
    [discriminate|].
  cbn [place_lines]. cbn [length] in Hh.
  inversion Hlen as [|? ? Hlen0 Hlen']; subst.
  destruct i as [|i].
  - injection Hi as ->. rewrite Z.add_0_r.
    pose proof (row_offset_range line ltac:(lia)) as Hr.
    rewrite place_lines_outside; [| lia | lia |].
    + rewrite line_offset_exact by lia. unfold store_at.
      rewrite list_lookup_inserts by lia. f_equal. lia.
    + intros i' row' Hi'.
      assert (Hi'' : (i' < length rows)%nat) by (eapply lookup_lt_Some; eassumption).
      assert (Hrow' : Z.of_nat (length row') <= S).
      { rewrite Forall_lookup in Hlen'. eapply Hlen'. eassumption. }
      destruct (row_offset_disjoint line (line + 1 + Z.of_nat i')) as [Hd|Hd];
        [lia | lia | lia | |]; lia.
  - cbn in Hi.
    replace (line + Z.of_nat (Datatypes.S i)) with (line + 1 + Z.of_nat i) by lia.
    apply IH; try assumption; try lia.
    unfold store_at. rewrite length_inserts. assumption.
Qed.
End line_placement_facts.

(** ** Streams on a working device *)

Lemma delivers_weaken s data data' : delivers s (data ++ data') -> delivers s data.
Proof.
  intros (Hf & Hq & rest & Hd). repeat split; try assumption.
  exists (data' ++ rest). rewrite Hd. symmetry. apply app_assoc.
Qed.

Lemma read_delivers count s chunk data :
  delivers s (chunk ++ data) -> Z.to_nat count = length chunk ->
  exists s', ifstream.read count s = (chunk, s') /\ delivers s' data.
Proof.
  intros (Hf & Hq & rest & Hd) Hn. unfold ifstream.read.
  rewrite Hf, Hq. cbn [next_fault]. rewrite Hd, Hn.
  rewrite <- app_assoc, take_app_length.
  rewrite bool_decide_eq_false_2 by lia.
  eexists. split; [reflexivity|].
  repeat split; cbn [ifstream.fail ifstream.faults ifstream.gpos ifstream.contents].
  exists rest. rewrite <- drop_drop, Hd, <- app_assoc.
  apply drop_app_length.
Qed.

Lemma seekg_cur_delivers off s skipped data :
  delivers s (skipped ++ data) -> off = Z.of_nat (length skipped) ->
  delivers (ifstream.seekg_cur off s) data.
Proof.
  intros (Hf & Hq & rest & Hd) ->. unfold ifstream.seekg_cur.
  rewrite Hf, Hq. cbn [next_fault orb].
  destruct (Z.ltb_spec (Z.of_nat (ifstream.gpos s) + Z.of_nat (length skipped)) 0);
    [lia|].
  repeat split; cbn [ifstream.fail ifstream.faults ifstream.gpos ifstream.contents].
  exists rest.
  replace (Z.to_nat (Z.of_nat (ifstream.gpos s) + Z.of_nat (length skipped)))
    with (ifstream.gpos s + length skipped)%nat by lia.
  rewrite <- drop_drop, Hd, <- app_assoc. apply drop_app_length.
Qed.

Lemma seekg_delivers pos s data rest :
  ifstream.fail s = false -> ifstream.faults s = [] -> 0 <= pos ->
  drop (Z.to_nat pos) (ifstream.contents s) = data ++ rest ->
  delivers (ifstream.seekg pos s) data
  /\ ifstream.contents (ifstream.seekg pos s) = ifstream.contents s.
Proof.
  intros Hf Hq Hp Hd. unfold ifstream.seekg. rewrite Hf, Hq. cbn [next_fault orb].
  destruct (Z.ltb_spec pos 0); [lia|].
  repeat split; cbn [ifstream.fail ifstream.faults ifstream.gpos ifstream.contents].
  exists rest. assumption.
Qed.

Lemma delivers_fail s data : delivers s data -> ifstream.fail s = false.
Proof. intros [H _]. exact H. Qed.

(** ** The decoding loops on a working device *)

Section decoding_loops.
Variable P : image_properties.
Variable orientation_in_file : orientation_type.
Variables S stride_in_file line_padding_in_file : Z.

Hypothesis padding_range : 0 <= line_padding_in_file <= stride_in_file.
Hypothesis stride_range : stride_in_file < 2 ^ 64.

Let count_bytes : nat := Z.to_nat (stride_in_file - line_padding_in_file).

Lemma split_line (file_line : list byte) :
  length file_line = Z.to_nat stride_in_file ->
  file_line = take count_bytes file_line ++ drop count_bytes file_line
  /\ length (take count_bytes file_line) = count_bytes
  /\ Z.of_nat (length (drop count_bytes file_line)) = line_padding_in_file.
Proof.
  intros Hl. rewrite take_drop, length_take, length_drop. unfold count_bytes.
  split; [reflexivity | lia].
Qed.

Lemma load_lines_direct_delivers lines : forall line file buffer,
  delivers file (concat lines) ->
  Forall (fun file_line => length file_line = Z.to_nat stride_in_file) lines ->
  exists file',
    load_lines_direct P orientation_in_file S stride_in_file line_padding_in_file
                      (length lines) line ok file buffer
    = (ok, file',
       place_lines P orientation_in_file S (map (take count_bytes) lines) line buffer).
Proof.
  induction lines as [|file_line lines IH]; intros line file buffer Hd Hlen.
  - eexists. reflexivity.
  - inversion Hlen as [|? ? Hl0 Hlen']; subst.
    destruct (split_line file_line Hl0) as (Hsplit & Htake & Hdrop).
    cbn [length load_lines_direct map place_lines concat].
    cbn [concat] in Hd. rewrite Hsplit, <- app_assoc in Hd.
    rewrite usize_small by lia.
    destruct (read_delivers (stride_in_file - line_padding_in_file) file _ _ Hd)
      as (file1 & -> & Hd1); [symmetry; exact Htake|].
    assert (Hd1' := delivers_weaken _ _ _ Hd1).
    rewrite (delivers_fail _ _ Hd1').
    destruct (Z.eqb_spec line_padding_in_file 0) as [Hp|Hp]; cbn [negb].
    + apply IH; [|assumption].
      assert (drop count_bytes file_line = []) as Hnil
        by (apply length_zero_iff_nil; lia).
      rewrite Hnil in Hd1. exact Hd1.
    + pose proof (seekg_cur_delivers line_padding_in_file file1 _ _ Hd1
                    (eq_sym Hdrop)) as Hd2.
      rewrite (delivers_fail _ _ Hd2).
      apply IH; assumption.
Qed.
End decoding_loops.

(** ** Stores inside the buffer *)

Lemma store_at_in_bounds p bytes (buffer : list byte) :
  0 <= p -> (Z.to_nat p + length bytes <= length buffer)%nat ->
  store_at p bytes buffer
  = take (Z.to_nat p) buffer ++ bytes ++ drop (Z.to_nat p + length bytes) buffer.
Proof.
  intros Hp Hfit. unfold store_at. apply list_eq. intros i.
  destruct (Nat.lt_ge_cases i (Z.to_nat p)) as [Hi|Hi].
  - rewrite list_lookup_inserts_lt by assumption.
    rewrite lookup_app_l by (rewrite length_take; lia).
    rewrite lookup_take_lt by assumption. reflexivity.
  - rewrite lookup_app_r by (rewrite length_take; lia).
    rewrite length_take, Nat.min_l by lia.
    destruct (Nat.lt_ge_cases i (Z.to_nat p + length bytes)) as [Hi'|Hi'].
    + rewrite list_lookup_inserts by lia.
      rewrite lookup_app_l by lia. reflexivity.
    + rewrite list_lookup_inserts_ge by assumption.
      rewrite lookup_app_r by lia. rewrite lookup_drop. f_equal. lia.
Qed.

Lemma bytes_at_store_at p bytes (buffer : list byte) :
  0 <= p -> (Z.to_nat p + length bytes <= length buffer)%nat ->
  bytes_at p (Z.of_nat (length bytes)) (store_at p bytes buffer) = bytes.
Proof.
  intros Hp Hfit. rewrite store_at_in_bounds by assumption. unfold bytes_at.
  rewrite drop_app_length' by (rewrite length_take; lia).
  rewrite Nat2Z.id. apply take_app_length.
Qed.

Lemma store_at_store_at p bytes bytes' (buffer : list byte) :
  0 <= p -> (Z.to_nat p + length bytes <= length buffer)%nat ->
  length bytes' = length bytes ->
  store_at p bytes' (store_at p bytes buffer) = store_at p bytes' buffer.
Proof.
  intros Hp Hfit Hlen.
  rewrite (store_at_in_bounds p bytes' (store_at p bytes buffer))
    by (try assumption; unfold store_at; rewrite length_inserts; lia).
  rewrite (store_at_in_bounds p bytes buffer) by assumption.
  rewrite (store_at_in_bounds p bytes' buffer) by lia.
  rewrite take_app_length' by (rewrite length_take; lia).
  rewrite Hlen. do 2 f_equal.
  rewrite <- drop_drop.
  rewrite drop_app_length' by (rewrite length_take; lia).
  apply drop_app_length.
Qed.

(** ** The decoding loops through the color table *)

Section color_table_loops.
Variable P : image_properties.
Variable orientation_in_file : orientation_type.
Variables S stride_in_file line_padding_in_file : Z.
Variable header : bmp_header.t.
Variable color_table : list color_table_entry.t.

Hypothesis padding_range : 0 <= line_padding_in_file <= stride_in_file.
Hypothesis stride_range : stride_in_file < 2 ^ 64.
Hypothesis height_range : 0 <= height P < 2 ^ 32.
Hypothesis stride_nonneg : 0 <= S.
Hypothesis image_fits : height P * S < 2 ^ 64.
Hypothesis width_bytes :
  abs (bmp_header.width header) = stride_in_file - line_padding_in_file.
Hypothesis line_fits : stride_in_file - line_padding_in_file <= S.

Let count_bytes : nat := Z.to_nat (stride_in_file - line_padding_in_file).

Lemma load_lines_mono8_delivers linear_lut lines : forall line file buffer,
  delivers file (concat lines) ->
  Forall (fun file_line => length file_line = Z.to_nat stride_in_file) lines ->
  0 <= line -> line + Z.of_nat (length lines) <= height P ->
  height P * S <= Z.of_nat (length buffer) ->
  exists file',
    load_lines_mono8 P orientation_in_file S stride_in_file line_padding_in_file
                     header color_table linear_lut (length lines) line ok file buffer
    = (ok, file',
       place_lines P orientation_in_file S
         (map (fun file_line =>
                 decode_mono8 color_table linear_lut (take count_bytes file_line))
              lines)
         line buffer).
Proof.
  induction lines as [|file_line lines IH]; intros line file buffer Hd Hlen Hl Hh Hfit.
  - eexists. reflexivity.
  - inversion Hlen as [|? ? Hl0 Hlen']; subst.
    destruct (split_line stride_in_file line_padding_in_file padding_range file_line Hl0)
      as (Hsplit & Htake & Hdrop).
    fold count_bytes in Hsplit, Htake, Hdrop.
    cbn [length] in Hh.
    cbn [length load_lines_mono8 map place_lines concat].
    cbn [concat] in Hd. rewrite Hsplit, <- app_assoc in Hd.
    rewrite usize_small by lia.
    destruct (read_delivers (stride_in_file - line_padding_in_file) file _ _ Hd)
      as (file1 & -> & Hd1); [symmetry; exact Htake|].
    assert (Hd1' := delivers_weaken _ _ _ Hd1).
    rewrite (delivers_fail _ _ Hd1').
    set (p := line_offset P orientation_in_file S line).
    assert (Hp : 0 <= p /\ p + S <= height P * S).
    { unfold p. rewrite line_offset_exact by lia. apply row_offset_range; lia. }
    set (pixels := take count_bytes file_line) in *.
    assert (Hbuffer :
              (if negb linear_lut
               then store_at p
                      (map (fun index =>
                              color_table_entry.b (color_table_at color_table index))
                           (bytes_at p (abs (bmp_header.width header))
                                     (store_at p pixels buffer)))
                      (store_at p pixels buffer)
               else store_at p pixels buffer)
              = store_at p (decode_mono8 color_table linear_lut pixels) buffer).
    { unfold decode_mono8. destruct linear_lut; cbn [negb]; [reflexivity|].
      rewrite width_bytes.
      replace (stride_in_file - line_padding_in_file)
        with (Z.of_nat (length pixels)) by (unfold count_bytes in Htake; lia).
      rewrite bytes_at_store_at by (unfold count_bytes in Htake; lia).
      apply store_at_store_at;
        [lia | unfold count_bytes in Htake; lia | apply length_map]. }
    rewrite Hbuffer.
    assert (Hfit' : height P * S
                    <= Z.of_nat (length (store_at p
                                           (decode_mono8 color_table linear_lut pixels)
                                           buffer)))
      by (unfold store_at; rewrite length_inserts; assumption).
    destruct (Z.eqb_spec line_padding_in_file 0) as [Hp0|Hp0]; cbn [negb].
    + apply IH; try assumption; try lia.
      assert (drop count_bytes file_line = []) as Hnil
        by (apply length_zero_iff_nil; lia).
      rewrite Hnil in Hd1. exact Hd1.
    + pose proof (seekg_cur_delivers line_padding_in_file file1 _ _ Hd1
                    (eq_sym Hdrop)) as Hd2.
      rewrite (delivers_fail _ _ Hd2).
      apply IH; try assumption; lia.
Qed.

End color_table_loops.

Section indexed_loop.
Variable P : image_properties.
Variable orientation_in_file : orientation_type.
Variables S stride_in_file : Z.
Variable header : bmp_header.t.
Variable color_table : list color_table_entry.t.

Lemma load_lines_indexed_delivers lines : forall line file buffer stride_buffer,
  delivers file (concat lines) ->
  Forall (fun file_line => length file_line = Z.to_nat stride_in_file) lines ->
  length stride_buffer = Z.to_nat stride_in_file ->
  exists file',
    load_lines_indexed P orientation_in_file S header color_table
                       (length lines) line ok stride_buffer file buffer
    = (ok, file',
       place_lines P orientation_in_file S
         (map (fun file_line =>
                 flat_map (expand_index color_table)
                          (take (Z.to_nat (abs (bmp_header.width header))) file_line))
              lines)
         line buffer).
Proof.
  induction lines as [|file_line lines IH];
    intros line file buffer stride_buffer Hd Hlen Hsb.
  - eexists. reflexivity.
  - inversion Hlen as [|? ? Hl0 Hlen']; subst.
    cbn [length load_lines_indexed map place_lines concat].
    cbn [concat] in Hd.
    destruct (read_delivers (Z.of_nat (length stride_buffer)) file _ _ Hd)
      as (file1 & -> & Hd1); [lia|].
    rewrite store_full by lia.
    rewrite Nat.eqb_refl. cbn [negb].
    apply IH; assumption.
Qed.
End indexed_loop.

(** ** Reading back a header *)

Lemma field_skip (x l : list byte) off len :
  (length x <= off)%nat -> field off len (x ++ l) = field (off - length x) len l.
Proof. intros H. unfold field. rewrite drop_app_ge by assumption. reflexivity. Qed.

Lemma field_here n z (l : list byte) :
  field 0 n (le_split n z ++ l) = z mod 2 ^ (Z.of_nat n * 8).
Proof.
  unfold field. rewrite drop_0.
  rewrite take_app_length' by (symmetry; apply length_le_split).
  apply le_combine_split.
Qed.

Ltac read_field :=
  repeat (rewrite field_skip by (rewrite length_le_split; lia);
          rewrite length_le_split; cbn [Nat.sub]);
  rewrite field_here.

Lemma header_of_bytes_header_bytes h rest :
  header_in_range h -> header_of_bytes (header_bytes h ++ rest) = h.
Proof.
  intros Hr. destruct h as [type size r1 r2 offset info w ht planes bpp compr declared xr yr nc ic].
  unfold header_in_range in Hr. header_fields.
  cbn [bmp_header.size bmp_header.reserved1 bmp_header.reserved2
       bmp_header.num_planes bmp_header.x_resolution bmp_header.y_resolution] in Hr.
  unfold header_of_bytes, header_bytes.
  cbn [bmp_header.type bmp_header.size bmp_header.reserved1 bmp_header.reserved2
       bmp_header.offset bmp_header.bitmap_info_header_size bmp_header.width
       bmp_header.height bmp_header.num_planes bmp_header.bits_per_pixel
       bmp_header.compression bmp_header.image_size_bytes bmp_header.x_resolution
       bmp_header.y_resolution bmp_header.num_colors bmp_header.important_colors].
  rewrite <- !app_assoc.
  f_equal; read_field;
    change (2 ^ (Z.of_nat 2 * 8)) with (2 ^ 16);
    change (2 ^ (Z.of_nat 4 * 8)) with (2 ^ 32);
    try (apply Z.mod_small; lia);
    (change (?z mod 2 ^ 32) with (u32 z); rewrite i32_u32; apply i32_small; lia).
Qed.

(** ** Saving on a working device *)

Lemma determine_line_padding_range bits_per_pixel w :
  0 <= determine_line_padding bits_per_pixel w <= 3.
Proof.
  unfold determine_line_padding.
  generalize (usize (byte_per_pixel_in_file bits_per_pixel * usize (abs w))).
  intros n. destruct (Z.eqb_spec (n mod 4) 0); cbn [negb]; dlia.
Qed.

Lemma write_working bytes s :
  ofstream.fail s = false -> ofstream.faults s = [] ->
  ofstream.write bytes s
  = ofstream.mk (ofstream.is_open s) (ofstream.written s ++ bytes) false [].
Proof. intros Hf Hq. unfold ofstream.write. rewrite Hf, Hq. reflexivity. Qed.

Lemma write_color_table_working count : forall i result is_open written,
  write_color_table count i result (ofstream.mk is_open written false [])
  = (result, ofstream.mk is_open (written ++ gray_ramp count i) false []).
Proof.
  induction count as [|count IH]; intros i result is_open written;
    cbn [write_color_table gray_ramp].
  - rewrite app_nil_r. reflexivity.
  - rewrite write_working by reflexivity.
    cbn [ofstream.fail ofstream.is_open ofstream.written entry_bytes
         color_table_entry.b color_table_entry.g color_table_entry.r
         color_table_entry.reserved].
    rewrite IH. rewrite <- app_assoc. reflexivity.
Qed.

Lemma save_lines_working P orientation_in_file S line_padding_in_file buffer count :
  0 <= line_padding_in_file <= 3 ->
  forall line result is_open written,
  save_lines P orientation_in_file S line_padding_in_file buffer count line result
             (ofstream.mk is_open written false [])
  = (result,
     ofstream.mk is_open
       (written
        ++ concat (saved_lines P orientation_in_file S buffer
                               (usize (S - line_padding P)) line_padding_in_file
                               count line))
       false []).
Proof.
  intros Hpad.
  induction count as [|count IH]; intros line result is_open written;
    cbn [save_lines saved_lines concat].
  - rewrite app_nil_r. reflexivity.
  - rewrite write_working by reflexivity.
    cbn [ofstream.fail ofstream.is_open ofstream.written].
    assert (Hzeros : take (Z.to_nat line_padding_in_file) (le_split 4 0)
                     = replicate (Z.to_nat line_padding_in_file) Byte.x00).
    { assert (line_padding_in_file = 0 \/ line_padding_in_file = 1
              \/ line_padding_in_file = 2 \/ line_padding_in_file = 3)
        as [-> | [-> | [-> | ->]]] by lia; reflexivity. }
    destruct (Z.eqb_spec line_padding_in_file 0) as [Hp|Hp]; cbn [negb andb].
    + rewrite IH. rewrite Hp. cbn [Z.to_nat replicate].
      rewrite app_nil_r, <- app_assoc. reflexivity.
    + destruct (Z.leb_spec line_padding_in_file 4); [|lia].
      rewrite write_working by reflexivity.
      cbn [ofstream.fail ofstream.is_open ofstream.written].
      rewrite IH, Hzeros. rewrite <- !app_assoc. reflexivity.
Qed.

Lemma save_working filename buffer buffersize p force_bottom_up fs :
  height p <> 0 -> width p <> 0 ->
  pixel_format p <> pixel_format_invalid ->
  orientation p <> orientation_invalid ->
  buffersize <> 0 -> determine_stride_props p <> 0 ->
  usize (determine_stride_props p * height p) <= buffersize ->
  filename ∉ write_protected fs -> pending_faults fs = [] ->
  save (Some filename) (Some buffer) buffersize p force_bottom_up fs
  = (ok,
     mk_filesystem (<[filename := saved_file p force_bottom_up buffer]> (files fs))
                   (write_protected fs) []).
Proof.
  intros Hh Hw Hf Ho Hb Hs Hsize Hwp Hq. unfold save, saved_file.
  rewrite (proj2 (Z.eqb_neq _ _) Hh), (proj2 (Z.eqb_neq _ _) Hw),
    (proj2 (Z.eqb_neq _ _) Hb), (proj2 (Z.eqb_neq _ _) Hs).
  rewrite !bool_decide_eq_false_2 by assumption. cbn [orb].
  destruct (Z.ltb_spec buffersize (usize (determine_stride_props p * height p)));
    [lia|].
  unfold open_ofstream. rewrite bool_decide_eq_false_2 by assumption.
  cbn [ofstream.is_open negb]. rewrite Hq.
  destruct (save_header p force_bottom_up) as [header orientation_in_file].
  rewrite write_working by reflexivity.
  cbn [ofstream.fail ofstream.is_open ofstream.written is_ok andb app].
  pose proof (determine_line_padding_range (bmp_header.bits_per_pixel header)
                                           (bmp_header.width header)) as Hpad.
  case_bool_decide.
  - rewrite write_color_table_working.
    rewrite save_lines_working by assumption.
    unfold close_ofstream. cbn [ofstream.is_open ofstream.written ofstream.faults].
    rewrite <- app_assoc. reflexivity.
  - rewrite save_lines_working by assumption.
    unfold close_ofstream. cbn [ofstream.is_open ofstream.written ofstream.faults].
    reflexivity.
Qed.

(** ** What a successful [save] has written *)

Lemma write_inv bytes s :
  ofstream.fail (ofstream.write bytes s) = false ->
  ofstream.written (ofstream.write bytes s) = ofstream.written s ++ bytes
  /\ ofstream.is_open (ofstream.write bytes s) = ofstream.is_open s.
Proof.
  unfold ofstream.write. destruct (ofstream.fail s) eqn:Hf; [congruence|].
  destruct (next_fault (ofstream.faults s)) as [[] faults']; cbn; [discriminate|].
  auto.
Qed.

Lemma write_color_table_inv count : forall i file file',
  write_color_table count i ok file = (ok, file') ->
  ofstream.written file' = ofstream.written file ++ gray_ramp count i
  /\ ofstream.is_open file' = ofstream.is_open file.
Proof.
  induction count as [|count IH]; intros i file file';
    cbn [write_color_table gray_ramp].
  - intros [= <-]. rewrite app_nil_r. auto.
  - destruct (ofstream.fail (ofstream.write _ file)) eqn:Hf; [discriminate|].
    intros H. apply IH in H. destruct H as [Hw Ho].
    apply write_inv in Hf. destruct Hf as [Hw1 Ho1].
    rewrite Hw, Hw1, Ho, Ho1. rewrite <- app_assoc. auto.
Qed.

(** A line loop entered with an error leaves with an error. *)
Lemma save_lines_keeps_error P orientation_in_file S line_padding_in_file buffer count :
  forall line result file,
  result <> ok ->
  fst (save_lines P orientation_in_file S line_padding_in_file buffer count line
                  result file) <> ok.
Proof.
  induction count as [|count IH]; intros line result file Hr; cbn [save_lines].
  - exact Hr.
  - repeat match goal with
           | |- context [if ?c then _ else _] => destruct c
           end; cbn [fst]; try discriminate; apply IH; assumption.
Qed.

Lemma save_lines_inv P orientation_in_file S line_padding_in_file buffer count :
  0 <= line_padding_in_file <= 3 ->
  forall line file file',
  save_lines P orientation_in_file S line_padding_in_file buffer count line ok file
  = (ok, file') ->
  ofstream.written file'
  = ofstream.written file
    ++ concat (saved_lines P orientation_in_file S buffer
                           (usize (S - line_padding P)) line_padding_in_file
                           count line)
  /\ ofstream.is_open file' = ofstream.is_open file.
Proof.
  intros Hpad.
  induction count as [|count IH]; intros line file file';
    cbn [save_lines saved_lines concat].
  - intros [= <-]. rewrite app_nil_r. auto.
  - destruct (ofstream.fail (ofstream.write _ file)) eqn:Hf; [discriminate|].
    apply write_inv in Hf. destruct Hf as [Hw1 Ho1].
    assert (Hzeros : take (Z.to_nat line_padding_in_file) (le_split 4 0)
                     = replicate (Z.to_nat line_padding_in_file) Byte.x00).
    { assert (line_padding_in_file = 0 \/ line_padding_in_file = 1
              \/ line_padding_in_file = 2 \/ line_padding_in_file = 3)
        as [-> | [-> | [-> | ->]]] by lia; reflexivity. }
    destruct (Z.eqb_spec line_padding_in_file 0) as [Hp|Hp]; cbn [negb andb].
    + intros H. apply IH in H. destruct H as [Hw Ho].
      rewrite Hw, Hw1, Ho, Ho1, Hp. cbn [Z.to_nat replicate].
      rewrite app_nil_r, <- app_assoc. auto.
    + destruct (Z.leb_spec line_padding_in_file 4); [|lia].
      destruct (ofstream.fail (ofstream.write _ (ofstream.write _ file))) eqn:Hf2;
        [discriminate|].
      apply write_inv in Hf2. destruct Hf2 as [Hw2 Ho2].
      intros Hs. apply IH in Hs. destruct Hs as [Hw Ho].
      rewrite Hw, Hw2, Hw1, Ho, Ho2, Ho1, Hzeros. rewrite <- !app_assoc. auto.
Qed.

Lemma save_ok_inv filename buffer buffersize p force_bottom_up fs fs' :
  save filename buffer buffersize p force_bottom_up fs = (ok, fs') ->
  exists f b,
    filename = Some f /\ buffer = Some b
    /\ height p <> 0 /\ width p <> 0
    /\ pixel_format p <> pixel_format_invalid
    /\ orientation p <> orientation_invalid
    /\ usize (determine_stride_props p * height p) <= buffersize
    /\ files fs' !! f = Some (saved_file p force_bottom_up b).
Proof.
  unfold save, saved_file.
  destruct buffer as [b|]; [|discriminate].
  destruct filename as [f|]; [|discriminate].
  destruct (Z.eqb_spec (height p) 0); [discriminate|].
  destruct (Z.eqb_spec (width p) 0); [discriminate|].
  case_bool_decide; [discriminate|]. case_bool_decide; [discriminate|].
  destruct (buffersize =? 0); [discriminate|].
  destruct (determine_stride_props p =? 0); [discriminate|]. cbn [orb].
  destruct (Z.ltb_spec buffersize (usize (determine_stride_props p * height p)));
    [discriminate|].
  unfold open_ofstream. case_bool_decide; [discriminate|]. cbn [ofstream.is_open negb].
  destruct (save_header p force_bottom_up) as [header orientation_in_file].
  pose proof (determine_line_padding_range (bmp_header.bits_per_pixel header)
                                           (bmp_header.width header)) as Hpad.
  set (file0 := ofstream.mk true [] false (pending_faults fs)).
  destruct (ofstream.fail (ofstream.write (header_bytes header) file0)) eqn:Hf.
  { cbn [is_ok andb]. intros Hsave. exfalso.
    match type of Hsave with
    | (let '(_, _) := ?call in _) = _ =>
        pose proof (save_lines_keeps_error p orientation_in_file
                      (determine_stride_props p)
                      (determine_line_padding (bmp_header.bits_per_pixel header)
                                              (bmp_header.width header))
                      b (Z.to_nat (height p)) 0 file_write_error
                      (ofstream.write (header_bytes header) file0)
                      ltac:(discriminate)) as Hne;
        destruct call as [r file'] eqn:E
    end.
    cbn [fst] in Hne. injection Hsave as -> _. contradiction. }
  apply write_inv in Hf. destruct Hf as [Hw0 Ho0].
  cbn [is_ok andb]. intros Hsave.
  exists f, b. do 7 (split; [first [reflexivity | assumption | lia]|]).
  case_bool_decide.
  - destruct (write_color_table 256 0 ok _) as [r1 file1] eqn:E1.
    destruct (decide (r1 = ok)) as [-> | Hne1].
    2: { exfalso.
         pose proof (save_lines_keeps_error p orientation_in_file
                       (determine_stride_props p)
                       (determine_line_padding (bmp_header.bits_per_pixel header)
                                               (bmp_header.width header))
                       b (Z.to_nat (height p)) 0 r1 file1 Hne1) as Hne.
         destruct (save_lines _ _ _ _ _ _ _ _ _) as [r file'] eqn:E.
         cbn [fst] in Hne. injection Hsave as -> _. contradiction. }
    apply write_color_table_inv in E1. destruct E1 as [Hw1 Ho1].
    destruct (save_lines _ _ _ _ _ _ _ _ _) as [r file'] eqn:E.
    injection Hsave as -> <-.
    apply save_lines_inv in E; [|assumption]. destruct E as [Hw2 Ho2].
    unfold close_ofstream. rewrite Ho2, Ho1, Ho0. unfold file0.
    cbn [ofstream.is_open files].
    rewrite lookup_insert_eq. rewrite Hw2, Hw1, Hw0. cbn [ofstream.written app].
    rewrite <- app_assoc. reflexivity.
  - destruct (save_lines _ _ _ _ _ _ _ _ _) as [r file'] eqn:E.
    injection Hsave as -> <-.
    apply save_lines_inv in E; [|assumption]. destruct E as [Hw2 Ho2].
    unfold close_ofstream. rewrite Ho2, Ho0. unfold file0.
    cbn [ofstream.is_open files].
    rewrite lookup_insert_eq. rewrite Hw2, Hw0. cbn [ofstream.written app].
    reflexivity.
Qed.

(** ** The header [save] writes *)

Lemma saved_file_eq p force_bottom_up buffer :
  saved_file p force_bottom_up buffer
  = header_bytes (fst (save_header p force_bottom_up))
    ++ (if bool_decide (pixel_format p = Mono8) then gray_ramp 256 0 else [])
    ++ concat
         (saved_lines p (snd (save_header p force_bottom_up))
            (determine_stride_props p) buffer
            (usize (determine_stride_props p - line_padding p))
            (determine_line_padding
               (bmp_header.bits_per_pixel (fst (save_header p force_bottom_up)))
               (bmp_header.width (fst (save_header p force_bottom_up))))
            (Z.to_nat (height p)) 0).
Proof.
  unfold saved_file. destruct (save_header p force_bottom_up). reflexivity.
Qed.

(** The header of [save], field by field. *)
Lemma save_header_eq p force_bottom_up :
  let flipped := negb force_bottom_up && bool_decide (orientation p = top_down) in
  let mono := bool_decide (pixel_format p = Mono8) in
  let height' := if flipped then i32 (- i32 (height p)) else i32 (height p) in
  let bits_per_pixel := 8 * bytes_per_pixel (pixel_format p) in
  save_header p force_bottom_up
  = (bmp_header.mk 0x4D42
       (u32 ((if mono then 1078 else 54)
             + u32 (usize (determine_stride bits_per_pixel (i32 (width p))
                           * usize (abs height')))))
       0 0 (if mono then 1078 else 54) 40 (i32 (width p)) height' 1
       bits_per_pixel 0 0 0 0 (if mono then 256 else 0) (if mono then 256 else 0),
     if flipped then top_down else bottom_up).
Proof.
  unfold save_header.
  destruct (negb force_bottom_up && bool_decide (orientation p = top_down));
    destruct (pixel_format p); reflexivity.
Qed.

Lemma save_header_in_range p force_bottom_up :
  header_in_range (fst (save_header p force_bottom_up)).
Proof.
  rewrite save_header_eq. cbv zeta. unfold header_in_range. cbn [fst].
  cbn [bmp_header.type bmp_header.size bmp_header.reserved1 bmp_header.reserved2
       bmp_header.offset bmp_header.bitmap_info_header_size bmp_header.width
       bmp_header.height bmp_header.num_planes bmp_header.bits_per_pixel
       bmp_header.compression bmp_header.image_size_bytes bmp_header.x_resolution
       bmp_header.y_resolution bmp_header.num_colors bmp_header.important_colors].
  assert (Hb : 0 <= 8 * bytes_per_pixel (pixel_format p) < 2 ^ 16)
    by (destruct (pixel_format p); cbn; lia).
  pose proof (i32_range (width p)).
  pose proof (i32_range (height p)).
  pose proof (i32_range (- i32 (height p))).
  pose proof (u32_range ((if bool_decide (pixel_format p = Mono8) then 1078 else 54)
             + u32 (usize (determine_stride (8 * bytes_per_pixel (pixel_format p))
                                            (i32 (width p))
                           * usize (abs (if negb force_bottom_up
                                            && bool_decide (orientation p = top_down)
                                         then i32 (- i32 (height p))
                                         else i32 (height p))))))).
  destruct (bool_decide (pixel_format p = Mono8));
    destruct (negb force_bottom_up && bool_decide (orientation p = top_down));
    repeat split; lia.
Qed.

Lemma header_of_saved_file p force_bottom_up buffer :
  header_of_bytes (take 54 (saved_file p force_bottom_up buffer))
  = fst (save_header p force_bottom_up).
Proof.
  rewrite saved_file_eq.
  rewrite take_app_length' by (symmetry; apply length_header_bytes).
  rewrite <- (app_nil_r (header_bytes _)).
  apply header_of_bytes_header_bytes, save_header_in_range.
Qed.

Lemma save_header_height p force_bottom_up :
  bmp_header.height (fst (save_header p force_bottom_up))
  = if negb force_bottom_up && bool_decide (orientation p = top_down)
    then i32 (- i32 (height p)) else i32 (height p).
Proof. rewrite save_header_eq. reflexivity. Qed.

Lemma save_header_orientation p force_bottom_up :
  snd (save_header p force_bottom_up)
  = if negb force_bottom_up && bool_decide (orientation p = top_down)
    then top_down else bottom_up.
Proof. rewrite save_header_eq. reflexivity. Qed.

Lemma length_gray_ramp count : forall i, length (gray_ramp count i) = (4 * count)%nat.
Proof.
  induction count as [|count IH]; intros i; cbn [gray_ramp length app].
  - reflexivity.
  - rewrite IH. lia.
Qed.

(** The pixel data of a saved file starts at the offset of its header. *)
Lemma pixel_data_of_saved_file p force_bottom_up buffer :
  pixel_format p <> pixel_format_invalid ->
  drop (Z.to_nat (bmp_header.offset (fst (save_header p force_bottom_up))))
       (saved_file p force_bottom_up buffer)
  = concat
      (saved_lines p (snd (save_header p force_bottom_up))
         (determine_stride_props p) buffer
         (usize (determine_stride_props p - line_padding p))
         (determine_line_padding
            (bmp_header.bits_per_pixel (fst (save_header p force_bottom_up)))
            (bmp_header.width (fst (save_header p force_bottom_up))))
         (Z.to_nat (height p)) 0).
Proof.
  intros Hf. rewrite saved_file_eq.
  set (lines := concat _).
  assert (Hoff : bmp_header.offset (fst (save_header p force_bottom_up))
                 = if bool_decide (pixel_format p = Mono8) then 1078 else 54).
  { rewrite save_header_eq. reflexivity. }
  rewrite Hoff. case_bool_decide.
  - rewrite app_assoc. apply drop_app_length'.
    rewrite length_app, length_header_bytes, length_gray_ramp. reflexivity.
  - cbn [app]. apply drop_app_length'. rewrite length_header_bytes. reflexivity.
Qed.

(** ** Loading on a working device *)

Lemma read_faults_nil count s :
  ifstream.faults s = [] -> ifstream.faults (snd (ifstream.read count s)) = [].
Proof.
  intros Hq. unfold ifstream.read. destruct (ifstream.fail s); [exact Hq|].
  rewrite Hq. reflexivity.
Qed.

Lemma seekg_faults_nil pos s :
  ifstream.faults s = [] -> ifstream.faults (ifstream.seekg pos s) = [].
Proof.
  intros Hq. unfold ifstream.seekg. destruct (ifstream.fail s); [exact Hq|].
  rewrite Hq. cbn [next_fault orb]. destruct (pos <? 0); reflexivity.
Qed.

Lemma load_image_properties_faults_nil stream p result stream' header color_table p' :
  load_image_properties stream bmp_header.zero [] p
  = (result, stream', header, color_table, p') ->
  ifstream.faults stream = [] -> ifstream.faults stream' = [].
Proof.
  unfold load_image_properties. intros H Hq.
  destruct (negb (ifstream.is_open stream)).
  - cbn [is_ok andb] in H. injection H as _ <- _ _ _. exact Hq.
  - unfold load_and_check_header in H.
    pose proof (read_faults_nil bmp_header.sizeof stream Hq) as Hq1.
    destruct (ifstream.read bmp_header.sizeof stream) as [chunk s1].
    cbn [snd] in Hq1.
    set (h1 := header_of_bytes _) in H.
    assert (Hct : ifstream.faults (snd (fst (load_color_table s1 h1 []))) = []).
    { unfold load_color_table.
      pose proof (seekg_faults_nil
                    (u32 (bmp_header.bitmap_info_header_size h1 + 14)) s1 Hq1) as Hq2.
      destruct (ifstream.fail (ifstream.seekg _ s1)); [exact Hq2|].
      destruct (negb (Z.of_nat (length _) =? 0)); [|exact Hq2].
      match goal with
      | |- context [ifstream.read ?n ?s] =>
          pose proof (read_faults_nil n s Hq2) as Hq3;
          destruct (ifstream.read n s) as [chunk' s3]
      end.
      cbn [snd] in Hq3. destruct (ifstream.fail s3); exact Hq3. }
    destruct (ifstream.fail s1).
    + cbn [is_ok andb] in H. injection H as _ <- _ _ _. exact Hq1.
    + match type of H with
      | context [is_ok ?r && _] => destruct (is_ok r && (bmp_header.bits_per_pixel h1 =? 8))
      end.
      * destruct (load_color_table s1 h1 []) as [[r2 s2] t2].
        injection H as _ <- _ _ _. exact Hct.
      * injection H as _ <- _ _ _. exact Hq1.
Qed.

Lemma forced_properties_code p0 p (flp fo : bool) :
  (let q := if flp
            then {| width := width p0; height := height p0;
                    line_padding := line_padding p;
                    pixel_format := pixel_format p0;
                    orientation := orientation p0 |}
            else p0 in
   if fo
   then {| width := width q; height := height q;
           line_padding := line_padding q;
           pixel_format := pixel_format q;
           orientation := orientation p |}
   else q)
  = forced_properties p0 p flp fo.
Proof. destruct p0, flp, fo; reflexivity. Qed.

Lemma open_ifstream_file f fs bytes :
  files fs !! f = Some bytes -> pending_faults fs = [] ->
  open_ifstream f fs = ifstream.mk true bytes 0 false [].
Proof. intros Hfile Hq. unfold open_ifstream. rewrite Hfile, Hq. reflexivity. Qed.

(** The buffer overload of [load] on a working device, for a file whose
    header and color table are accepted and whose pixel data are the
    lines [lines]: the call succeeds and stores the decoded rows of the
    lines where [line_offset] has them. *)
Lemma load_buffer_working f buffer buffersize p flp fo fs bytes p0 lines rest :
  files fs !! f = Some bytes -> pending_faults fs = [] ->
  load (Some f) p fs = (ok, p0) ->
  (fo = true -> orientation p <> orientation_invalid) ->
  let header := header_of_bytes (take 54 bytes) in
  let color_table := loaded_color_table header bytes in
  let p' := forced_properties p0 p flp fo in
  height p0 < 2 ^ 31 ->
  0 <= line_padding p' ->
  buffer_stride p' * height p' <= buffersize ->
  buffersize <= Z.of_nat (length buffer) -> buffersize < 2 ^ 64 ->
  drop (Z.to_nat (bmp_header.offset header)) bytes = concat lines ++ rest ->
  Z.of_nat (length lines) = height p0 ->
  Forall (fun file_line =>
            Z.of_nat (length file_line)
            = file_stride (bmp_header.bits_per_pixel header) (bmp_header.width header))
         lines ->
  load_buffer (Some f) (Some buffer) buffersize p flp fo fs
  = (ok,
     Some (place_lines p' (orientation p0) (buffer_stride p')
                       (map (decoded_row header color_table) lines) 0 buffer),
     p').
Proof.
  intros Hfile Hq Hload Hfo header color_table p' Hh31 Hpad Hfit Hbuf Hsize
    Hdata Hcount Hlines.
  unfold load in Hload. rewrite (open_ifstream_file f fs bytes Hfile Hq) in Hload.
  destruct (load_image_properties _ _ _ _) as [[[[r0 s0] h] t] q0] eqn:E.
  injection Hload as -> ->.
  pose proof (load_image_properties_faults_nil _ _ _ _ _ _ _ E eq_refl) as Hq0.
  apply load_image_properties_inv in E as Hinv.
  destruct Hinv as [[Hne _] | (_ & Hacc & _ & Hf0 & Hc0 & Hh & Ht & Hp0)];
    [congruence|].
  cbn [ifstream.gpos ifstream.contents] in Hc0, Hh, Ht. rewrite drop_0 in Hh.
  assert (h = header) as -> by exact Hh. clear Hh.
  assert (t = color_table) as ->.
  { unfold color_table, loaded_color_table.
    destruct (bmp_header.bits_per_pixel header =? 8); exact Ht. }
  clear Ht.
  rewrite determine_image_properties_accepted in Hp0 by assumption.
  destruct Hacc as (Hr & _ & _ & Hoff & Hw & Hh0 & Hb & _ & _) .
  destruct Hr as (_ & _ & _ & _ & _ & _ & Hwr & Hhr & _).
  set (bpp := bmp_header.bits_per_pixel header) in *.
  set (w := bmp_header.width header) in *.
  set (hh := bmp_header.height header) in *.
  assert (Hwp : width p' = w) by (unfold p'; rewrite Hp0; reflexivity).
  assert (Hhp : height p' = Z.abs hh) by (unfold p'; rewrite Hp0; reflexivity).
  assert (Hh0' : height p0 = Z.abs hh) by (rewrite Hp0; reflexivity).
  assert (Hfp : pixel_format p'
                = if bpp =? 8 then (if check_is_mono8 color_table then Mono8 else BGR8)
                  else if bpp =? 24 then BGR8 else BGRA8)
    by (unfold p'; rewrite Hp0; reflexivity).
  assert (Hop : orientation p0 = if hh <? 0 then top_down else bottom_up)
    by (rewrite Hp0; reflexivity).
  assert (Habs : abs hh = Z.abs hh).
  { destruct (Z_le_gt_dec 0 hh); [rewrite abs_pos | rewrite abs_neg]; lia. }
  assert (Hbpp : 1 <= bytes_per_pixel (pixel_format p') <= 4).
  { rewrite Hfp. destruct (bpp =? 8); [destruct (check_is_mono8 _)|destruct (bpp =? 24)];
      cbn; lia. }
  assert (Hstride : determine_stride_props p' = buffer_stride p').
  { rewrite determine_stride_props_eq. unfold buffer_stride. apply usize_small.
    unfold buffer_stride in Hfit. nia. }
  assert (HS : 0 <= buffer_stride p') by (unfold buffer_stride; nia).
  unfold load_buffer.
  destruct (fo && bool_decide (orientation p = orientation_invalid)) eqn:Hfo'.
  { exfalso. apply andb_true_iff in Hfo'. destruct Hfo' as [-> Ho].
    apply bool_decide_eq_true in Ho. apply Hfo; [reflexivity | exact Ho]. }
  rewrite (open_ifstream_file f fs bytes Hfile Hq), E. cbn [is_ok].
  pose proof (forced_properties_code p0 p flp fo) as Hforced. cbv zeta in Hforced.
  rewrite !Hforced. fold p'. clear Hforced. fold header. fold bpp w hh.
  rewrite Hstride, Habs, (usize_small (Z.abs hh)) by lia.
  rewrite <- Hhp. rewrite (usize_small (buffer_stride p' * height p')) by nia.
  destruct (Z.ltb_spec buffersize (buffer_stride p' * height p')); [lia|].
  destruct (seekg_delivers (bmp_header.offset header) s0 (concat lines) rest)
    as [Hd Hc1]; try assumption; try lia.
  { rewrite Hc0. exact Hdata. }
  rewrite (delivers_fail _ _ Hd).
  rewrite determine_stride_eq, determine_line_padding_eq by (try assumption; lia).
  pose proof (file_padding_range bpp w) as Hfpad.
  destruct (file_stride_bounds bpp w Hb ltac:(lia)) as [Hfs _].
  assert (Hlines' : Forall (fun file_line : list byte =>
                              length file_line = Z.to_nat (file_stride bpp w)) lines).
  { eapply Forall_impl; [exact Hlines|]. cbn. intros. lia. }
  assert (Hcb : file_stride bpp w - file_padding bpp w = bpp / 8 * w)
    by (unfold file_padding; rewrite Z.abs_eq by lia; lia).
  rewrite Hfp.
  assert (Hn : Z.to_nat (height p') = length lines) by lia.
  rewrite Hn.
  assert (Hh32 : 0 <= height p' < 2 ^ 32) by lia.
  assert (Himg : height p' * buffer_stride p' < 2 ^ 64) by lia.
  assert (Hbuf' : height p' * buffer_stride p' <= Z.of_nat (length buffer)) by lia.
  destruct (Z.eqb_spec bpp 8) as [Hb8|Hb8].
  - assert (Hcb8 : file_stride bpp w - file_padding bpp w = w)
      by (rewrite Hcb, Hb8; change (8 / 8) with 1; lia).
    assert (Hlt : (8 <? bpp) = false) by (rewrite Hb8; reflexivity).
    rewrite Hlt. cbn [andb].
    destruct (check_is_mono8 color_table) eqn:Hmono.
    + rewrite bool_decide_eq_true_2 by reflexivity.
      destruct (load_lines_mono8_delivers p' (orientation p0) (buffer_stride p')
                  (file_stride bpp w) (file_padding bpp w) header color_table
                  ltac:(lia) ltac:(lia) Hh32 HS Himg
                  ltac:(fold w; rewrite abs_pos by lia; lia)
                  ltac:(rewrite Hcb8; unfold buffer_stride; nia)
                  (check_is_linear_mono8 color_table) lines 0
                  (ifstream.seekg (bmp_header.offset header) s0) buffer
                  Hd Hlines' ltac:(lia) ltac:(lia) Hbuf')
        as [file' Hloop].
      rewrite Hloop. do 4 f_equal. apply map_ext. intros file_line.
      unfold decoded_row. fold bpp w. rewrite Hlt, Hmono, Hcb8. reflexivity.
    + rewrite bool_decide_eq_false_2 by discriminate.
      rewrite bool_decide_eq_true_2 by reflexivity. cbn [andb].
      destruct (load_lines_indexed_delivers p' (orientation p0) (buffer_stride p')
                  (file_stride bpp w) header color_table lines 0
                  (ifstream.seekg (bmp_header.offset header) s0) buffer
                  (replicate (Z.to_nat (file_stride bpp w)) Byte.x00)
                  Hd Hlines' ltac:(apply length_replicate))
        as [file' Hloop].
      rewrite Hloop. do 4 f_equal. apply map_ext. intros file_line.
      unfold decoded_row. fold bpp w. rewrite Hlt, Hmono.
      rewrite abs_pos by lia. reflexivity.
  - assert (Hlt : (8 <? bpp) = true) by (destruct Hb as [? | [-> | ->]]; [lia | reflexivity ..]).
    rewrite Hlt.
    assert (Hdirect : bool_decide ((if bpp =? 24 then BGR8 else BGRA8) = BGR8)
                      || bool_decide ((if bpp =? 24 then BGR8 else BGRA8) = BGRA8)
                      = true) by (destruct (bpp =? 24); reflexivity).
    rewrite Hdirect. cbn [andb].
    destruct (load_lines_direct_delivers p' (orientation p0) (buffer_stride p')
                (file_stride bpp w) (file_padding bpp w) ltac:(lia) ltac:(lia)
                lines 0 (ifstream.seekg (bmp_header.offset header) s0) buffer
                Hd Hlines')
      as [file' Hloop].
    rewrite Hloop. do 4 f_equal. apply map_ext. intros file_line.
    unfold decoded_row. fold bpp w. rewrite Hlt, Hcb. reflexivity.
Qed.

(** ** Where the lines of a transfer are *)

Lemma length_flat_map_expand color_table (indices : list byte) :
  length (flat_map (expand_index color_table) indices) = (3 * length indices)%nat.
Proof.
  induction indices as [|index indices IH]; cbn [flat_map length app expand_index].
  - reflexivity.
  - rewrite IH. lia.
Qed.

Lemma length_decode_mono8 color_table linear_lut (pixels : list byte) :
  length (decode_mono8 color_table linear_lut pixels) = length pixels.
Proof. unfold decode_mono8. destruct linear_lut; [reflexivity | apply length_map]. Qed.

(** A decoded row has the bytes of the pixels of a buffer line. *)
Lemma length_decoded_row header color_table p0 p flp fo (file_line : list byte) :
  accepted header ->
  p0 = determine_image_properties header color_table p ->
  Z.of_nat (length file_line)
  = file_stride (bmp_header.bits_per_pixel header) (bmp_header.width header) ->
  Z.of_nat (length (decoded_row header color_table file_line))
  = width (forced_properties p0 p flp fo)
    * bytes_per_pixel (pixel_format (forced_properties p0 p flp fo)).
Proof.
  intros Hacc -> Hlen.
  rewrite determine_image_properties_accepted by assumption.
  destruct Hacc as (Hr & _ & _ & _ & Hw & _ & Hb & _).
  destruct Hr as (_ & _ & _ & _ & _ & _ & Hwr & _).
  cbn [forced_properties width pixel_format].
  pose proof (file_padding_range (bmp_header.bits_per_pixel header)
                                 (bmp_header.width header)) as Hpad.
  unfold file_padding in Hpad. rewrite Z.abs_eq in Hpad by lia.
  unfold decoded_row.
  destruct Hb as [Hb | [Hb | Hb]]; rewrite Hb in *.
  - change (8 <? 8) with false. change (8 =? 8) with true. cbn iota.
    change (8 / 8) with 1 in Hpad.
    destruct (check_is_mono8 color_table); cbn [bytes_per_pixel].
    + rewrite length_decode_mono8, length_take. lia.
    + rewrite length_flat_map_expand, length_take. lia.
  - change (8 <? 24) with true. change (24 =? 8) with false.
    change (24 =? 24) with true. cbn iota. cbn [bytes_per_pixel].
    rewrite length_take. change (24 / 8) with 3 in *. lia.
  - change (8 <? 32) with true. change (32 =? 8) with false.
    change (32 =? 24) with false. cbn iota. cbn [bytes_per_pixel].
    rewrite length_take. change (32 / 8) with 4 in *. lia.
Qed.

Lemma length_saved_lines P orientation_in_file S buffer n pad count : forall line,
  length (saved_lines P orientation_in_file S buffer n pad count line) = count.
Proof.
  induction count as [|count IH]; intros line; cbn [saved_lines length].
  - reflexivity.
  - rewrite IH. reflexivity.
Qed.

Lemma saved_lines_lookup P orientation_in_file S buffer n pad count :
  forall line (i : nat),
  (i < count)%nat ->
  saved_lines P orientation_in_file S buffer n pad count line !! i
  = Some (bytes_at (line_offset P orientation_in_file S (line + Z.of_nat i)) n buffer
          ++ replicate (Z.to_nat pad) Byte.x00).
Proof.
  induction count as [|count IH]; intros line i Hi; [lia|].
  cbn [saved_lines]. destruct i as [|i].
  - cbn. rewrite Z.add_0_r. reflexivity.
  - cbn [lookup list_lookup]. rewrite IH by lia.
    replace (line + Z.of_nat (Datatypes.S i)) with (line + 1 + Z.of_nat i) by lia.
    reflexivity.
Qed.

(** The header and the properties of a file whose properties load. *)
Lemma load_ok_header f p fs bytes p0 :
  files fs !! f = Some bytes ->
  load (Some f) p fs = (ok, p0) ->
  let header := header_of_bytes (take 54 bytes) in
  accepted header
  /\ p0 = determine_image_properties header (loaded_color_table header bytes) p.
Proof.
  intros Hfile Hload header. unfold load, open_ifstream in Hload.
  rewrite Hfile in Hload.
  destruct (load_image_properties _ _ _ _) as [[[[r0 s0] h] t] q0] eqn:E.
  injection Hload as -> ->.
  apply load_image_properties_inv in E.
  destruct E as [[Hne _] | (_ & Hacc & _ & _ & _ & Hh & Ht & Hp0)]; [congruence|].
  cbn [ifstream.gpos ifstream.contents] in Hh, Ht. rewrite drop_0 in Hh.
  assert (h = header) as -> by exact Hh.
  split; [exact Hacc|].
  rewrite Hp0. f_equal. unfold loaded_color_table.
  destruct (bmp_header.bits_per_pixel header =? 8); exact Ht.
Qed.

(** The rows [load] stores, line by line. *)
Lemma load_buffer_rows :
  forall f buffer buffersize p flp fo fs bytes p0 lines rest,
     files fs !! f = Some bytes -> pending_faults fs = [] ->
     load (Some f) p fs = (ok, p0) ->
     (fo = true -> orientation p <> orientation_invalid) ->
     let header := header_of_bytes (take 54 bytes) in
     let color_table := loaded_color_table header bytes in
     let p' := forced_properties p0 p flp fo in
     height p0 < 2 ^ 31 ->
     0 <= line_padding p' ->
     buffer_stride p' * height p' <= buffersize ->
     buffersize <= Z.of_nat (length buffer) -> buffersize < 2 ^ 64 ->
     drop (Z.to_nat (bmp_header.offset header)) bytes = concat lines ++ rest ->
     Z.of_nat (length lines) = height p0 ->
     Forall (fun file_line =>
               Z.of_nat (length file_line)
               = file_stride (bmp_header.bits_per_pixel header)
                             (bmp_header.width header))
            lines ->
     exists buffer',
       load_buffer (Some f) (Some buffer) buffersize p flp fo fs
       = (ok, Some buffer', p')
       /\ forall (i : nat) file_line,
            lines !! i = Some file_line ->
            forall j : nat,
              (j < length (decoded_row header color_table file_line))%nat ->
              buffer' !! (Z.to_nat (row_offset p' (orientation p0) (buffer_stride p')
                                               (Z.of_nat i)) + j)%nat
              = decoded_row header color_table file_line !! j.
Proof.
  intros f buffer buffersize p flp fo fs bytes p0 lines rest Hfile Hq Hload Hfo
    header color_table p' Hh31 Hpad Hfit Hbuf Hsize Hdata Hcount Hlines.
  eexists. split.
  { eapply load_buffer_working; eassumption. }
  fold header color_table p'.
  destruct (load_ok_header f p fs bytes p0 Hfile Hload) as [Hacc Hp0].
  fold header in Hacc, Hp0. fold color_table in Hp0.
  assert (Hh0 : 0 < height p0).
  { rewrite Hp0, determine_image_properties_accepted by assumption.
    cbn [height]. destruct Hacc as (_ & _ & _ & _ & _ & Hh0 & _). lia. }
  assert (Hhp : height p' = height p0) by reflexivity.
  assert (Hrows : Forall (fun row : list byte =>
                            Z.of_nat (length row) <= buffer_stride p')
                         (map (decoded_row header color_table) lines)).
  { apply Forall_fmap. eapply Forall_impl; [exact Hlines|].
    cbn. intros file_line Hl.
    pose proof (length_decoded_row header color_table p0 p flp fo file_line
                  Hacc Hp0 Hl) as Hl'.
    fold p' in Hl'. unfold buffer_stride. lia. }
  assert (Hw : 0 <= width p' * bytes_per_pixel (pixel_format p')).
  { destruct lines as [|file_line lines']; [cbn in Hcount; lia|].
    pose proof (Forall_inv Hlines) as Hl. cbn beta in Hl.
    pose proof (length_decoded_row header color_table p0 p flp fo file_line
                  Hacc Hp0 Hl) as Hl'.
    fold p' in Hl'. lia. }
  intros i file_line Hi j Hj.
  replace (Z.of_nat i) with (0 + Z.of_nat i) by lia.
  assert (HS : 0 <= buffer_stride p').
  { unfold buffer_stride. generalize dependent (width p' * bytes_per_pixel (pixel_format p')).
    intros. lia. }
  apply place_lines_inside; try assumption; try lia.
  + rewrite length_map. lia.
  + rewrite list_lookup_fmap, Hi. reflexivity.
Qed.

(** The lines [save] writes, line by line. *)
Lemma save_rows :
  forall f b buffersize p force_bottom_up fs fs',
        save (Some f) (Some b) buffersize p force_bottom_up fs = (ok, fs') ->
        0 <= width p -> 0 <= height p < 2 ^ 32 -> 0 <= line_padding p ->
        buffer_stride p * height p <= Z.of_nat (length b) ->
        Z.of_nat (length b) < 2 ^ 64 ->
        let orientation_in_file :=
          if negb force_bottom_up && bool_decide (orientation p = top_down)
          then top_down else bottom_up in
        exists bytes lines,
          files fs' !! f = Some bytes
          /\ drop (Z.to_nat (bmp_header.offset (header_of_bytes (take 54 bytes)))) bytes
             = concat lines
          /\ Z.of_nat (length lines) = height p
          /\ forall i : nat,
               Z.of_nat i < height p ->
               exists padding,
                 lines !! i
                 = Some (bytes_at (row_offset p orientation_in_file (buffer_stride p)
                                              (Z.of_nat i))
                                  (width p * bytes_per_pixel (pixel_format p)) b
                         ++ padding).
Proof.
  intros f b buffersize p force_bottom_up fs fs' Hsave Hw Hh Hpad Hfit Hlen
    orientation_in_file.
  apply save_ok_inv in Hsave.
  destruct Hsave as (f' & b' & [= <-] & [= <-] & Hh0 & Hw0 & Hf & _ & _ & Hfile).
  assert (Hbpp : 1 <= bytes_per_pixel (pixel_format p) <= 4)
    by (destruct (pixel_format p); cbn; try lia; contradiction).
  assert (HS : 0 <= buffer_stride p) by (unfold buffer_stride; nia).
  assert (Hstride : determine_stride_props p = buffer_stride p).
  { rewrite determine_stride_props_eq. apply usize_small.
    fold (buffer_stride p). nia. }
  eexists. eexists. split; [exact Hfile|].
  rewrite header_of_saved_file. split; [apply pixel_data_of_saved_file, Hf|].
  rewrite length_saved_lines. split; [lia|].
  intros i Hi. eexists. rewrite saved_lines_lookup by lia.
  rewrite save_header_orientation. fold orientation_in_file.
  rewrite Hstride, Z.add_0_l.
  rewrite line_offset_exact by (try assumption; nia).
  replace (usize (buffer_stride p - line_padding p))
    with (width p * bytes_per_pixel (pixel_format p))
    by (unfold buffer_stride; rewrite usize_small; [lia | unfold buffer_stride in *; nia]).
  reflexivity.
Qed.

(** C5: in a transfer, file line [i] is at the byte offset
    [i * buffer_stride] of the buffer when the orientation of the buffer
    is that of the file, and at [(height - 1 - i) * buffer_stride]
    otherwise.  Decoding on a working device a file that holds all its
    lines, and whose pixels index the color table inside it when it has
    8 bits per pixel, into a buffer that holds the image, [load] stores
    the decoded row of every file line at that offset; a successful
    [save] on a working device has taken the bytes of every file line
    from that offset of the buffer. *)
Theorem transfer_line_offsets :
  (forall f buffer buffersize p flp fo fs bytes p0 lines rest,
     files fs !! f = Some bytes -> pending_faults fs = [] ->
     load (Some f) p fs = (ok, p0) ->
     (fo = true -> orientation p <> orientation_invalid) ->
     let header := header_of_bytes (take 54 bytes) in
     let color_table := loaded_color_table header bytes in
     let p' := forced_properties p0 p flp fo in
     height p0 < 2 ^ 31 ->
     0 <= line_padding p' ->
     buffer_stride p' * height p' <= buffersize ->
     buffersize <= Z.of_nat (length buffer) -> buffersize < 2 ^ 64 ->
     drop (Z.to_nat (bmp_header.offset header)) bytes = concat lines ++ rest ->
     Z.of_nat (length lines) = height p0 ->
     Forall (fun file_line =>
               Z.of_nat (length file_line)
               = file_stride (bmp_header.bits_per_pixel header)
                             (bmp_header.width header))
            lines ->
     indices_in_table header color_table lines ->
     exists buffer',
       load_buffer (Some f) (Some buffer) buffersize p flp fo fs
       = (ok, Some buffer', p')
       /\ forall (i : nat) file_line,
            lines !! i = Some file_line ->
            forall j : nat,
              (j < length (decoded_row header color_table file_line))%nat ->
              buffer' !! (Z.to_nat (row_offset p' (orientation p0) (buffer_stride p')
                                               (Z.of_nat i)) + j)%nat
              = decoded_row header color_table file_line !! j)
  /\ (forall f b buffersize p force_bottom_up fs fs',
        pending_faults fs = [] ->
        save (Some f) (Some b) buffersize p force_bottom_up fs = (ok, fs') ->
        0 <= width p -> 0 <= height p < 2 ^ 32 -> 0 <= line_padding p ->
        buffer_stride p * height p <= Z.of_nat (length b) ->
        Z.of_nat (length b) < 2 ^ 64 ->
        let orientation_in_file :=
          if negb force_bottom_up && bool_decide (orientation p = top_down)
          then top_down else bottom_up in
        exists bytes lines,
          files fs' !! f = Some bytes
          /\ drop (Z.to_nat (bmp_header.offset (header_of_bytes (take 54 bytes)))) bytes
             = concat lines
          /\ Z.of_nat (length lines) = height p
          /\ forall i : nat,
               Z.of_nat i < height p ->
               exists padding,
                 lines !! i
                 = Some (bytes_at (row_offset p orientation_in_file (buffer_stride p)
                                              (Z.of_nat i))
                                  (width p * bytes_per_pixel (pixel_format p)) b
                         ++ padding)).
Proof.
  split.
  - intros f buffer buffersize p flp fo fs bytes p0 lines rest Hfile Hq Hload Hfo
      header color_table p' Hh31 Hpad Hfit Hbuf Hsize Hdata Hcount Hlines _.
    exact (load_buffer_rows f buffer buffersize p flp fo fs bytes p0 lines rest
             Hfile Hq Hload Hfo Hh31 Hpad Hfit Hbuf Hsize Hdata Hcount Hlines).
  - intros f b buffersize p force_bottom_up fs fs' _.
    exact (save_rows f b buffersize p force_bottom_up fs fs').
Qed.

Lemma transfer_line_offsets_witness :
  let p0 := {| width := 3; height := 2; line_padding := 1;
               pixel_format := Mono8; orientation := bottom_up |} in
  let buffer := replicate 8 Byte.x00 in
  (files sample_disk !! "image.bmp"%string = Some sample_file
   /\ pending_faults sample_disk = []
   /\ load (Some "image.bmp"%string) default_image_properties sample_disk = (ok, p0)
   /\ drop (Z.to_nat (bmp_header.offset (header_of_bytes (take 54 sample_file))))
           sample_file
      = concat sample_lines ++ []
   /\ indices_in_table (header_of_bytes (take 54 sample_file))
        (loaded_color_table (header_of_bytes (take 54 sample_file)) sample_file)
        sample_lines
   /\ pending_faults empty_disk = []
   /\ save (Some "image.bmp"%string) (Some sample_buffer) 8 sample_properties true
           empty_disk
      = (ok, sample_disk))
  /\ (exists buffer',
        load_buffer (Some "image.bmp"%string) (Some buffer) 8
                    default_image_properties false false sample_disk
        = (ok, Some buffer', p0)
        /\ buffer' !! 4%nat = Some (byte.of_Z 1))
  /\ (exists bytes lines,
        files sample_disk !! "image.bmp"%string = Some bytes
        /\ drop (Z.to_nat (bmp_header.offset (header_of_bytes (take 54 bytes)))) bytes
           = concat lines
        /\ Z.of_nat (length lines) = 2
        /\ forall i : nat,
             Z.of_nat i < 2 ->
             exists padding,
               lines !! i
               = Some (bytes_at (row_offset sample_properties bottom_up 4 (Z.of_nat i))
                                3 sample_buffer
                       ++ padding)).
Proof.
  intros p0 buffer.
  assert (Hfile : files sample_disk !! "image.bmp"%string = Some sample_file)
    by (vm_compute; reflexivity).
  assert (Hq : pending_faults sample_disk = []) by (vm_compute; reflexivity).
  assert (Hload : load (Some "image.bmp"%string) default_image_properties sample_disk
                  = (ok, p0)) by (vm_compute; reflexivity).
  assert (Hdata : drop (Z.to_nat (bmp_header.offset
                                    (header_of_bytes (take 54 sample_file))))
                       sample_file
                  = concat sample_lines ++ []) by (vm_compute; reflexivity).
  assert (Htable : indices_in_table (header_of_bytes (take 54 sample_file))
                     (loaded_color_table (header_of_bytes (take 54 sample_file))
                                         sample_file)
                     sample_lines).
  { intros _. apply (bool_decide_unpack _). vm_compute. exact I. }
  assert (Hq0 : pending_faults empty_disk = []) by reflexivity.
  assert (Hsave : save (Some "image.bmp"%string) (Some sample_buffer) 8
                       sample_properties true empty_disk
                  = (ok, sample_disk)) by (vm_compute; reflexivity).
  split; [auto 10|]. split.
  - destruct (proj1 transfer_line_offsets "image.bmp"%string buffer 8
                default_image_properties false false sample_disk sample_file p0
                sample_lines [] Hfile Hq Hload ltac:(discriminate)
                ltac:(vm_compute; reflexivity) ltac:(vm_compute; discriminate)
                ltac:(vm_compute; discriminate) ltac:(vm_compute; discriminate)
                ltac:(vm_compute; reflexivity) Hdata ltac:(reflexivity)
                ltac:(repeat constructor) Htable)
      as (buffer' & Hbuffer & Hrows).
    exists buffer'. split; [exact Hbuffer|].
    exact (Hrows 1%nat (map byte.of_Z [1; 2; 3; 0]) eq_refl 0%nat
                 ltac:(vm_compute; lia)).
  - exact (proj2 transfer_line_offsets "image.bmp"%string sample_buffer 8
             sample_properties true empty_disk sample_disk Hq0 Hsave
             ltac:(vm_compute; discriminate)
             ltac:(split; [vm_compute; discriminate | vm_compute; reflexivity])
             ltac:(vm_compute; discriminate) ltac:(vm_compute; discriminate)
             ltac:(vm_compute; reflexivity)).
Defined.

(** ** The height field and the order of the lines *)

(** C7 (as stated, refuted): a [Mono8] image of [2 ^ 31 + 1] lines is
    saved successfully with [force_bottom_up = true], and the height
    field of the file is negative: the conversion of the height to
    [int32_t] wraps around. *)
Lemma save_height_field_counterexample :
  let p := {| width := 1; height := 2 ^ 31 + 1; line_padding := 0;
              pixel_format := Mono8; orientation := bottom_up |} in
  let buffer := replicate (Z.to_nat (2 ^ 31 + 1)) Byte.x00 in
  exists fs' bytes,
    save (Some "tall.bmp"%string) (Some buffer) (2 ^ 31 + 1) p true empty_disk
    = (ok, fs')
    /\ files fs' !! "tall.bmp"%string = Some bytes
    /\ bmp_header.height (header_of_bytes (take 54 bytes)) = - (2 ^ 31 - 1).
Proof.
  intros p buffer. eexists. eexists.
  split; [|split].
  - apply save_working; try discriminate; try reflexivity.
  - apply lookup_insert_eq.
  - rewrite header_of_saved_file, save_header_height. reflexivity.
Qed.

(** C7 (amended): for every successful call of [save] on a working
    device, with a height below [2 ^ 31] and a buffer that holds the
    image, the height field of the header in the file is negative exactly
    when [force_bottom_up] is false and the orientation of the buffer is
    top-down; it is then the negated height, and line [i] of the file is
    row [i] of the image counted from the top.  Otherwise, and so
    whenever [force_bottom_up] is true, it is the height itself, which is
    positive; and with [force_bottom_up] true the file is bottom-up
    whatever the orientation of the buffer: line [i] of the file is row
    [height - 1 - i] of the image. *)
Theorem save_height_field f b buffersize p force_bottom_up fs fs' :
  pending_faults fs = [] ->
  save (Some f) (Some b) buffersize p force_bottom_up fs = (ok, fs') ->
  0 <= width p -> 0 <= height p < 2 ^ 31 -> 0 <= line_padding p ->
  buffer_stride p * height p <= Z.of_nat (length b) ->
  Z.of_nat (length b) < 2 ^ 64 ->
  exists bytes lines,
    files fs' !! f = Some bytes
    /\ let header := header_of_bytes (take 54 bytes) in
       drop (Z.to_nat (bmp_header.offset header)) bytes = concat lines
       /\ Z.of_nat (length lines) = height p
       /\ (force_bottom_up = true ->
           bmp_header.height header = height p /\ 0 < bmp_header.height header
           /\ forall i : nat,
                Z.of_nat i < height p ->
                exists padding,
                  lines !! i
                  = Some (image_row p b (height p - 1 - Z.of_nat i) ++ padding))
       /\ (bmp_header.height header < 0
           <-> force_bottom_up = false /\ orientation p = top_down)
       /\ (bmp_header.height header < 0 ->
           bmp_header.height header = - height p
           /\ forall i : nat,
                Z.of_nat i < height p ->
                exists padding,
                  lines !! i = Some (image_row p b (Z.of_nat i) ++ padding)).
Proof.
  intros _ Hsave Hw Hh Hpad Hfit Hlen.
  destruct (save_rows f b buffersize p force_bottom_up fs fs' Hsave Hw
              ltac:(lia) Hpad Hfit Hlen)
    as (bytes & lines & Hfile & Hdata & Hcount & Hrows).
  apply save_ok_inv in Hsave.
  destruct Hsave as (f' & b' & [= <-] & [= <-] & Hh0 & _ & _ & Ho & _ & Hfile').
  rewrite Hfile in Hfile'. injection Hfile' as Hbytes.
  exists bytes, lines. split; [exact Hfile|].
  cbv zeta. split; [exact Hdata|]. split; [exact Hcount|].
  rewrite Hbytes, header_of_saved_file, save_header_height.
  rewrite (i32_small (height p)) by lia.
  split; [|split].
  - intros ->. cbn [negb andb] in *. split; [reflexivity|]. split; [lia|].
    intros i Hi. destruct (Hrows i Hi) as [padding Hrow].
    exists padding. rewrite Hrow. unfold image_row, row_offset.
    destruct (orientation p); [| |contradiction].
    + rewrite bool_decide_eq_false_2 by discriminate.
      rewrite bool_decide_eq_true_2 by reflexivity. reflexivity.
    + rewrite bool_decide_eq_true_2 by reflexivity.
      rewrite bool_decide_eq_false_2 by discriminate.
      replace (height p - 1 - (height p - 1 - Z.of_nat i)) with (Z.of_nat i) by lia.
      reflexivity.
  - destruct force_bottom_up; cbn [negb andb].
    + split; [lia | intros [[=] _]].
    + case_bool_decide as Hor.
      * rewrite i32_small by lia. split; [auto | lia].
      * split; [lia | intros [_ Ho']; contradiction].
  - destruct force_bottom_up; cbn [negb andb] in *; [lia|].
    destruct (bool_decide_reflect (orientation p = top_down)) as [Hor | Hor]; [|lia].
    rewrite i32_small by lia. intros _. split; [reflexivity|].
    intros i Hi. destruct (Hrows i Hi) as [padding Hrow].
    exists padding. rewrite Hrow. unfold image_row, row_offset.
    rewrite Hor. rewrite !bool_decide_eq_true_2 by reflexivity. reflexivity.
Qed.

Lemma save_height_field_witness :
  exists fs',
    pending_faults empty_disk = []
    /\ save (Some "image.bmp"%string) (Some sample_buffer) 8 sample_properties true
            empty_disk
       = (ok, fs')
    /\ 0 <= height sample_properties < 2 ^ 31
    /\ buffer_stride sample_properties * height sample_properties
       <= Z.of_nat (length sample_buffer)
    /\ exists bytes (lines : list (list byte)),
         files fs' !! "image.bmp"%string = Some bytes
         /\ drop (Z.to_nat (bmp_header.offset (header_of_bytes (take 54 bytes)))) bytes
            = concat lines
         /\ bmp_header.height (header_of_bytes (take 54 bytes)) = 2
         /\ exists padding,
              lines !! 0%nat = Some (image_row sample_properties sample_buffer 1
                                     ++ padding).
Proof.
  exists sample_disk.
  assert (Hq : pending_faults empty_disk = []) by reflexivity.
  assert (Hsave : save (Some "image.bmp"%string) (Some sample_buffer) 8
                       sample_properties true empty_disk
                  = (ok, sample_disk)) by (vm_compute; reflexivity).
  assert (Hwidth : 0 <= width sample_properties) by (cbn; lia).
  assert (Hrange : 0 <= height sample_properties < 2 ^ 31) by (cbn; lia).
  assert (Hpad : 0 <= line_padding sample_properties) by (cbn; lia).
  assert (Hfit : buffer_stride sample_properties * height sample_properties
                 <= Z.of_nat (length sample_buffer)) by (vm_compute; discriminate).
  assert (Hlen : Z.of_nat (length sample_buffer) < 2 ^ 64)
    by (vm_compute; reflexivity).
  split; [exact Hq|]. split; [exact Hsave|]. split; [exact Hrange|].
  split; [exact Hfit|].
  destruct (save_height_field _ _ _ _ _ _ _ Hq Hsave Hwidth Hrange Hpad Hfit Hlen)
    as (bytes & lines & Hfile & Hdata & _ & Hup & _).
  exists bytes, lines. split; [exact Hfile|]. split; [exact Hdata|].
  destruct (Hup eq_refl) as (Hheight & _ & Hrows).
  split; [exact Hheight|]. apply (Hrows 0%nat). cbn. lia.
Defined.

(** ** Color tables *)

Lemma flat_map_expand_lookup color_table (indices : list byte) :
  forall (c : nat) index (k : nat),
  indices !! c = Some index -> (k < 3)%nat ->
  flat_map (expand_index color_table) indices !! (3 * c + k)%nat
  = expand_index color_table index !! k.
Proof.
  induction indices as [|index0 indices IH]; intros c index k Hc Hk; [discriminate|].
  cbn [flat_map]. destruct c as [|c].
  - injection Hc as ->. rewrite lookup_app_l by (cbn; lia). f_equal.
  - cbn in Hc. rewrite lookup_app_r by (cbn; lia).
    replace (3 * Datatypes.S c + k - length (expand_index color_table index0))%nat
      with (3 * c + k)%nat by (cbn [expand_index length]; lia).
    apply IH; assumption.
Qed.

Lemma pixel_format_of_table f p fs bytes p0 :
  files fs !! f = Some bytes -> load (Some f) p fs = (ok, p0) ->
  let header := header_of_bytes (take 54 bytes) in
  let color_table := loaded_color_table header bytes in
  bmp_header.bits_per_pixel header = 8 ->
  pixel_format p0 = if check_is_mono8 color_table then Mono8 else BGR8.
Proof.
  intros Hfile Hload header color_table Hbpp.
  destruct (load_ok_header f p fs bytes p0 Hfile Hload) as [Hacc Hp0].
  fold header in Hacc, Hp0. fold color_table in Hp0.
  rewrite Hp0, determine_image_properties_accepted by assumption.
  cbn [pixel_format]. rewrite Hbpp. reflexivity.
Qed.

(** C8: for a file of 8 bits per pixel that loads, the color table read
    from the file decides the pixel format: [Mono8] when every entry has
    equal red, green and blue, [BGR8] when some entry has not, for both
    overloads of [load]; and when the table is not gray and every pixel
    of the file indexes the table inside it, the buffer overload stores
    for every pixel the blue, green and red of the table entry of its
    index. *)
Theorem eight_bit_pixel_format :
  (forall f p fs bytes p0,
     files fs !! f = Some bytes -> load (Some f) p fs = (ok, p0) ->
     let header := header_of_bytes (take 54 bytes) in
     let color_table := loaded_color_table header bytes in
     bmp_header.bits_per_pixel header = 8 ->
     (Forall gray color_table -> pixel_format p0 = Mono8)
     /\ (~ Forall gray color_table -> pixel_format p0 = BGR8))
  /\ (forall f buffer buffersize p flp fo fs bytes buffer' p',
        files fs !! f = Some bytes ->
        load_buffer (Some f) buffer buffersize p flp fo fs = (ok, buffer', p') ->
        let header := header_of_bytes (take 54 bytes) in
        let color_table := loaded_color_table header bytes in
        bmp_header.bits_per_pixel header = 8 ->
        (Forall gray color_table -> pixel_format p' = Mono8)
        /\ (~ Forall gray color_table -> pixel_format p' = BGR8))
  /\ (forall f buffer buffersize p flp fo fs bytes p0 lines rest,
        files fs !! f = Some bytes -> pending_faults fs = [] ->
        load (Some f) p fs = (ok, p0) ->
        (fo = true -> orientation p <> orientation_invalid) ->
        let header := header_of_bytes (take 54 bytes) in
        let color_table := loaded_color_table header bytes in
        let p' := forced_properties p0 p flp fo in
        bmp_header.bits_per_pixel header = 8 ->
        ~ Forall gray color_table ->
        height p0 < 2 ^ 31 ->
        0 <= line_padding p' ->
        buffer_stride p' * height p' <= buffersize ->
        buffersize <= Z.of_nat (length buffer) -> buffersize < 2 ^ 64 ->
        drop (Z.to_nat (bmp_header.offset header)) bytes = concat lines ++ rest ->
        Z.of_nat (length lines) = height p0 ->
        Forall (fun file_line =>
                  Z.of_nat (length file_line)
                  = file_stride (bmp_header.bits_per_pixel header)
                                (bmp_header.width header))
               lines ->
        indices_in_table header color_table lines ->
        exists buffer',
          load_buffer (Some f) (Some buffer) buffersize p flp fo fs
          = (ok, Some buffer', p')
          /\ forall (i : nat) file_line (c : nat) index,
               lines !! i = Some file_line ->
               Z.of_nat c < bmp_header.width header ->
               file_line !! c = Some index ->
               let pixel :=
                 (Z.to_nat (row_offset p' (orientation p0) (buffer_stride p')
                                       (Z.of_nat i)) + 3 * c)%nat in
               exists entry,
                 color_table !! Z.to_nat (byte.unsigned index) = Some entry
                 /\ buffer' !! pixel = Some (color_table_entry.b entry)
                 /\ buffer' !! (pixel + 1)%nat = Some (color_table_entry.g entry)
                 /\ buffer' !! (pixel + 2)%nat = Some (color_table_entry.r entry)).
Proof.
  assert (Hformat : forall format color_table,
            format = (if check_is_mono8 color_table then Mono8 else BGR8) ->
            (Forall gray color_table -> format = Mono8)
            /\ (~ Forall gray color_table -> format = BGR8)).
  { intros format color_table ->. rewrite <- check_is_mono8_gray.
    destruct (check_is_mono8 color_table); split; congruence. }
  split; [|split].
  - intros f p fs bytes p0 Hfile Hload header color_table Hbpp.
    apply Hformat. exact (pixel_format_of_table f p fs bytes p0 Hfile Hload Hbpp).
  - intros f buffer buffersize p flp fo fs bytes buffer' p' Hfile Hload
      header color_table Hbpp.
    apply load_buffer_inv in Hload.
    destruct Hload as [([=] & _) | [([=] & _)
                        | (f' & r0 & s & h & t & p0 & [= <-] & _ & E & Hp)]].
    destruct Hp as [(Hne & <- & _) | (-> & ->)]; [congruence|].
    assert (Hload : load (Some f) p fs = (ok, p0))
      by (unfold load; rewrite E; reflexivity).
    apply Hformat. cbn [pixel_format].
    exact (pixel_format_of_table f p fs bytes p0 Hfile Hload Hbpp).
  - intros f buffer buffersize p flp fo fs bytes p0 lines rest Hfile Hq Hload Hfo
      header color_table p' Hbpp Hgray Hh31 Hpad Hfit Hbuf Hsize Hdata Hcount Hlines
      Htable.
    destruct (load_buffer_rows f buffer buffersize p flp fo fs bytes p0 lines rest
                Hfile Hq Hload Hfo Hh31 Hpad Hfit Hbuf Hsize Hdata Hcount Hlines)
      as (buffer' & Hbuffer & Hrows).
    fold header color_table p' in Hbuffer, Hrows.
    exists buffer'. split; [exact Hbuffer|].
    intros i file_line c index Hi Hc Hindex pixel.
    assert (Hmono : check_is_mono8 color_table = false).
    { destruct (check_is_mono8 color_table) eqn:E; [|reflexivity].
      exfalso. apply Hgray, check_is_mono8_gray, E. }
    assert (Hrow : decoded_row header color_table file_line
                   = flat_map (expand_index color_table)
                              (take (Z.to_nat (bmp_header.width header)) file_line)).
    { unfold decoded_row. rewrite Hbpp, Hmono. reflexivity. }
    assert (Htake : take (Z.to_nat (bmp_header.width header)) file_line !! c
                    = Some index) by (rewrite lookup_take_lt by lia; exact Hindex).
    assert (Hin : (Z.to_nat (byte.unsigned index) < length color_table)%nat).
    { specialize (Htable Hbpp). rewrite Forall_lookup in Htable.
      specialize (Htable i file_line Hi). rewrite Forall_lookup in Htable.
      exact (Htable c index Htake). }
    destruct (lookup_lt_is_Some_2 color_table _ Hin) as [entry Hentry].
    exists entry. split; [exact Hentry|].
    assert (Hexp : expand_index color_table index
                   = [color_table_entry.b entry; color_table_entry.g entry;
                      color_table_entry.r entry]).
    { unfold expand_index, color_table_at. rewrite Hentry. reflexivity. }
    assert (Hbyte : forall k : nat, (k < 3)%nat ->
              buffer' !! (pixel + k)%nat = expand_index color_table index !! k).
    { intros k Hk. unfold pixel. rewrite <- Nat.add_assoc.
      rewrite (Hrows i file_line Hi (3 * c + k)%nat).
      - rewrite Hrow. apply flat_map_expand_lookup; assumption.
      - rewrite Hrow, length_flat_map_expand.
        apply lookup_lt_Some in Htake. lia. }
    rewrite Hexp in Hbyte.
    split; [|split].
    + rewrite <- (Nat.add_0_r pixel). apply (Hbyte 0%nat). lia.
    + apply (Hbyte 1%nat). lia.
    + apply (Hbyte 2%nat). lia.
Qed.

Lemma eight_bit_pixel_format_witness :
  let p0 := {| width := 2; height := 1; line_padding := 2;
               pixel_format := BGR8; orientation := bottom_up |} in
  let header := header_of_bytes (take 54 palette_file) in
  let color_table := loaded_color_table header palette_file in
  let buffer := replicate 8 Byte.x00 in
  (files palette_disk !! "palette.bmp"%string = Some palette_file
   /\ pending_faults palette_disk = []
   /\ load (Some "palette.bmp"%string) default_image_properties palette_disk
      = (ok, p0)
   /\ bmp_header.bits_per_pixel header = 8
   /\ ~ Forall gray color_table
   /\ drop (Z.to_nat (bmp_header.offset header)) palette_file
      = concat [map byte.of_Z [1; 0; 0; 0]] ++ []
   /\ indices_in_table header color_table [map byte.of_Z [1; 0; 0; 0]])
  /\ pixel_format p0 = BGR8
  /\ exists buffer',
       load_buffer (Some "palette.bmp"%string) (Some buffer) 8
                   default_image_properties false false palette_disk
       = (ok, Some buffer', p0)
       /\ pixel_format p0 = BGR8
       /\ buffer' !! 0%nat = Some (byte.of_Z 40)
       /\ buffer' !! 1%nat = Some (byte.of_Z 50)
       /\ buffer' !! 2%nat = Some (byte.of_Z 60).
Proof.
  intros p0 header color_table buffer.
  assert (Hfile : files palette_disk !! "palette.bmp"%string = Some palette_file)
    by (vm_compute; reflexivity).
  assert (Hq : pending_faults palette_disk = []) by reflexivity.
  assert (Hload : load (Some "palette.bmp"%string) default_image_properties
                       palette_disk
                  = (ok, p0)) by (vm_compute; reflexivity).
  assert (Hbpp : bmp_header.bits_per_pixel header = 8) by (vm_compute; reflexivity).
  assert (Hgray : ~ Forall gray color_table).
  { intros H. apply check_is_mono8_gray in H. vm_compute in H. discriminate. }
  assert (Hdata : drop (Z.to_nat (bmp_header.offset header)) palette_file
                  = concat [map byte.of_Z [1; 0; 0; 0]] ++ [])
    by (vm_compute; reflexivity).
  assert (Htable : indices_in_table header color_table [map byte.of_Z [1; 0; 0; 0]]).
  { intros _. apply (bool_decide_unpack _). vm_compute. exact I. }
  destruct eight_bit_pixel_format as (Hprops & Hbuffer & Hexpand).
  split; [auto 10|].
  split; [exact (proj2 (Hprops _ _ _ _ _ Hfile Hload Hbpp) Hgray)|].
  destruct (Hexpand "palette.bmp"%string buffer 8 default_image_properties
              false false palette_disk palette_file p0
              [map byte.of_Z [1; 0; 0; 0]] [] Hfile Hq Hload
              ltac:(discriminate) Hbpp Hgray
              ltac:(vm_compute; reflexivity) ltac:(vm_compute; discriminate)
              ltac:(vm_compute; discriminate) ltac:(vm_compute; discriminate)
              ltac:(vm_compute; reflexivity) Hdata ltac:(reflexivity)
              ltac:(repeat constructor) Htable)
    as (buffer' & Hresult & Hpixels).
  exists buffer'. split; [exact Hresult|].
  split; [exact (proj2 (Hbuffer _ _ _ _ _ _ _ _ _ _ Hfile Hresult Hbpp) Hgray)|].
  destruct (Hpixels 0%nat (map byte.of_Z [1; 0; 0; 0]) 0%nat (byte.of_Z 1) eq_refl
                    ltac:(vm_compute; reflexivity) eq_refl)
    as (entry & Hentry & Hb & Hg & Hr).
  assert (entry = color_table_entry.mk (byte.of_Z 40) (byte.of_Z 50) (byte.of_Z 60)
                                       (byte.of_Z 0)) as ->.
  { vm_compute in Hentry. injection Hentry as <-. reflexivity. }
  auto.
Defined.

(** ** Loading the properties on a working device *)

Lemma load_and_check_header_accepts stream header_out :
  ifstream.fail stream = false -> ifstream.faults stream = [] ->
  (ifstream.gpos stream + 54 <= length (ifstream.contents stream))%nat ->
  let header :=
    header_of_bytes (take 54 (drop (ifstream.gpos stream) (ifstream.contents stream))) in
  accepted header -> bmp_header.image_size_bytes header = 0 ->
  load_and_check_header stream header_out
  = (ok,
     ifstream.mk (ifstream.is_open stream) (ifstream.contents stream)
                 (ifstream.gpos stream + 54) false [],
     header).
Proof.
  intros Hf Hq Hlen header Hacc Hsize. unfold load_and_check_header.
  rewrite read_full
    by first [assumption | rewrite Hq; reflexivity
             | change (Z.to_nat bmp_header.sizeof) with 54%nat; lia].
  change (Z.to_nat bmp_header.sizeof) with 54%nat.
  rewrite store_full
    by (rewrite length_header_bytes, length_take, length_drop; lia).
  fold header. cbn [ifstream.fail]. rewrite Hq. cbn [next_fault snd].
  destruct Hacc as (_ & Htype & Hinfo & Hoff & Hw & Hh & Hb & Hc & Hnc8 & Hnc).
  rewrite Htype, Hc, Hsize. cbn [Z.eqb Pos.eqb negb orb].
  change bmp_header.sizeof with 54.
  destruct (Z.ltb_spec (bmp_header.bitmap_info_header_size header) 40); [lia|].
  destruct (Z.ltb_spec (bmp_header.offset header) 54); [lia|].
  destruct (Z.eqb_spec (bmp_header.height header) 0); [lia|].
  destruct (Z.leb_spec (bmp_header.width header) 0); [lia|]. cbn [orb].
  destruct Hb as [Hb | [Hb | Hb]]; rewrite Hb.
  - cbn [Z.eqb Pos.eqb negb orb andb]. destruct (Hnc8 Hb) as [Hn1 Hn2].
    destruct (Z.ltb_spec 256 (bmp_header.num_colors header)); [lia|].
    destruct (Z.ltb_spec 256 (bmp_header.important_colors header)); [lia|].
    reflexivity.
  - cbn [Z.eqb Pos.eqb negb orb andb].
    destruct (Hnc ltac:(lia)) as [-> ->]. reflexivity.
  - cbn [Z.eqb Pos.eqb negb orb andb].
    destruct (Hnc ltac:(lia)) as [-> ->]. reflexivity.
Qed.

Lemma color_table_length_range header :
  accepted header -> bmp_header.bits_per_pixel header = 8 ->
  0 < color_table_length header <= 256.
Proof.
  intros (Hr & _ & _ & _ & _ & _ & _ & _ & Hnc & _) Hb.
  destruct (Hnc Hb) as [Hn _].
  destruct Hr as (_ & _ & _ & _ & _ & _ & _ & _ & _ & _ & _ & _ & _ & _ & Hn0 & _).
  unfold color_table_length.
  destruct (Z.eqb_spec (bmp_header.num_colors header) 0); lia.
Qed.

Lemma load_color_table_working stream header :
  ifstream.fail stream = false -> ifstream.faults stream = [] ->
  accepted header -> bmp_header.bits_per_pixel header = 8 ->
  (Z.to_nat (u32 (bmp_header.bitmap_info_header_size header + 14))
   + Z.to_nat (4 * color_table_length header)
   <= length (ifstream.contents stream))%nat ->
  exists stream',
    load_color_table stream header []
    = (ok, stream',
       color_table_of_bytes
         (take (Z.to_nat (4 * color_table_length header))
               (drop (Z.to_nat (u32 (bmp_header.bitmap_info_header_size header + 14)))
                     (ifstream.contents stream))))
    /\ ifstream.fail stream' = false /\ ifstream.faults stream' = []
    /\ ifstream.contents stream' = ifstream.contents stream.
Proof.
  intros Hf Hq Hacc Hb Hlen.
  pose proof (color_table_length_range header Hacc Hb) as Hn.
  unfold load_color_table.
  set (pos := u32 (bmp_header.bitmap_info_header_size header + 14)) in *.
  set (table := take _ (drop (Z.to_nat pos) (ifstream.contents stream))).
  destruct (seekg_delivers pos stream table
              (drop (Z.to_nat (4 * color_table_length header))
                    (drop (Z.to_nat pos) (ifstream.contents stream))))
    as [Hd Hc]; try assumption.
  { unfold pos. apply u32_range. }
  { unfold table. symmetry. apply take_drop. }
  rewrite (delivers_fail _ _ Hd).
  set (table0 := if negb (bmp_header.num_colors header =? 0) then _ else _).
  assert (Hl0 : length table0 = Z.to_nat (color_table_length header)).
  { unfold table0, color_table_length. rewrite Hb.
    destruct (Z.eqb_spec (bmp_header.num_colors header) 0); cbn.
    - reflexivity.
    - unfold color_table_length in Hn.
      destruct (Z.eqb_spec (bmp_header.num_colors header) 0); [contradiction|].
      apply length_resize. lia. }
  clearbody table0.
  destruct (Z.eqb_spec (Z.of_nat (length table0)) 0); [lia|]. cbn [negb].
  change color_table_entry.sizeof with 4.
  rewrite usize_small by lia.
  assert (Htl : length table = Z.to_nat (4 * color_table_length header)).
  { unfold table. rewrite length_take, length_drop. lia. }
  rewrite <- (app_nil_r table) in Hd.
  destruct (read_delivers (Z.of_nat (length table0) * 4)
              (ifstream.seekg pos stream) table [] Hd ltac:(lia))
    as (s2 & Hread & Hd2).
  rewrite Hread. rewrite (delivers_fail _ _ Hd2).
  rewrite store_full by (rewrite length_entries_bytes; lia).
  exists s2. split; [reflexivity|].
  destruct Hd2 as (Hf2 & Hq2 & _).
  split; [exact Hf2|]. split; [exact Hq2|].
  assert (Hc2 := Hread). apply read_inv in Hc2; [|exact Hf2].
  destruct Hc2 as (_ & _ & _ & Hc2 & _). congruence.
Qed.

Lemma load_working f q fs bytes :
  files fs !! f = Some bytes -> pending_faults fs = [] ->
  (54 <= length bytes)%nat ->
  let header := header_of_bytes (take 54 bytes) in
  accepted header -> bmp_header.image_size_bytes header = 0 ->
  (bmp_header.bits_per_pixel header = 8 ->
   (Z.to_nat (u32 (bmp_header.bitmap_info_header_size header + 14))
    + Z.to_nat (4 * color_table_length header) <= length bytes)%nat) ->
  load (Some f) q fs
  = (ok, determine_image_properties header (loaded_color_table header bytes) q).
Proof.
  intros Hfile Hq Hlen header Hacc Hsize Htable.
  unfold load. rewrite (open_ifstream_file f fs bytes Hfile Hq).
  unfold load_image_properties. cbn [ifstream.is_open negb].
  rewrite load_and_check_header_accepts;
    cbn [ifstream.fail ifstream.faults ifstream.gpos ifstream.contents];
    rewrite ?drop_0; try assumption; try reflexivity; try lia.
  fold header. cbn [is_ok andb]. unfold loaded_color_table.
  destruct (Z.eqb_spec (bmp_header.bits_per_pixel header) 8) as [Hb|Hb].
  - cbn [ifstream.is_open].
    destruct (load_color_table_working
                (ifstream.mk true bytes (0 + 54) false []) header
                eq_refl eq_refl Hacc Hb (Htable Hb))
      as (s2 & -> & _). reflexivity.
  - reflexivity.
Qed.

Lemma accepted_save_header p force_bottom_up :
  0 < width p < 2 ^ 31 -> 0 < height p < 2 ^ 31 ->
  pixel_format p <> pixel_format_invalid ->
  accepted (fst (save_header p force_bottom_up))
  /\ bmp_header.image_size_bytes (fst (save_header p force_bottom_up)) = 0.
Proof.
  intros Hw Hh Hf.
  split; [|rewrite save_header_eq; reflexivity].
  split; [apply save_header_in_range|].
  rewrite save_header_eq. cbv zeta. cbn [fst].
  cbn [bmp_header.type bmp_header.bitmap_info_header_size bmp_header.offset
       bmp_header.height bmp_header.width bmp_header.bits_per_pixel
       bmp_header.compression bmp_header.num_colors bmp_header.important_colors].
  rewrite (i32_small (width p)), (i32_small (height p)) by lia.
  rewrite (i32_small (- height p)) by lia.
  split; [reflexivity|]. split; [lia|].
  split; [case_bool_decide; lia|]. split; [lia|].
  split; [destruct (negb force_bottom_up && _); lia|].
  destruct (pixel_format p) eqn:Hpf; try contradiction; cbn;
    (split; [lia|]); (split; [reflexivity|]);
    case_bool_decide; try discriminate; split; intros; lia.
Qed.

Lemma gray_table_checks :
  check_is_mono8 gray_table = true /\ check_is_linear_mono8 gray_table = true.
Proof. split; vm_compute; reflexivity. Qed.

Lemma length_saved_file_header p force_bottom_up buffer :
  (54 + (if bool_decide (pixel_format p = Mono8) then 1024 else 0)
   <= length (saved_file p force_bottom_up buffer))%nat.
Proof.
  rewrite saved_file_eq, !length_app, length_header_bytes.
  case_bool_decide; [rewrite length_gray_ramp|]; cbn [length]; lia.
Qed.

Lemma save_header_fields p force_bottom_up :
  let header := fst (save_header p force_bottom_up) in
  bmp_header.bits_per_pixel header = 8 * bytes_per_pixel (pixel_format p)
  /\ bmp_header.bitmap_info_header_size header = 40
  /\ bmp_header.num_colors header
     = (if bool_decide (pixel_format p = Mono8) then 256 else 0)
  /\ bmp_header.width header = i32 (width p).
Proof. cbv zeta. rewrite save_header_eq. repeat split. Qed.

Lemma color_table_of_saved_file p force_bottom_up buffer :
  loaded_color_table (fst (save_header p force_bottom_up))
                     (saved_file p force_bottom_up buffer)
  = if bool_decide (pixel_format p = Mono8) then gray_table else [].
Proof.
  unfold loaded_color_table, color_table_length.
  destruct (save_header_fields p force_bottom_up) as (-> & -> & -> & _).
  rewrite saved_file_eq.
  destruct (pixel_format p); reflexivity.
Qed.

(** The properties [load] reads back from a saved file. *)
Lemma load_saved_file f q fs p force_bottom_up buffer :
  files fs !! f = Some (saved_file p force_bottom_up buffer) ->
  pending_faults fs = [] ->
  0 < width p < 2 ^ 31 -> 0 < height p < 2 ^ 31 ->
  pixel_format p <> pixel_format_invalid ->
  load (Some f) q fs
  = (ok,
     {| width := width p; height := height p;
        line_padding :=
          file_padding (8 * bytes_per_pixel (pixel_format p)) (width p);
        pixel_format := pixel_format p;
        orientation := snd (save_header p force_bottom_up) |}).
Proof.
  intros Hfile Hq Hw Hh Hf.
  destruct (accepted_save_header p force_bottom_up Hw Hh Hf) as [Hacc Hsize].
  pose proof (length_saved_file_header p force_bottom_up buffer) as Hlen.
  rewrite (load_working f q fs _ Hfile Hq); rewrite ?header_of_saved_file;
    try assumption; try lia.
  - rewrite determine_image_properties_accepted by assumption.
    rewrite color_table_of_saved_file.
    rewrite save_header_eq. cbv zeta. cbn [fst snd].
    cbn [bmp_header.width bmp_header.height bmp_header.bits_per_pixel].
    rewrite (i32_small (width p)), (i32_small (height p)) by lia.
    rewrite (i32_small (- height p)) by lia.
    do 2 f_equal.
    + destruct (negb force_bottom_up && _); lia.
    + destruct (pixel_format p); try contradiction; try reflexivity.
    + destruct (negb force_bottom_up && _).
      * destruct (Z.ltb_spec (- height p) 0); [reflexivity | lia].
      * destruct (Z.ltb_spec (height p) 0); [lia | reflexivity].
  - unfold color_table_length.
    destruct (save_header_fields p force_bottom_up) as (-> & -> & -> & _).
    intros Hb.
    destruct (pixel_format p); cbn [bytes_per_pixel] in Hb; try lia;
      try contradiction.
    rewrite bool_decide_eq_true_2 in * by reflexivity.
    change (Z.to_nat (u32 (40 + 14))) with 54%nat.
    change (256 =? 0) with false. cbn iota.
    change (Z.to_nat (4 * 256)) with 1024%nat. lia.
Qed.

(** ** Saving and loading again *)

Lemma length_bytes_at p count (buffer : list byte) :
  0 <= p -> 0 <= count -> p + count <= Z.of_nat (length buffer) ->
  length (bytes_at p count buffer) = Z.to_nat count.
Proof. intros. unfold bytes_at. rewrite length_take, length_drop. lia. Qed.

Lemma bytes_at_lookup p count (buffer : list byte) (j : nat) :
  (j < Z.to_nat count)%nat ->
  bytes_at p count buffer !! j = buffer !! (Z.to_nat p + j)%nat.
Proof.
  intros. unfold bytes_at. rewrite lookup_take_lt by assumption.
  apply lookup_drop.
Qed.

(** A line of a saved file decodes to the pixel bytes it was written
    from: the gray palette [save] writes is the identity table. *)
Lemma decoded_row_saved_line p force_bottom_up buffer (pixels padding : list byte) :
  0 < width p < 2 ^ 31 -> pixel_format p <> pixel_format_invalid ->
  Z.of_nat (length pixels) = width p * bytes_per_pixel (pixel_format p) ->
  decoded_row (fst (save_header p force_bottom_up))
              (loaded_color_table (fst (save_header p force_bottom_up))
                                  (saved_file p force_bottom_up buffer))
              (pixels ++ padding)
  = pixels.
Proof.
  intros Hw Hf Hlen. rewrite color_table_of_saved_file. unfold decoded_row.
  destruct (save_header_fields p force_bottom_up) as (-> & _ & _ & ->).
  rewrite i32_small by lia.
  destruct (pixel_format p) eqn:Hpf; try contradiction;
    cbn [bytes_per_pixel] in *.
  - rewrite bool_decide_eq_true_2 by reflexivity.
    change (8 <? 8 * 1) with false. cbn iota.
    destruct gray_table_checks as [-> ->]. unfold decode_mono8.
    apply take_app_length'. lia.
  - change (8 <? 8 * 3) with true. cbn iota. change (8 * 3 / 8) with 3.
    apply take_app_length'. lia.
  - change (8 <? 8 * 4) with true. cbn iota. change (8 * 4 / 8) with 4.
    apply take_app_length'. lia.
Qed.

(** The file line that holds buffer row [r]. *)
Lemma row_offset_of_row P orientation_in_file S r :
  row_offset P orientation_in_file S
    (if bool_decide (orientation P = orientation_in_file) then r
     else height P - 1 - r)
  = r * S.
Proof. unfold row_offset. case_bool_decide; [reflexivity | f_equal; lia]. Qed.

(** C1 (as stated, refuted): the sample image, two lines of three [Mono8]
    pixels with one byte of padding each, is saved and loaded again with
    the padding and the orientation of the saved properties forced; both
    calls succeed, and the buffer that was loaded differs from the one
    that was saved in the two padding bytes, which [save] does not write
    and [load] does not store. *)
Lemma save_load_round_trip_counterexample :
  exists fs' buffer',
    valid_properties sample_properties
    /\ save (Some "image.bmp"%string) (Some sample_buffer) 8 sample_properties true
            empty_disk
       = (ok, fs')
    /\ load_buffer (Some "image.bmp"%string) (Some (replicate 8 Byte.x00)) 8
                   sample_properties true true fs'
       = (ok, Some buffer', sample_properties)
    /\ buffer' = map byte.of_Z [1; 2; 3; 0; 4; 5; 6; 0]
    /\ buffer' <> sample_buffer.
Proof.
  exists sample_disk, (map byte.of_Z [1; 2; 3; 0; 4; 5; 6; 0]).
  split; [cbn; repeat split; (lia || discriminate)|].
  split; [vm_compute; reflexivity|].
  split; [vm_compute; reflexivity|].
  split; [reflexivity | discriminate].
Qed.

(** C1 (amended): for properties with width and height below [2 ^ 31], a
    supported pixel format, an orientation and a line padding, a buffer
    size that covers the image and is covered by both buffers, a path
    that can be written and a working device, [save] succeeds, and
    [load] with the padding and the orientation of the saved properties
    forced succeeds, returns the saved properties, and leaves a buffer
    whose pixel bytes, the first [width * bytes_per_pixel] bytes of each
    row, are those of the saved buffer; the padding bytes of its rows and
    the bytes after the image are as they were before the call.  The
    loaded buffer is the saved one when the line padding is 0 and both
    buffers are exactly as long as the image. *)
Theorem save_load_round_trip f B B2 size P P2 force_bottom_up fs :
  0 < width P < 2 ^ 31 -> 0 < height P < 2 ^ 31 ->
  pixel_format P <> pixel_format_invalid ->
  orientation P <> orientation_invalid ->
  0 <= line_padding P ->
  buffer_stride P * height P <= size ->
  size <= Z.of_nat (length B) -> size <= Z.of_nat (length B2) -> size < 2 ^ 64 ->
  f ∉ write_protected fs -> pending_faults fs = [] ->
  line_padding P2 = line_padding P -> orientation P2 = orientation P ->
  exists fs' B2',
    save (Some f) (Some B) size P force_bottom_up fs = (ok, fs')
    /\ load_buffer (Some f) (Some B2) size P2 true true fs' = (ok, Some B2', P)
    /\ length B2' = length B2
    /\ (forall r c,
          0 <= r < height P ->
          0 <= c < width P * bytes_per_pixel (pixel_format P) ->
          B2' !! Z.to_nat (r * buffer_stride P + c)
          = B !! Z.to_nat (r * buffer_stride P + c))
    /\ (forall r c,
          0 <= r < height P ->
          width P * bytes_per_pixel (pixel_format P) <= c < buffer_stride P ->
          B2' !! Z.to_nat (r * buffer_stride P + c)
          = B2 !! Z.to_nat (r * buffer_stride P + c))
    /\ (forall k : nat,
          height P * buffer_stride P <= Z.of_nat k -> B2' !! k = B2 !! k)
    /\ (line_padding P = 0 -> length B = length B2 ->
        Z.of_nat (length B) = buffer_stride P * height P -> B2' = B).
Proof.
  intros Hw Hh Hf Ho Hpad Hfit HB HB2 Hsize Hwp Hq Hpad2 Ho2.
  assert (Hbpp : 1 <= bytes_per_pixel (pixel_format P) <= 4)
    by (destruct (pixel_format P); cbn; try lia; contradiction).
  assert (HS : buffer_stride P
               = width P * bytes_per_pixel (pixel_format P) + line_padding P)
    by reflexivity.
  set (n := width P * bytes_per_pixel (pixel_format P)) in *.
  set (S := buffer_stride P) in *.
  assert (Hn : 1 <= n) by (unfold n; nia).
  assert (HSh : S <= S * height P) by nia.
  assert (Hdsp : determine_stride_props P = S).
  { rewrite determine_stride_props_eq. apply usize_small. fold n. lia. }
  (* the file that is saved *)
  pose proof (save_working f B size P force_bottom_up fs) as Hsave.
  rewrite Hdsp in Hsave.
  specialize (Hsave ltac:(lia) ltac:(lia) Hf Ho ltac:(lia) ltac:(lia)).
  rewrite usize_small in Hsave by lia.
  specialize (Hsave ltac:(lia) Hwp Hq).
  set (fs' := mk_filesystem _ _ _) in Hsave.
  assert (Hfile : files fs' !! f = Some (saved_file P force_bottom_up B))
    by apply lookup_insert_eq.
  assert (Hq' : pending_faults fs' = []) by reflexivity.
  pose proof (load_saved_file f P2 fs' P force_bottom_up B Hfile Hq' Hw Hh Hf)
    as Hload.
  set (oif := snd (save_header P force_bottom_up)) in *.
  set (p0 := mk_image_properties _ _ _ _ _) in Hload.
  assert (Hp' : forced_properties p0 P2 true true = P).
  { unfold forced_properties, p0.
    cbn [width height line_padding pixel_format orientation].
    rewrite Hpad2, Ho2. destruct P; reflexivity. }
  (* its lines *)
  pose proof (pixel_data_of_saved_file P force_bottom_up B Hf) as Hdata.
  rewrite Hdsp in Hdata. fold oif in Hdata.
  replace (S - line_padding P) with n in Hdata by lia.
  rewrite (usize_small n) in Hdata by lia.
  destruct (save_header_fields P force_bottom_up) as (Hbits & _ & _ & Hwidth).
  rewrite (i32_small (width P)) in Hwidth by lia.
  assert (Hdepth : 8 * bytes_per_pixel (pixel_format P) = 8
                   \/ 8 * bytes_per_pixel (pixel_format P) = 24
                   \/ 8 * bytes_per_pixel (pixel_format P) = 32)
    by (destruct (pixel_format P); cbn; try lia; contradiction).
  rewrite Hbits, Hwidth in Hdata.
  rewrite determine_line_padding_eq in Hdata by assumption.
  pose proof (file_padding_range (8 * bytes_per_pixel (pixel_format P)) (width P))
    as Hfp.
  assert (Hstride : file_stride (8 * bytes_per_pixel (pixel_format P)) (width P)
                    = n + file_padding (8 * bytes_per_pixel (pixel_format P))
                                       (width P)).
  { unfold file_padding. rewrite Z.abs_eq by lia.
    rewrite (Z.mul_comm 8), Z.div_mul by lia. fold n. lia. }
  set (pad := file_padding _ _) in *.
  set (lines := saved_lines P oif S B n pad (Z.to_nat (height P)) 0) in *.
  assert (Hoff : forall i : nat, Z.of_nat i < height P ->
            line_offset P oif S (0 + Z.of_nat i) = row_offset P oif S (Z.of_nat i)
            /\ 0 <= row_offset P oif S (Z.of_nat i)
            /\ row_offset P oif S (Z.of_nat i) + S <= height P * S).
  { intros i Hi. rewrite Z.add_0_l.
    split; [apply line_offset_exact; lia | apply row_offset_range; lia]. }
  assert (Hline : forall i : nat, Z.of_nat i < height P ->
            lines !! i
            = Some (bytes_at (row_offset P oif S (Z.of_nat i)) n B
                    ++ replicate (Z.to_nat pad) Byte.x00)).
  { intros i Hi. unfold lines. rewrite saved_lines_lookup by lia.
    destruct (Hoff i Hi) as (-> & _). reflexivity. }
  assert (Hcount : length lines = Z.to_nat (height P))
    by apply length_saved_lines.
  (* the call of load *)
  pose proof (load_buffer_working f B2 size P2 true true fs' _ p0 lines []
                Hfile Hq' Hload (fun _ => ltac:(congruence))) as Hlb.
  cbv zeta in Hlb. rewrite header_of_saved_file, Hp' in Hlb.
  rewrite Hbits, Hwidth in Hlb. fold S in Hlb.
  specialize (Hlb ltac:(cbn; lia) Hpad ltac:(lia) HB2 Hsize).
  rewrite app_nil_r in Hlb.
  specialize (Hlb Hdata ltac:(cbn [height p0]; lia)).
  assert (Hlens : Forall (fun file_line : list byte =>
                            Z.of_nat (length file_line)
                            = file_stride (8 * bytes_per_pixel (pixel_format P))
                                          (width P)) lines).
  { apply Forall_lookup. intros i file_line Hi.
    assert (Hi' : Z.of_nat i < height P)
      by (apply lookup_lt_Some in Hi; lia).
    rewrite (Hline i Hi') in Hi. injection Hi as <-.
    destruct (Hoff i Hi') as (_ & Hlo & Hhi).
    rewrite length_app, length_replicate, length_bytes_at by lia. lia. }
  specialize (Hlb Hlens). cbn [orientation p0] in Hlb.
  set (rows := map _ lines) in Hlb.
  assert (Hrow : forall i : nat, Z.of_nat i < height P ->
            rows !! i = Some (bytes_at (row_offset P oif S (Z.of_nat i)) n B)
            /\ length (bytes_at (row_offset P oif S (Z.of_nat i)) n B)
               = Z.to_nat n).
  { intros i Hi. destruct (Hoff i Hi) as (_ & Hlo & Hhi).
    assert (Hlen : length (bytes_at (row_offset P oif S (Z.of_nat i)) n B)
                   = Z.to_nat n) by (apply length_bytes_at; lia).
    split; [|exact Hlen].
    unfold rows. rewrite list_lookup_fmap, (Hline i Hi). cbn [fmap option_fmap option_map].
    f_equal. apply decoded_row_saved_line; try assumption. fold n. lia. }
  assert (Hrows : length rows = Z.to_nat (height P))
    by (unfold rows; rewrite length_map; exact Hcount).
  assert (Hrowlen : forall (i : nat) row, rows !! i = Some row ->
            Z.of_nat i < height P /\ length row = Z.to_nat n
            /\ row = bytes_at (row_offset P oif S (Z.of_nat i)) n B).
  { intros i row Hi.
    assert (Hi' : Z.of_nat i < height P)
      by (apply lookup_lt_Some in Hi; lia).
    destruct (Hrow i Hi') as [Hr Hlen]. rewrite Hr in Hi. injection Hi as <-.
    auto. }
  set (B2' := place_lines P oif S rows 0 B2) in *.
  assert (Hfits : height P * S < 2 ^ 64) by lia.
  assert (Hlength : length B2' = length B2)
    by (apply length_place_lines).
  assert (Hpixels : forall r c, 0 <= r < height P -> 0 <= c < n ->
            B2' !! Z.to_nat (r * S + c) = B !! Z.to_nat (r * S + c)).
  { intros r c Hr Hc.
    set (i := if bool_decide (orientation P = oif) then r else height P - 1 - r).
    assert (Hi : 0 <= i < height P) by (unfold i; case_bool_decide; lia).
    assert (Hro : row_offset P oif S (Z.of_nat (Z.to_nat i)) = r * S)
      by (rewrite Z2Nat.id by lia; apply row_offset_of_row).
    destruct (Hrow (Z.to_nat i) ltac:(lia)) as [Hri Hlen]. rewrite Hro in Hri, Hlen.
    pose proof (place_lines_inside P oif S ltac:(lia) ltac:(lia) Hfits rows 0 B2
                  (Z.to_nat i) (Z.to_nat c) (bytes_at (r * S) n B)
                  ltac:(lia) ltac:(lia)) as Hin.
    rewrite Z.add_0_l, Hro in Hin. fold B2' in Hin.
    replace (Z.to_nat (r * S + c)) with (Z.to_nat (r * S) + Z.to_nat c)%nat by nia.
    rewrite Hin; try assumption; try lia.
    - apply bytes_at_lookup. lia.
    - apply Forall_lookup. intros i' row Hi'.
      destruct (Hrowlen i' row Hi') as (_ & Hl & _). lia. }
  assert (Houtside : forall k : nat,
            (forall r, 0 <= r < height P ->
               Z.of_nat k < r * S \/ r * S + n <= Z.of_nat k) ->
            B2' !! k = B2 !! k).
  { intros k Hk. unfold B2'.
    apply (place_lines_outside P oif S ltac:(lia) ltac:(lia) Hfits); [lia | lia |].
    intros i row Hi. destruct (Hrowlen i row Hi) as (Hi' & Hl & _).
    rewrite Z.add_0_l, Hl, Z2Nat.id by lia.
    unfold row_offset. case_bool_decide; apply Hk; lia. }
  exists fs', B2'.
  split; [exact Hsave|]. split; [exact Hlb|]. split; [exact Hlength|].
  split; [exact Hpixels|].
  split; [|split].
  - intros r c Hr Hc. apply Houtside. intros r' Hr'.
    destruct (Z.lt_trichotomy r' r) as [Hlt | [-> | Hgt]].
    + right. rewrite Z2Nat.id by nia. nia.
    + right. rewrite Z2Nat.id by nia. lia.
    + left. rewrite Z2Nat.id by nia. nia.
  - intros k Hk. apply Houtside. intros r Hr. right. nia.
  - intros Hpad0 Hsame Hexact. apply list_eq. intros k.
    destruct (Nat.lt_ge_cases k (length B)) as [Hlt | Hge].
    + assert (HSn : S = n) by lia.
      pose proof (Z.div_mod (Z.of_nat k) S ltac:(lia)) as Hdm.
      pose proof (Z.mod_pos_bound (Z.of_nat k) S ltac:(lia)) as Hm.
      pose proof (Z.div_pos (Z.of_nat k) S ltac:(lia) ltac:(lia)) as Hd.
      assert (Hdh : Z.of_nat k / S < height P)
        by (apply Z.div_lt_upper_bound; lia).
      specialize (Hpixels (Z.of_nat k / S) (Z.of_nat k mod S) ltac:(lia) ltac:(lia)).
      replace (Z.of_nat k / S * S + Z.of_nat k mod S) with (Z.of_nat k) in Hpixels
        by lia.
      rewrite Nat2Z.id in Hpixels. exact Hpixels.
    + rewrite (lookup_ge_None_2 B) by assumption.
      apply lookup_ge_None_2. lia.
Qed.

Lemma save_load_round_trip_witness :
  (0 < width sample_properties < 2 ^ 31
   /\ 0 < height sample_properties < 2 ^ 31
   /\ buffer_stride sample_properties * height sample_properties <= 8
   /\ 8 <= Z.of_nat (length sample_buffer))
  /\ exists fs' B2',
       save (Some "image.bmp"%string) (Some sample_buffer) 8 sample_properties true
            empty_disk
       = (ok, fs')
       /\ load_buffer (Some "image.bmp"%string) (Some (replicate 8 Byte.x00)) 8
                      sample_properties true true fs'
          = (ok, Some B2', sample_properties)
       /\ B2' !! 4%nat = sample_buffer !! 4%nat
       /\ B2' !! 7%nat = Some Byte.x00.
Proof.
  assert (Hw : 0 < width sample_properties < 2 ^ 31) by (cbn; lia).
  assert (Hh : 0 < height sample_properties < 2 ^ 31) by (cbn; lia).
  assert (Hf : pixel_format sample_properties <> pixel_format_invalid)
    by discriminate.
  assert (Ho : orientation sample_properties <> orientation_invalid)
    by discriminate.
  assert (Hpad : 0 <= line_padding sample_properties) by (cbn; lia).
  assert (Hfit : buffer_stride sample_properties * height sample_properties <= 8)
    by (vm_compute; discriminate).
  assert (HB : 8 <= Z.of_nat (length sample_buffer))
    by (vm_compute; discriminate).
  assert (HB2 : 8 <= Z.of_nat (length (replicate 8 Byte.x00)))
    by (vm_compute; discriminate).
  assert (Hsize : 8 < 2 ^ 64) by lia.
  assert (Hwp : "image.bmp"%string ∉ write_protected empty_disk)
    by apply not_elem_of_empty.
  split; [auto|].
  destruct (save_load_round_trip "image.bmp"%string sample_buffer
              (replicate 8 Byte.x00) 8 sample_properties sample_properties true
              empty_disk Hw Hh Hf Ho Hpad Hfit HB HB2 Hsize Hwp
              eq_refl eq_refl eq_refl)
    as (fs' & B2' & Hsave & Hload & _ & Hpixels & Hpadding & _).
  exists fs', B2'. split; [exact Hsave|]. split; [exact Hload|]. split.
  - apply (Hpixels 1 0); cbn; lia.
  - apply (Hpadding 1 3); unfold buffer_stride; cbn; lia.
Defined.

(** * Further properties of the code *)

(** ** Strides and sizes *)

Lemma abs_small x : - 2 ^ 31 < x < 2 ^ 31 -> abs x = Z.abs x.
Proof. intros Hx. unfold abs. apply i32_small. lia. Qed.

(** X1: for a supported depth and a width whose magnitude fits
    [int32_t], the stride of a file line is a multiple of 4, it is the
    least one that holds the bytes of the pixels, and it is those bytes
    plus the line padding, which is between 0 and 3. *)
Theorem determine_stride_aligned bits_per_pixel w :
  bits_per_pixel = 8 \/ bits_per_pixel = 24 \/ bits_per_pixel = 32 ->
  - 2 ^ 31 < w < 2 ^ 31 ->
  determine_stride bits_per_pixel w mod 4 = 0
  /\ bits_per_pixel / 8 * Z.abs w <= determine_stride bits_per_pixel w
     < bits_per_pixel / 8 * Z.abs w + 4
  /\ determine_stride bits_per_pixel w
     = bits_per_pixel / 8 * Z.abs w + determine_line_padding bits_per_pixel w
  /\ 0 <= determine_line_padding bits_per_pixel w <= 3.
Proof.
  intros Hb Hw. unfold determine_stride, determine_line_padding.
  destruct (byte_per_pixel_in_file_eq bits_per_pixel Hb) as [-> Hq].
  rewrite abs_small by lia. rewrite (usize_small (Z.abs w)) by lia.
  assert (Hn : 0 <= bits_per_pixel / 8 * Z.abs w <= 2 ^ 33) by nia.
  generalize dependent (bits_per_pixel / 8 * Z.abs w). intros n Hn.
  rewrite (usize_small n) by lia.
  destruct (Z.eqb_spec (n mod 4) 0) as [E|E]; cbn [negb].
  - repeat split; dlia.
  - rewrite usize_small by dlia. repeat split; dlia.
Qed.

Lemma determine_stride_aligned_witness :
  determine_stride 24 (-5) mod 4 = 0
  /\ 24 / 8 * Z.abs (-5) <= determine_stride 24 (-5) < 24 / 8 * Z.abs (-5) + 4
  /\ determine_stride 24 (-5) = 24 / 8 * Z.abs (-5) + determine_line_padding 24 (-5)
  /\ 0 <= determine_line_padding 24 (-5) <= 3.
Proof. apply (determine_stride_aligned 24 (-5)); lia. Defined.

(** X2: when the exact size of the image fits [size_t], the result 0 of
    [compute_buffer_size] is unambiguous: it is returned exactly for a
    width or a height of 0 or an invalid pixel format. *)
Theorem compute_buffer_size_zero_iff p :
  props_in_range p ->
  (width p * bytes_per_pixel (pixel_format p) + line_padding p) * height p < 2 ^ 64 ->
  fst (compute_buffer_size p) = 0
  <-> (width p = 0 \/ height p = 0 \/ pixel_format p = pixel_format_invalid).
Proof.
  intros (Hw & Hh & Hp) Hfit. split; [|apply compute_buffer_size_zero].
  intros Hzero.
  destruct (Z.eq_dec (width p) 0) as [|Hw0]; [auto|].
  destruct (Z.eq_dec (height p) 0) as [|Hh0]; [auto|].
  destruct (decide (pixel_format p = pixel_format_invalid)) as [|Hf]; [auto|].
  exfalso.
  assert (Hbpp : 1 <= bytes_per_pixel (pixel_format p))
    by (destruct (pixel_format p); cbn; try lia; contradiction).
  rewrite compute_buffer_size_exact in Hzero by (try assumption; nia).
  nia.
Qed.

Lemma compute_buffer_size_zero_iff_witness :
  fst (compute_buffer_size sample_properties) = 0
  <-> (width sample_properties = 0 \/ height sample_properties = 0
       \/ pixel_format sample_properties = pixel_format_invalid).
Proof.
  apply (compute_buffer_size_zero_iff sample_properties).
  - unfold props_in_range. cbn. lia.
  - cbn. lia.
Defined.

(** ** Messages *)

(** X3: [operation_result_type_to_string] gives every result type a
    message of its own, so the message identifies the result. *)
Theorem operation_result_type_to_string_injective a b :
  operation_result_type_to_string a = operation_result_type_to_string b -> a = b.
Proof. destruct a, b; intros H; first [reflexivity | discriminate H]. Qed.

Lemma operation_result_type_to_string_injective_witness : corrupt = corrupt.
Proof.
  apply (operation_result_type_to_string_injective corrupt corrupt). reflexivity.
Defined.

(** ** What [save] does to the disk *)

Lemma write_cases bytes s :
  ofstream.is_open (ofstream.write bytes s) = ofstream.is_open s
  /\ ((ofstream.fail s = false
       /\ ofstream.fail (ofstream.write bytes s) = false
       /\ ofstream.written (ofstream.write bytes s) = ofstream.written s ++ bytes)
      \/ (ofstream.fail (ofstream.write bytes s) = true
          /\ ofstream.written (ofstream.write bytes s) = ofstream.written s)).
Proof.
  unfold ofstream.write. destruct (ofstream.fail s) eqn:Hf.
  - split; [reflexivity|]. right. auto.
  - destruct (next_fault (ofstream.faults s)) as [[] q]; cbn; auto.
Qed.

Ltac appended_nothing :=
  split; [reflexivity|]; exists []; rewrite app_nil_r;
  split; [reflexivity|];
  split; [intros Hfailed; split; [reflexivity | exact Hfailed]|];
  left; split; [reflexivity|]; split; reflexivity.

(* The write at hand failed: nothing was appended. *)
Ltac appended_failed :=
  split; [assumption|]; exists []; rewrite app_nil_r;
  split; [assumption|];
  split; [intros _; split; [reflexivity | assumption]|];
  right; split; [reflexivity|]; split; [assumption | apply prefix_nil].

Lemma write_color_table_appended count : forall i result file result' file',
  write_color_table count i result file = (result', file') ->
  appended file file' result result' (gray_ramp count i).
Proof.
  induction count as [|count IH]; intros i result file result' file';
    cbn [write_color_table gray_ramp].
  - intros [= <- <-]. appended_nothing.
  - change (entry_bytes _) with [byte.of_Z i; byte.of_Z i; byte.of_Z i; byte.of_Z 255].
    set (entry := [byte.of_Z i; byte.of_Z i; byte.of_Z i; byte.of_Z 255]).
    destruct (write_cases entry file) as [Ho [(Hf0 & Hf1 & Hw) | (Hf1 & Hw)]];
      rewrite Hf1.
    + intros Hrest. apply IH in Hrest.
      destruct Hrest as (Ho' & w & Hw' & _ & Hcase).
      split; [rewrite Ho', Ho; reflexivity|].
      exists (entry ++ w).
      split; [rewrite Hw', Hw, <- app_assoc; reflexivity|].
      split; [intros Hx; rewrite Hx in Hf0; discriminate Hf0|].
      destruct Hcase as [(-> & Hf' & ->) | (-> & Hf' & Hpre)].
      * left. split; [reflexivity|].
        split; [rewrite Hf', Hf1, Hf0; reflexivity | reflexivity].
      * right. split; [reflexivity|]. split; [assumption|].
        apply prefix_app, Hpre.
    + intros [= <- <-]. appended_failed.
Qed.

Lemma save_lines_appended P orientation_in_file S line_padding_in_file buffer count :
  0 <= line_padding_in_file <= 3 ->
  forall line result file result' file',
  save_lines P orientation_in_file S line_padding_in_file buffer count line result file
  = (result', file') ->
  appended file file' result result'
    (concat (saved_lines P orientation_in_file S buffer (usize (S - line_padding P))
                         line_padding_in_file count line)).
Proof.
  intros Hpad.
  assert (Hzeros : take (Z.to_nat line_padding_in_file) (le_split 4 0)
                   = replicate (Z.to_nat line_padding_in_file) Byte.x00).
  { assert (line_padding_in_file = 0 \/ line_padding_in_file = 1
            \/ line_padding_in_file = 2 \/ line_padding_in_file = 3)
      as [-> | [-> | [-> | ->]]] by lia; reflexivity. }
  induction count as [|count IH]; intros line result file result' file';
    cbn [save_lines saved_lines concat].
  - intros [= <- <-]. appended_nothing.
  - set (bs := bytes_at _ _ buffer).
    destruct (write_cases bs file) as [Ho [(Hf0 & Hf1 & Hw) | (Hf1 & Hw)]];
      rewrite Hf1.
    2: { intros [= <- <-]. appended_failed. }
    destruct (Z.eqb_spec line_padding_in_file 0) as [Hp|Hp]; cbn [negb andb].
    + intros Hrest. apply IH in Hrest.
      destruct Hrest as (Ho' & w & Hw' & _ & Hcase).
      rewrite Hp. cbn [Z.to_nat replicate]. rewrite app_nil_r.
      split; [rewrite Ho', Ho; reflexivity|].
      exists (bs ++ w).
      split; [rewrite Hw', Hw, <- app_assoc; reflexivity|].
      split; [intros Hx; rewrite Hx in Hf0; discriminate Hf0|].
      destruct Hcase as [(-> & Hf' & ->) | (-> & Hf' & Hpre)].
      * left. rewrite Hp. split; [reflexivity|].
        split; [rewrite Hf', Hf1, Hf0; reflexivity | reflexivity].
      * right. split; [reflexivity|]. split; [assumption|].
        rewrite Hp in Hpre. apply prefix_app, Hpre.
    + destruct (Z.leb_spec line_padding_in_file 4); [|lia].
      rewrite Hzeros.
      set (zeros := replicate (Z.to_nat line_padding_in_file) Byte.x00).
      destruct (write_cases zeros (ofstream.write bs file))
        as [Ho2 [(_ & Hf2 & Hw2) | (Hf2 & Hw2)]]; rewrite Hf2.
      * intros Hrest. apply IH in Hrest.
        destruct Hrest as (Ho' & w & Hw' & _ & Hcase).
        split; [rewrite Ho', Ho2, Ho; reflexivity|].
        exists ((bs ++ zeros) ++ w).
        split; [rewrite Hw', Hw2, Hw, <- !app_assoc; reflexivity|].
        split; [intros Hx; rewrite Hx in Hf0; discriminate Hf0|].
        destruct Hcase as [(-> & Hf' & ->) | (-> & Hf' & Hpre)].
        -- left. split; [reflexivity|].
           split; [rewrite Hf', Hf2, Hf0; reflexivity | reflexivity].
        -- right. split; [reflexivity|]. split; [assumption|].
           apply prefix_app, Hpre.
      * intros [= <- <-]. split; [rewrite Ho2, Ho; reflexivity|].
        exists bs. split; [rewrite Hw2, Hw; reflexivity|].
        split; [intros Hx; rewrite Hx in Hf0; discriminate Hf0|].
        right. split; [reflexivity|]. split; [assumption|].
        rewrite <- app_assoc. apply prefix_app_r. reflexivity.
Qed.

(** The ways a call of [save] ends. *)
Lemma save_cases filename buffer buffersize p force_bottom_up fs result fs' :
  save filename buffer buffersize p force_bottom_up fs = (result, fs') ->
  (result = null_argument /\ fs' = fs /\ (filename = None \/ buffer = None))
  \/ exists f b,
       filename = Some f /\ buffer = Some b
       /\ ((result = invalid_argument /\ fs' = fs /\ save_rejects p buffersize)
           \/ (~ save_rejects p buffersize
               /\ ((result = buffer_too_small /\ fs' = fs
                    /\ buffersize < fst (compute_buffer_size p))
                   \/ (fst (compute_buffer_size p) <= buffersize
                       /\ ((result = file_open_for_writing_error /\ fs' = fs
                            /\ f ∈ write_protected fs)
                           \/ ((f ∉ write_protected fs)
                               /\ exists bytes faults',
                                    fs' = mk_filesystem (<[f := bytes]> (files fs))
                                                        (write_protected fs) faults'
                                    /\ ((result = ok
                                         /\ bytes = saved_file p force_bottom_up b)
                                        \/ (result = file_write_error
                                            /\ (bytes `prefix_of`
                                                  saved_file p force_bottom_up b))))))))).
Proof.
  unfold save, saved_file.
  destruct buffer as [b|]; [|intros [= <- <-]; auto].
  destruct filename as [f|]; [|intros [= <- <-]; auto].
  intros Hsave. right. exists f, b. split; [reflexivity|]. split; [reflexivity|].
  destruct (Z.eqb_spec (height p) 0) as [|Hh];
    [injection Hsave as <- <-; left; unfold save_rejects; tauto|].
  destruct (Z.eqb_spec (width p) 0) as [|Hw];
    [injection Hsave as <- <-; left; unfold save_rejects; tauto|].
  destruct (bool_decide_reflect (pixel_format p = pixel_format_invalid)) as [|Hf];
    [injection Hsave as <- <-; left; unfold save_rejects; tauto|].
  destruct (bool_decide_reflect (orientation p = orientation_invalid)) as [|Ho];
    [injection Hsave as <- <-; left; unfold save_rejects; tauto|].
  destruct (Z.eqb_spec buffersize 0) as [|Hb];
    [injection Hsave as <- <-; left; unfold save_rejects; tauto|].
  destruct (Z.eqb_spec (determine_stride_props p) 0) as [|Hs];
    [injection Hsave as <- <-; left; unfold save_rejects; tauto|].
  cbn [orb negb] in Hsave. right. split; [unfold save_rejects; tauto|].
  assert (Hsize : fst (compute_buffer_size p)
                  = usize (determine_stride_props p * height p)).
  { unfold compute_buffer_size. cbn [fst].
    destruct (Z.eqb_spec (height p) 0); [contradiction|].
    destruct (Z.eqb_spec (width p) 0); [contradiction|].
    rewrite bool_decide_eq_false_2 by assumption. reflexivity. }
  rewrite Hsize.
  destruct (Z.ltb_spec buffersize (usize (determine_stride_props p * height p)));
    [injection Hsave as <- <-; left; auto|].
  right. split; [assumption|].
  unfold open_ofstream in Hsave. case_bool_decide;
    cbn [ofstream.is_open negb] in Hsave;
    [injection Hsave as <- <-; left; auto|].
  right. split; [assumption|].
  destruct (save_header p force_bottom_up) as [header orientation_in_file].
  pose proof (determine_line_padding_range (bmp_header.bits_per_pixel header)
                                           (bmp_header.width header)) as Hpad.
  set (file0 := ofstream.mk true [] false (pending_faults fs)) in Hsave.
  destruct (write_cases (header_bytes header) file0)
    as [Ho0 [(_ & Hf0 & Hw0) | (Hf0 & Hw0)]]; rewrite Hf0 in Hsave;
    cbn [is_ok andb] in Hsave.
  - destruct (if bool_decide (pixel_format p = Mono8)
              then write_color_table 256 0 ok
                     (ofstream.write (header_bytes header) file0)
              else (ok, ofstream.write (header_bytes header) file0))
      as [r1 file1] eqn:E1.
    assert (Htable : appended (ofstream.write (header_bytes header) file0) file1
                       ok r1
                       (if bool_decide (pixel_format p = Mono8)
                        then gray_ramp 256 0 else [])).
    { case_bool_decide.
      - apply write_color_table_appended. exact E1.
      - injection E1 as <- <-. appended_nothing. }
    destruct (save_lines _ _ _ _ _ _ _ _ _) as [r2 file2] eqn:E2.
    apply save_lines_appended in E2; [|assumption].
    injection Hsave as <- <-.
    destruct Htable as (Ho1 & w1 & Hw1 & _ & Hcase1).
    destruct E2 as (Ho2 & w2 & Hw2 & Hfailed & Hcase2).
    unfold close_ofstream. rewrite Ho2, Ho1, Ho0. cbn [file0 ofstream.is_open].
    eexists _, _. split; [reflexivity|].
    rewrite Hw2, Hw1, Hw0. cbn [file0 ofstream.written app].
    destruct Hcase1 as [(-> & Hf1 & ->) | (-> & Hf1 & Hpre1)].
    + destruct Hcase2 as [(-> & _ & ->) | (-> & _ & Hpre2)].
      * left. split; [reflexivity|]. rewrite <- app_assoc. reflexivity.
      * right. split; [reflexivity|]. rewrite <- app_assoc.
        apply prefix_app, prefix_app, Hpre2.
    + destruct (Hfailed Hf1) as [-> _]. rewrite app_nil_r.
      right. split; [destruct Hcase2 as [(-> & _) | (-> & _)]; reflexivity|].
      apply prefix_app, prefix_app_r, Hpre1.
  - destruct (save_lines _ _ _ _ _ _ _ _ _) as [r2 file2] eqn:E2.
    apply save_lines_appended in E2; [|assumption].
    injection Hsave as <- <-.
    destruct E2 as (Ho2 & w2 & Hw2 & Hfailed & Hcase2).
    destruct (Hfailed Hf0) as [-> _].
    unfold close_ofstream. rewrite Ho2, Ho0. cbn [file0 ofstream.is_open].
    eexists _, _. split; [reflexivity|].
    rewrite Hw2, Hw0. cbn [file0 ofstream.written app].
    right. split; [destruct Hcase2 as [(-> & _) | (-> & _)]; reflexivity|].
    apply prefix_nil.
Qed.

(* The two directions of the four equivalences of [save_validation]. *)
Ltac validation_goals :=
  split; [|split; [|split]]; (split; [intros Hres | intros Hcond]).

(** X4: the argument checks of [save] in their order.  A null file name
    or buffer gives [null_argument]; otherwise a width, height or buffer
    size of 0, an invalid pixel format or orientation or a stride of 0
    gives [invalid_argument]; otherwise a buffer size below
    [compute_buffer_size] gives [buffer_too_small]; otherwise a path that
    cannot be opened for writing gives [file_open_for_writing_error]; and
    each of the four results is returned in no other case. *)
Theorem save_validation filename buffer buffersize p force_bottom_up fs :
  let result := fst (save filename buffer buffersize p force_bottom_up fs) in
  (result = null_argument <-> (filename = None \/ buffer = None))
  /\ (result = invalid_argument
      <-> (filename <> None /\ buffer <> None /\ save_rejects p buffersize))
  /\ (result = buffer_too_small
      <-> (filename <> None /\ buffer <> None /\ ~ save_rejects p buffersize
           /\ buffersize < fst (compute_buffer_size p)))
  /\ (result = file_open_for_writing_error
      <-> ((exists f, filename = Some f /\ f ∈ write_protected fs)
           /\ buffer <> None /\ ~ save_rejects p buffersize
           /\ fst (compute_buffer_size p) <= buffersize)).
Proof.
  cbv zeta.
  destruct (save filename buffer buffersize p force_bottom_up fs)
    as [result fs'] eqn:E.
  cbn [fst]. apply save_cases in E.
  destruct E as [(-> & _ & Hnull) | (f & b & -> & -> & E)].
  { validation_goals; try discriminate Hres; try reflexivity.
    - assumption.
    - destruct Hcond as (H1 & H2 & _). destruct Hnull; contradiction.
    - destruct Hcond as (H1 & H2 & _). destruct Hnull; contradiction.
    - destruct Hcond as ((f & -> & _) & H2 & _).
      destruct Hnull as [Hnull | Hnull]; [discriminate Hnull | contradiction]. }
  assert (Hset : Some f <> None /\ Some b <> None) by (split; discriminate).
  destruct E as [(-> & _ & Hrej) | (Hacc & E)].
  { validation_goals; try discriminate Hres; try reflexivity.
    - destruct Hcond as [Hcond | Hcond]; discriminate Hcond.
    - tauto.
    - destruct Hcond as (_ & _ & Hcond & _). contradiction.
    - destruct Hcond as (_ & _ & Hcond & _). contradiction. }
  destruct E as [(-> & _ & Hsmall) | (Hfit & E)].
  { validation_goals; try discriminate Hres; try reflexivity.
    - destruct Hcond as [Hcond | Hcond]; discriminate Hcond.
    - destruct Hcond as (_ & _ & Hcond). contradiction.
    - tauto.
    - destruct Hcond as (_ & _ & _ & Hcond). lia. }
  destruct E as [(-> & _ & Hprot) | (Hfree & bytes & q & _ & E)].
  { validation_goals; try discriminate Hres; try reflexivity.
    - destruct Hcond as [Hcond | Hcond]; discriminate Hcond.
    - destruct Hcond as (_ & _ & Hcond). contradiction.
    - destruct Hcond as (_ & _ & _ & Hcond). lia.
    - split; [exists f; auto|]. tauto. }
  assert (Hr : result = ok \/ result = file_write_error)
    by (destruct E as [(-> & _) | (-> & _)]; auto).
  validation_goals;
    try (destruct Hr as [Hr | Hr]; rewrite Hr in Hres; discriminate Hres).
  - destruct Hcond as [Hcond | Hcond]; discriminate Hcond.
  - destruct Hcond as (_ & _ & Hcond). contradiction.
  - destruct Hcond as (_ & _ & _ & Hcond). lia.
  - destruct Hcond as ((g & [= <-] & Hg) & _). contradiction.
Qed.

(** X5: what [save] leaves of the disk.  No call changes another file or
    the set of paths that cannot be written; a call that returns anything
    but [ok] or [file_write_error] leaves the whole disk as it was, the
    file it was to write included; a call that returns [ok] or
    [file_write_error] has created or truncated its file. *)
Theorem save_frame filename buffer buffersize p force_bottom_up fs result fs' :
  save filename buffer buffersize p force_bottom_up fs = (result, fs') ->
  write_protected fs' = write_protected fs
  /\ (forall g, filename <> Some g -> files fs' !! g = files fs !! g)
  /\ (result <> ok -> result <> file_write_error -> fs' = fs)
  /\ (result = ok \/ result = file_write_error ->
      exists f, filename = Some f /\ is_Some (files fs' !! f)).
Proof.
  intros E. apply save_cases in E.
  assert (Hsame : fs' = fs ->
            write_protected fs' = write_protected fs
            /\ (forall g, filename <> Some g -> files fs' !! g = files fs !! g)
            /\ (result <> ok -> result <> file_write_error -> fs' = fs))
    by (intros ->; auto).
  destruct E as [(-> & -> & _) | (f & b & -> & -> & E)].
  { destruct (Hsame eq_refl) as (H1 & H2 & H3).
    repeat split; try assumption. intros [H | H]; discriminate H. }
  destruct E as [(-> & -> & _) | (_ & E)].
  { destruct (Hsame eq_refl) as (H1 & H2 & H3).
    repeat split; try assumption. intros [H | H]; discriminate H. }
  destruct E as [(-> & -> & _) | (_ & E)].
  { destruct (Hsame eq_refl) as (H1 & H2 & H3).
    repeat split; try assumption. intros [H | H]; discriminate H. }
  destruct E as [(-> & -> & _) | (_ & bytes & q & -> & E)].
  { destruct (Hsame eq_refl) as (H1 & H2 & H3).
    repeat split; try assumption. intros [H | H]; discriminate H. }
  cbn [write_protected files]. split; [reflexivity|]. split; [|split].
  - intros g Hg. apply lookup_insert_ne. intros ->. contradiction.
  - intros H1 H2. destruct E as [(-> & _) | (-> & _)]; contradiction.
  - intros _. exists f. split; [reflexivity|].
    rewrite lookup_insert_eq. eexists. reflexivity.
Qed.

Lemma save_frame_witness :
  write_protected sample_disk = write_protected empty_disk
  /\ (forall g, Some "image.bmp"%string <> Some g ->
        files sample_disk !! g = files empty_disk !! g)
  /\ (ok <> ok -> ok <> file_write_error -> sample_disk = empty_disk)
  /\ (ok = ok \/ ok = file_write_error ->
      exists f, Some "image.bmp"%string = Some f /\ is_Some (files sample_disk !! f)).
Proof.
  apply (save_frame (Some "image.bmp"%string) (Some sample_buffer) 8
                    sample_properties true empty_disk ok sample_disk).
  vm_compute. reflexivity.
Defined.

(** X6: whatever the device does, a call of [save] that opened its file,
    that is one that returns [ok] or [file_write_error], leaves at its
    path a prefix of the file a complete save writes: what the path held
    before is gone and nothing else was written.  On a device that works
    the call returns [ok] and the file is complete. *)
Theorem save_leaves_prefix filename buffer buffersize p force_bottom_up fs
    result fs' :
  save filename buffer buffersize p force_bottom_up fs = (result, fs') ->
  result = ok \/ result = file_write_error ->
  exists f b bytes,
    filename = Some f /\ buffer = Some b
    /\ files fs' !! f = Some bytes
    /\ (bytes `prefix_of` saved_file p force_bottom_up b)
    /\ (pending_faults fs = [] ->
        result = ok /\ bytes = saved_file p force_bottom_up b).
Proof.
  intros Hsave Hresult. pose proof Hsave as E. apply save_cases in E.
  assert (Hne : result <> null_argument /\ result <> invalid_argument
                /\ result <> buffer_too_small
                /\ result <> file_open_for_writing_error)
    by (destruct Hresult as [-> | ->]; repeat split; discriminate).
  destruct Hne as (Hn1 & Hn2 & Hn3 & Hn4).
  destruct E as [(E & _) | (f & b & -> & -> & E)]; [contradiction|].
  destruct E as [(E & _) | (Hacc & E)]; [contradiction|].
  destruct E as [(E & _) | (Hfit & E)]; [contradiction|].
  destruct E as [(E & _) | (Hfree & bytes & q & -> & E)]; [contradiction|].
  exists f, b, bytes. split; [reflexivity|]. split; [reflexivity|].
  split; [apply lookup_insert_eq|]. split.
  - destruct E as [(_ & ->) | (_ & Hpre)]; [reflexivity | exact Hpre].
  - intros Hq. unfold save_rejects in Hacc.
    assert (Hsize : fst (compute_buffer_size p)
                    = usize (determine_stride_props p * height p)).
    { unfold compute_buffer_size. cbn [fst].
      destruct (Z.eqb_spec (height p) 0); [tauto|].
      destruct (Z.eqb_spec (width p) 0); [tauto|].
      rewrite bool_decide_eq_false_2 by tauto. reflexivity. }
    rewrite (save_working f b buffersize p force_bottom_up fs) in Hsave
      by (try assumption; try lia; tauto).
    injection Hsave as <- Hfiles _. split; [reflexivity|].
    apply (f_equal (fun m => m !! f)) in Hfiles.
    rewrite !lookup_insert_eq in Hfiles. injection Hfiles as <-. reflexivity.
Qed.

Lemma save_leaves_prefix_witness :
  exists f b bytes,
    Some "image.bmp"%string = Some f /\ Some sample_buffer = Some b
    /\ files sample_disk !! f = Some bytes
    /\ (bytes `prefix_of` saved_file sample_properties true b)
    /\ (pending_faults empty_disk = [] ->
        ok = ok /\ bytes = saved_file sample_properties true b).
Proof.
  apply (save_leaves_prefix (Some "image.bmp"%string) (Some sample_buffer) 8
                                sample_properties true empty_disk ok sample_disk).
  - vm_compute. reflexivity.
  - left. reflexivity.
Defined.

(** ** Files that cannot be read *)

Lemma load_and_check_header_unreadable stream header_out :
  ifstream.fail stream = true
  \/ fst (next_fault (ifstream.faults stream)) = true
  \/ (length (ifstream.contents stream) < ifstream.gpos stream + 54)%nat ->
  fst (fst (load_and_check_header stream header_out)) = not_a_bmp_file.
Proof.
  intros Hbad. unfold load_and_check_header, ifstream.read.
  destruct (ifstream.fail stream) eqn:Hf; [rewrite Hf; reflexivity|].
  destruct (next_fault (ifstream.faults stream)) as [[] q]; [reflexivity|].
  cbn [ifstream.fail].
  rewrite bool_decide_eq_true_2; [reflexivity|].
  destruct Hbad as [Hbad | [Hbad | Hbad]]; [discriminate Hbad ..|].
  rewrite length_take, length_drop.
  change (Z.to_nat bmp_header.sizeof) with 54%nat. lia.
Qed.

(** The buffer overload after a properties load that fails. *)
Lemma load_buffer_of_failed_load f buffer buffersize p flp fo fs r0 p0 :
  load (Some f) p fs = (r0, p0) -> r0 <> ok ->
  (fo = true -> orientation p <> orientation_invalid) ->
  load_buffer (Some f) (Some buffer) buffersize p flp fo fs = (r0, Some buffer, p0).
Proof.
  unfold load, load_buffer. intros Hload Hne Hfo.
  destruct (fo && bool_decide (orientation p = orientation_invalid)) eqn:Hguard.
  { exfalso. apply andb_true_iff in Hguard. destruct Hguard as [-> Ho].
    apply bool_decide_eq_true in Ho. apply Hfo; [reflexivity | exact Ho]. }
  destruct (load_image_properties _ _ _ _) as [[[[r s] h] t] q].
  injection Hload as -> ->.
  destruct r0; cbn [is_ok]; first [contradiction | reflexivity].
Qed.

(** X7: a file that ends before its 54-byte header, or whose header
    cannot be read from the device, is [not_a_bmp_file] for both overloads
    of [load]; the properties are reset and the buffer is left as it
    was. *)
Theorem load_truncated_header f p fs bytes :
  files fs !! f = Some bytes ->
  (length bytes < 54)%nat \/ fst (next_fault (pending_faults fs)) = true ->
  load (Some f) p fs = (not_a_bmp_file, default_image_properties)
  /\ forall buffer buffersize flp fo,
       (fo = true -> orientation p <> orientation_invalid) ->
       load_buffer (Some f) (Some buffer) buffersize p flp fo fs
       = (not_a_bmp_file, Some buffer, default_image_properties).
Proof.
  intros Hfile Hbad.
  assert (Hload : load (Some f) p fs = (not_a_bmp_file, default_image_properties)).
  { unfold load, open_ifstream. rewrite Hfile.
    set (stream := ifstream.mk true bytes 0 false (pending_faults fs)).
    pose proof (load_and_check_header_unreadable stream bmp_header.zero) as Hh.
    unfold load_image_properties. cbn [ifstream.is_open stream negb].
    fold stream.
    destruct (load_and_check_header stream bmp_header.zero) as [[r1 s1] h1].
    cbn [fst] in Hh. rewrite Hh; [reflexivity|].
    cbn [stream ifstream.fail ifstream.faults ifstream.contents ifstream.gpos].
    destruct Hbad as [Hbad | Hbad]; [right; right; lia | right; left; exact Hbad]. }
  split; [exact Hload|].
  intros buffer buffersize flp fo Hfo.
  apply load_buffer_of_failed_load; [exact Hload | discriminate | exact Hfo].
Qed.

Lemma load_truncated_header_witness :
  load (Some "cut.bmp"%string) sample_properties cut_disk
  = (not_a_bmp_file, default_image_properties)
  /\ forall buffer buffersize flp fo,
       (fo = true -> orientation sample_properties <> orientation_invalid) ->
       load_buffer (Some "cut.bmp"%string) (Some buffer) buffersize
                   sample_properties flp fo cut_disk
       = (not_a_bmp_file, Some buffer, default_image_properties).
Proof.
  apply (load_truncated_header "cut.bmp"%string sample_properties cut_disk
                               (take 53 sample_file)).
  - vm_compute. reflexivity.
  - left. vm_compute. lia.
Defined.

(** X8: a path that names no file is [file_not_found] for both overloads
    of [load]; the properties are reset and the buffer is left as it
    was. *)
Theorem load_missing_file f p fs :
  files fs !! f = None ->
  load (Some f) p fs = (file_not_found, default_image_properties)
  /\ forall buffer buffersize flp fo,
       (fo = true -> orientation p <> orientation_invalid) ->
       load_buffer (Some f) (Some buffer) buffersize p flp fo fs
       = (file_not_found, Some buffer, default_image_properties).
Proof.
  intros Hfile.
  assert (Hload : load (Some f) p fs = (file_not_found, default_image_properties)).
  { unfold load, open_ifstream. rewrite Hfile. reflexivity. }
  split; [exact Hload|].
  intros buffer buffersize flp fo Hfo.
  apply load_buffer_of_failed_load; [exact Hload | discriminate | exact Hfo].
Qed.

Lemma load_missing_file_witness :
  load (Some "image.bmp"%string) sample_properties empty_disk
  = (file_not_found, default_image_properties)
  /\ forall buffer buffersize flp fo,
       (fo = true -> orientation sample_properties <> orientation_invalid) ->
       load_buffer (Some "image.bmp"%string) (Some buffer) buffersize
                   sample_properties flp fo empty_disk
       = (file_not_found, Some buffer, default_image_properties).
Proof.
  apply (load_missing_file "image.bmp"%string sample_properties empty_disk).
  vm_compute. reflexivity.
Defined.

(** ** The two overloads of [load] *)

Lemma load_lines_direct_result P orientation_in_file S stride_in_file
    line_padding_in_file count :
  forall line result file buffer,
  fst (fst (load_lines_direct P orientation_in_file S stride_in_file
              line_padding_in_file count line result file buffer)) = result
  \/ fst (fst (load_lines_direct P orientation_in_file S stride_in_file
                 line_padding_in_file count line result file buffer))
     = file_read_error
  \/ fst (fst (load_lines_direct P orientation_in_file S stride_in_file
                 line_padding_in_file count line result file buffer))
     = file_write_error.
Proof.
  induction count as [|count IH]; intros line result file buffer;
    cbn [load_lines_direct].
  - left. reflexivity.
  - cbv zeta. destruct (ifstream.read _ file) as [chunk file1].
    destruct (ifstream.fail file1); [right; left; reflexivity|].
    destruct (negb _); [|apply IH].
    destruct (ifstream.fail (ifstream.seekg_cur _ _));
      [right; right; reflexivity | apply IH].
Qed.

Lemma load_lines_mono8_result P orientation_in_file S stride_in_file
    line_padding_in_file header color_table linear_lut count :
  forall line result file buffer,
  fst (fst (load_lines_mono8 P orientation_in_file S stride_in_file
              line_padding_in_file header color_table linear_lut count line
              result file buffer)) = result
  \/ fst (fst (load_lines_mono8 P orientation_in_file S stride_in_file
                 line_padding_in_file header color_table linear_lut count line
                 result file buffer)) = file_read_error
  \/ fst (fst (load_lines_mono8 P orientation_in_file S stride_in_file
                 line_padding_in_file header color_table linear_lut count line
                 result file buffer)) = file_write_error.
Proof.
  induction count as [|count IH]; intros line result file buffer;
    cbn [load_lines_mono8].
  - left. reflexivity.
  - cbv zeta. destruct (ifstream.read _ file) as [chunk file1].
    destruct (ifstream.fail file1); [right; left; reflexivity|].
    destruct (negb (line_padding_in_file =? 0)); [|apply IH].
    destruct (ifstream.fail (ifstream.seekg_cur _ _));
      [right; right; reflexivity | apply IH].
Qed.

Lemma load_lines_indexed_result P orientation_in_file S header color_table count :
  forall line result stride_buffer file buffer,
  fst (fst (load_lines_indexed P orientation_in_file S header color_table count
              line result stride_buffer file buffer)) = result
  \/ fst (fst (load_lines_indexed P orientation_in_file S header color_table count
                 line result stride_buffer file buffer)) = file_read_error
  \/ fst (fst (load_lines_indexed P orientation_in_file S header color_table count
                 line result stride_buffer file buffer)) = file_write_error.
Proof.
  induction count as [|count IH]; intros line result stride_buffer file buffer;
    cbn [load_lines_indexed].
  - left. reflexivity.
  - cbv zeta. destruct (ifstream.read _ file) as [chunk file1].
    destruct (negb _); [right; left; reflexivity | apply IH].
Qed.

(** The buffer overload after a properties load that succeeds: the size
    check and the transfer. *)
Lemma load_buffer_of_loaded f buffer buffersize p flp fo fs p0 :
  load (Some f) p fs = (ok, p0) ->
  (fo = true -> orientation p <> orientation_invalid) ->
  exists hh,
    height p0 = Z.abs hh /\ - 2 ^ 31 <= hh < 2 ^ 31 /\ hh <> 0
    /\ 0 < width p0 /\ pixel_format p0 <> pixel_format_invalid
    /\ ((buffersize
         < usize (determine_stride_props (forced_properties p0 p flp fo)
                  * usize (abs hh))
         /\ load_buffer (Some f) (Some buffer) buffersize p flp fo fs
            = (buffer_too_small, Some buffer, forced_properties p0 p flp fo))
        \/ (usize (determine_stride_props (forced_properties p0 p flp fo)
                   * usize (abs hh)) <= buffersize
            /\ exists r b',
                 load_buffer (Some f) (Some buffer) buffersize p flp fo fs
                 = (r, Some b', forced_properties p0 p flp fo)
                 /\ (r = ok \/ r = file_read_error \/ r = file_write_error))).
Proof.
  intros Hload Hfo. unfold load in Hload.
  destruct (load_image_properties _ _ _ _) as [[[[r0 s0] h] t] q0] eqn:E.
  injection Hload as -> ->.
  apply load_image_properties_inv in E as Hinv.
  destruct Hinv as [[Hne _] | (_ & Hacc & _ & _ & _ & _ & _ & Hp0)];
    [contradiction|].
  rewrite determine_image_properties_accepted in Hp0 by assumption.
  pose proof Hacc as (Hr & _ & _ & _ & Hw & Hh0 & Hb & _ & _).
  destruct Hr as (_ & _ & _ & _ & _ & _ & _ & Hhr & _).
  exists (bmp_header.height h).
  assert (Hfp : pixel_format p0
                = if bmp_header.bits_per_pixel h =? 8
                  then (if check_is_mono8 t then Mono8 else BGR8)
                  else if bmp_header.bits_per_pixel h =? 24 then BGR8 else BGRA8)
    by (rewrite Hp0; reflexivity).
  split; [rewrite Hp0; reflexivity|]. split; [assumption|]. split; [assumption|].
  split; [rewrite Hp0; exact Hw|].
  split.
  { rewrite Hfp. destruct (_ =? 8); [destruct (check_is_mono8 t)|destruct (_ =? 24)];
      discriminate. }
  unfold load_buffer.
  destruct (fo && bool_decide (orientation p = orientation_invalid)) eqn:Hguard.
  { exfalso. apply andb_true_iff in Hguard. destruct Hguard as [-> Ho].
    apply bool_decide_eq_true in Ho. apply Hfo; [reflexivity | exact Ho]. }
  rewrite E. cbn [is_ok].
  pose proof (forced_properties_code p0 p flp fo) as Hforced. cbv zeta in Hforced.
  rewrite !Hforced. clear Hforced.
  set (p' := forced_properties p0 p flp fo).
  assert (Hfp' : pixel_format p' = pixel_format p0) by reflexivity.
  destruct (Z.ltb_spec buffersize
              (usize (determine_stride_props p' * usize (abs (bmp_header.height h)))));
    [left; split; [assumption | reflexivity]|].
  right. split; [assumption|].
  destruct (ifstream.fail (ifstream.seekg (bmp_header.offset h) s0));
    [eexists _, _; split; [reflexivity | auto]|].
  rewrite Hfp', Hfp.
  destruct Hb as [Hb | [Hb | Hb]]; rewrite Hb.
  - change (8 <? 8) with false. change (8 =? 8) with true. cbn [andb].
    destruct (check_is_mono8 t).
    + rewrite bool_decide_eq_true_2 by reflexivity.
      match goal with
      | |- context [load_lines_mono8 ?a1 ?a2 ?a3 ?a4 ?a5 ?a6 ?a7 ?a8 ?a9 ?a10 ?a11 ?a12 ?a13] =>
          pose proof (load_lines_mono8_result a1 a2 a3 a4 a5 a6 a7 a8 a9 a10 a11 a12 a13)
            as Hres;
          destruct (load_lines_mono8 a1 a2 a3 a4 a5 a6 a7 a8 a9 a10 a11 a12 a13)
            as [[r file'] b']
      end.
      eexists _, _. split; [reflexivity | exact Hres].
    + rewrite bool_decide_eq_false_2 by discriminate.
      rewrite bool_decide_eq_true_2 by reflexivity. cbn [andb].
      match goal with
      | |- context [load_lines_indexed ?a1 ?a2 ?a3 ?a4 ?a5 ?a6 ?a7 ?a8 ?a9 ?a10 ?a11] =>
          pose proof (load_lines_indexed_result a1 a2 a3 a4 a5 a6 a7 a8 a9 a10 a11)
            as Hres;
          destruct (load_lines_indexed a1 a2 a3 a4 a5 a6 a7 a8 a9 a10 a11)
            as [[r file'] b']
      end.
      eexists _, _. split; [reflexivity | exact Hres].
  - change (8 <? 24) with true. change (24 =? 8) with false.
    change (24 =? 24) with true. cbn iota.
    rewrite bool_decide_eq_true_2 by reflexivity. cbn [andb orb].
    match goal with
    | |- context [load_lines_direct ?a1 ?a2 ?a3 ?a4 ?a5 ?a6 ?a7 ?a8 ?a9 ?a10] =>
        pose proof (load_lines_direct_result a1 a2 a3 a4 a5 a6 a7 a8 a9 a10) as Hres;
        destruct (load_lines_direct a1 a2 a3 a4 a5 a6 a7 a8 a9 a10) as [[r file'] b']
    end.
    eexists _, _. split; [reflexivity | exact Hres].
  - change (8 <? 32) with true. change (32 =? 8) with false.
    change (32 =? 24) with false. cbn iota.
    rewrite (bool_decide_eq_false_2 (BGRA8 = BGR8)) by discriminate.
    rewrite bool_decide_eq_true_2 by reflexivity. cbn [andb orb].
    match goal with
    | |- context [load_lines_direct ?a1 ?a2 ?a3 ?a4 ?a5 ?a6 ?a7 ?a8 ?a9 ?a10] =>
        pose proof (load_lines_direct_result a1 a2 a3 a4 a5 a6 a7 a8 a9 a10) as Hres;
        destruct (load_lines_direct a1 a2 a3 a4 a5 a6 a7 a8 a9 a10) as [[r file'] b']
    end.
    eexists _, _. split; [reflexivity | exact Hres].
Qed.

(** X9: the buffer overload of [load] starts with the properties load
    of the first overload.  A failure of that load is the result of the
    buffer overload, with the properties reset and the buffer as it was;
    after a success the buffer overload returns the loaded properties,
    with the forced line padding and orientation, and its result is one
    of [ok], [buffer_too_small], [file_read_error] and
    [file_write_error]. *)
Theorem load_buffer_agrees_with_load f buffer buffersize p flp fo fs r0 p0 :
  load (Some f) p fs = (r0, p0) ->
  (fo = true -> orientation p <> orientation_invalid) ->
  (r0 <> ok ->
   load_buffer (Some f) (Some buffer) buffersize p flp fo fs = (r0, Some buffer, p0))
  /\ (r0 = ok ->
      exists r b',
        load_buffer (Some f) (Some buffer) buffersize p flp fo fs
        = (r, Some b', forced_properties p0 p flp fo)
        /\ (r = ok \/ r = buffer_too_small
            \/ r = file_read_error \/ r = file_write_error)).
Proof.
  intros Hload Hfo. split.
  - intros Hne. apply load_buffer_of_failed_load; assumption.
  - intros ->.
    destruct (load_buffer_of_loaded f buffer buffersize p flp fo fs p0 Hload Hfo)
      as (hh & _ & _ & _ & _ & _ & [(_ & Hcall) | (_ & r & b' & Hcall & Hr)]).
    + exists buffer_too_small, buffer. split; [exact Hcall | auto].
    + exists r, b'. split; [exact Hcall | tauto].
Qed.

Lemma load_buffer_agrees_with_load_witness :
  (ok <> ok ->
   load_buffer (Some "image.bmp"%string) (Some (replicate 2 Byte.x00)) 2
               sample_properties true false sample_disk
   = (ok, Some (replicate 2 Byte.x00),
      snd (load (Some "image.bmp"%string) sample_properties sample_disk)))
  /\ (ok = ok ->
      exists r b',
        load_buffer (Some "image.bmp"%string) (Some (replicate 2 Byte.x00)) 2
                    sample_properties true false sample_disk
        = (r, Some b',
           forced_properties
             (snd (load (Some "image.bmp"%string) sample_properties sample_disk))
             sample_properties true false)
        /\ (r = ok \/ r = buffer_too_small
            \/ r = file_read_error \/ r = file_write_error)).
Proof.
  apply (load_buffer_agrees_with_load "image.bmp"%string (replicate 2 Byte.x00) 2
           sample_properties true false sample_disk ok).
  - vm_compute. reflexivity.
  - discriminate.
Defined.

(** X10: the size check of the buffer overload of [load] is that of
    [compute_buffer_size].  For a file whose properties load with a
    height below [2 ^ 31], a buffer size below [compute_buffer_size] of
    the properties the call returns gives [buffer_too_small], with the
    buffer as it was and those properties in place; a buffer size of at
    least [compute_buffer_size] never does. *)
Theorem load_buffer_size_check f buffer buffersize p flp fo fs p0 :
  load (Some f) p fs = (ok, p0) ->
  (fo = true -> orientation p <> orientation_invalid) ->
  height p0 < 2 ^ 31 ->
  (buffersize < fst (compute_buffer_size (forced_properties p0 p flp fo)) ->
   load_buffer (Some f) (Some buffer) buffersize p flp fo fs
   = (buffer_too_small, Some buffer, forced_properties p0 p flp fo))
  /\ (fst (compute_buffer_size (forced_properties p0 p flp fo)) <= buffersize ->
      fst (fst (load_buffer (Some f) (Some buffer) buffersize p flp fo fs))
      <> buffer_too_small).
Proof.
  intros Hload Hfo Hh31.
  destruct (load_buffer_of_loaded f buffer buffersize p flp fo fs p0 Hload Hfo)
    as (hh & Hh & Hhr & Hh0 & Hw & Hf & Hcases).
  set (p' := forced_properties p0 p flp fo) in *.
  assert (Hsize : fst (compute_buffer_size p')
                  = usize (determine_stride_props p' * usize (abs hh))).
  { unfold compute_buffer_size. cbn [fst].
    change (height p') with (height p0). change (width p') with (width p0).
    change (pixel_format p') with (pixel_format p0).
    destruct (Z.eqb_spec (height p0) 0); [lia|].
    destruct (Z.eqb_spec (width p0) 0); [lia|].
    rewrite bool_decide_eq_false_2 by assumption. cbn [orb negb].
    rewrite abs_small by lia. rewrite (usize_small (Z.abs hh)) by lia.
    rewrite Hh. reflexivity. }
  rewrite Hsize.
  destruct Hcases as [(Hlt & Hcall) | (Hge & r & b' & Hcall & Hr)].
  - split; [intros _; exact Hcall | lia].
  - split; [lia|]. intros _. rewrite Hcall. cbn [fst].
    destruct Hr as [-> | [-> | ->]]; discriminate.
Qed.

Lemma load_buffer_size_check_witness :
  let p0 := {| width := 3; height := 2; line_padding := 1;
               pixel_format := Mono8; orientation := bottom_up |} in
  (7 < fst (compute_buffer_size (forced_properties p0 sample_properties false false)) ->
   load_buffer (Some "image.bmp"%string) (Some (replicate 7 Byte.x00)) 7
               sample_properties false false sample_disk
   = (buffer_too_small, Some (replicate 7 Byte.x00),
      forced_properties p0 sample_properties false false))
  /\ (fst (compute_buffer_size (forced_properties p0 sample_properties false false))
      <= 7 ->
      fst (fst (load_buffer (Some "image.bmp"%string) (Some (replicate 7 Byte.x00)) 7
                            sample_properties false false sample_disk))
      <> buffer_too_small).
Proof.
  intros p0.
  apply (load_buffer_size_check "image.bmp"%string (replicate 7 Byte.x00) 7
           sample_properties false false sample_disk p0).
  - vm_compute. reflexivity.
  - discriminate.
  - cbn. lia.
Defined.

(** ** The properties of a file *)

(** X11: the properties of a file that loads are those of its header.
    The width is the width field and the height the magnitude of the
    height field; the image is top-down exactly when the height field is
    negative; the line padding is the number between 0 and 3 that
    completes the bytes of a line to a multiple of 4; and 24 and 32 bits
    per pixel are [BGR8] and [BGRA8]. *)
Theorem load_properties_of_header f p fs bytes p0 :
  files fs !! f = Some bytes ->
  load (Some f) p fs = (ok, p0) ->
  let header := header_of_bytes (take 54 bytes) in
  let line_bytes := bmp_header.bits_per_pixel header / 8 * bmp_header.width header in
  width p0 = bmp_header.width header
  /\ height p0 = Z.abs (bmp_header.height header)
  /\ (orientation p0 = top_down <-> bmp_header.height header < 0)
  /\ (orientation p0 = bottom_up <-> 0 < bmp_header.height header)
  /\ 0 <= line_padding p0 <= 3
  /\ (line_bytes + line_padding p0) mod 4 = 0
  /\ (bmp_header.bits_per_pixel header = 24 -> pixel_format p0 = BGR8)
  /\ (bmp_header.bits_per_pixel header = 32 -> pixel_format p0 = BGRA8)
  /\ (bmp_header.bits_per_pixel header = 8 ->
      pixel_format p0 = Mono8 \/ pixel_format p0 = BGR8).
Proof.
  intros Hfile Hload header line_bytes.
  destruct (load_ok_header f p fs bytes p0 Hfile Hload) as [Hacc Hp0].
  fold header in Hacc, Hp0.
  rewrite determine_image_properties_accepted in Hp0 by assumption.
  destruct Hacc as (_ & _ & _ & _ & Hw & Hh & Hb & _).
  rewrite Hp0. cbn [width height orientation line_padding pixel_format].
  split; [reflexivity|]. split; [reflexivity|].
  split; [destruct (Z.ltb_spec (bmp_header.height header) 0);
          split; first [discriminate | lia | reflexivity]|].
  split; [destruct (Z.ltb_spec (bmp_header.height header) 0);
          split; first [discriminate | lia | reflexivity]|].
  split; [apply file_padding_range|].
  split.
  { unfold file_padding, file_stride, line_bytes.
    rewrite Z.abs_eq by lia.
    replace (bmp_header.bits_per_pixel header / 8 * bmp_header.width header
             + ((bmp_header.bits_per_pixel header / 8 * bmp_header.width header + 3)
                / 4 * 4
                - bmp_header.bits_per_pixel header / 8 * bmp_header.width header))
      with ((bmp_header.bits_per_pixel header / 8 * bmp_header.width header + 3)
            / 4 * 4) by lia.
    apply Z_mod_mult. }
  split; [intros ->; reflexivity|]. split; [intros ->; reflexivity|].
  intros ->. cbn. destruct (check_is_mono8 _); auto.
Qed.

Lemma load_properties_of_header_witness :
  let p0 := {| width := 3; height := 2; line_padding := 1;
               pixel_format := Mono8; orientation := bottom_up |} in
  let header := header_of_bytes (take 54 sample_file) in
  let line_bytes := bmp_header.bits_per_pixel header / 8 * bmp_header.width header in
  width p0 = bmp_header.width header
  /\ height p0 = Z.abs (bmp_header.height header)
  /\ (orientation p0 = top_down <-> bmp_header.height header < 0)
  /\ (orientation p0 = bottom_up <-> 0 < bmp_header.height header)
  /\ 0 <= line_padding p0 <= 3
  /\ (line_bytes + line_padding p0) mod 4 = 0
  /\ (bmp_header.bits_per_pixel header = 24 -> pixel_format p0 = BGR8)
  /\ (bmp_header.bits_per_pixel header = 32 -> pixel_format p0 = BGRA8)
  /\ (bmp_header.bits_per_pixel header = 8 ->
      pixel_format p0 = Mono8 \/ pixel_format p0 = BGR8).
Proof.
  intros p0.
  apply (load_properties_of_header "image.bmp"%string default_image_properties
           sample_disk sample_file p0).
  - vm_compute. reflexivity.
  - vm_compute. reflexivity.
Defined.

Lemma determine_image_properties_ignores_input header color_table p q :
  bmp_header.bits_per_pixel header = 8 \/ bmp_header.bits_per_pixel header = 24
  \/ bmp_header.bits_per_pixel header = 32 ->
  determine_image_properties header color_table p
  = determine_image_properties header color_table q.
Proof.
  intros Hb. unfold determine_image_properties.
  destruct Hb as [-> | [-> | ->]]; reflexivity.
Qed.

Lemma load_color_table_result stream header color_table :
  let result := fst (fst (load_color_table stream header color_table)) in
  result = ok \/ result = file_read_error \/ result = unsupported_use_of_color_table.
Proof.
  unfold load_color_table. cbv zeta.
  destruct (ifstream.fail (ifstream.seekg _ stream)); [cbn; auto|].
  destruct (negb (Z.of_nat (length _) =? 0)); [|cbn; auto].
  destruct (ifstream.read _ _) as [chunk stream'].
  destruct (ifstream.fail stream'); cbn; auto.
Qed.

Lemma load_image_properties_ignores_input stream p q :
  load_image_properties stream bmp_header.zero [] p
  = load_image_properties stream bmp_header.zero [] q.
Proof.
  unfold load_image_properties.
  destruct (negb (ifstream.is_open stream)); [reflexivity|].
  destruct (load_and_check_header stream bmp_header.zero) as [[r1 s1] h1] eqn:E1.
  destruct (decide (r1 = ok)) as [-> | Hne].
  2: { destruct r1; cbn [is_ok andb]; first [contradiction | reflexivity]. }
  apply load_and_check_header_ok in E1.
  destruct E1 as ((_ & _ & _ & _ & _ & _ & Hb & _) & _).
  cbn [is_ok andb].
  destruct (bmp_header.bits_per_pixel h1 =? 8).
  - pose proof (load_color_table_result s1 h1 []) as Hr. cbv zeta in Hr.
    destruct (load_color_table s1 h1 []) as [[r2 s2] t2]. cbn [fst] in Hr.
    destruct Hr as [-> | [-> | ->]]; cbn [is_ok]; [|reflexivity ..].
    rewrite (determine_image_properties_ignores_input h1 t2 p q Hb). reflexivity.
  - cbn [is_ok].
    rewrite (determine_image_properties_ignores_input h1 [] p q Hb). reflexivity.
Qed.

(** X12: both overloads of [load] write the properties and read of them
    only what the caller forces.  The properties-only overload gives the
    same result and properties for every initial value of the argument;
    the buffer overload gives the same result, buffer and properties for
    two arguments that agree on the line padding when it is forced and on
    a valid orientation when it is forced. *)
Theorem load_ignores_initial_properties f p q fs :
  load (Some f) p fs = load (Some f) q fs
  /\ forall buffer buffersize flp fo,
       (flp = true -> line_padding p = line_padding q) ->
       (fo = true ->
        orientation p = orientation q /\ orientation p <> orientation_invalid) ->
       load_buffer (Some f) (Some buffer) buffersize p flp fo fs
       = load_buffer (Some f) (Some buffer) buffersize q flp fo fs.
Proof.
  split.
  - unfold load.
    rewrite (load_image_properties_ignores_input (open_ifstream f fs) p q).
    reflexivity.
  - intros buffer buffersize flp fo Hflp Hfo. unfold load_buffer.
    rewrite (load_image_properties_ignores_input (open_ifstream f fs) p q).
    destruct fo.
    + destruct (Hfo eq_refl) as [Ho Hvalid]. rewrite <- Ho.
      rewrite bool_decide_eq_false_2 by assumption. cbn [andb].
      destruct flp; [rewrite (Hflp eq_refl)|]; reflexivity.
    + cbn [andb]. destruct flp; [rewrite (Hflp eq_refl)|]; reflexivity.
Qed.

Lemma load_ignores_initial_properties_witness :
  load_buffer (Some "image.bmp"%string) (Some sample_buffer) 8 sample_properties
              true false sample_disk
  = load_buffer (Some "image.bmp"%string) (Some sample_buffer) 8
                {| width := 7; height := 9; line_padding := 1;
                   pixel_format := BGR8; orientation := orientation_invalid |}
                true false sample_disk.
Proof.
  apply (load_ignores_initial_properties "image.bmp"%string sample_properties
           {| width := 7; height := 9; line_padding := 1;
              pixel_format := BGR8; orientation := orientation_invalid |}
           sample_disk).
  - reflexivity.
  - discriminate.
Defined.

(** ** The file [save] writes *)

Lemma length_concat_saved_lines P orientation_in_file S buffer n pad count :
  0 <= height P < 2 ^ 32 -> 0 <= S -> height P * S < 2 ^ 64 ->
  0 <= n <= S -> 0 <= pad ->
  height P * S <= Z.of_nat (length buffer) ->
  forall line,
  0 <= line -> line + Z.of_nat count <= height P ->
  Z.of_nat (length (concat (saved_lines P orientation_in_file S buffer n pad count line)))
  = Z.of_nat count * (n + pad).
Proof.
  intros Hh HS Hfit Hn Hpad Hbuf.
  induction count as [|count IH]; intros line Hl Hc; cbn [saved_lines concat].
  - reflexivity.
  - rewrite !length_app, length_replicate.
    rewrite line_offset_exact by (try assumption; lia).
    pose proof (row_offset_range P orientation_in_file S HS line ltac:(lia)) as Hr.
    rewrite length_bytes_at by lia.
    rewrite !Nat2Z.inj_add, IH by lia. lia.
Qed.

(** X13: the layout of a file that [save] wrote on a working device from
    a buffer that holds the image, for a width and a height below
    [2 ^ 31].  The file is the 54-byte header, for [Mono8] the 256 gray
    table entries [i, i, i, 255], and [height] lines of the file stride;
    the offset field is the position of the first line and the size field
    is the length of the file in [uint32_t]. *)
Theorem saved_file_layout f b buffersize p force_bottom_up fs fs' :
  pending_faults fs = [] ->
  save (Some f) (Some b) buffersize p force_bottom_up fs = (ok, fs') ->
  0 < width p < 2 ^ 31 -> 0 < height p < 2 ^ 31 -> 0 <= line_padding p ->
  buffer_stride p * height p <= Z.of_nat (length b) ->
  Z.of_nat (length b) < 2 ^ 64 ->
  exists bytes,
    files fs' !! f = Some bytes
    /\ let header := header_of_bytes (take 54 bytes) in
       let table := if bool_decide (pixel_format p = Mono8) then 1024 else 0 in
       let bits := 8 * bytes_per_pixel (pixel_format p) in
       Z.of_nat (length bytes) = 54 + table + file_stride bits (width p) * height p
       /\ bmp_header.offset header = 54 + table
       /\ bmp_header.size header = u32 (Z.of_nat (length bytes))
       /\ bmp_header.bits_per_pixel header = bits
       /\ bmp_header.width header = width p
       /\ (pixel_format p = Mono8 -> take 1024 (drop 54 bytes) = gray_ramp 256 0).
Proof.
  intros _ Hsave Hw Hh Hpad Hbuf Hlen.
  apply save_ok_inv in Hsave.
  destruct Hsave as (f' & b' & [= <-] & [= <-] & _ & _ & Hf & _ & _ & Hfile).
  exists (saved_file p force_bottom_up b). split; [exact Hfile|].
  cbv zeta. rewrite header_of_saved_file.
  assert (Hbpp : 1 <= bytes_per_pixel (pixel_format p) <= 4)
    by (destruct (pixel_format p); cbn; try lia; contradiction).
  assert (Hdepth : 8 * bytes_per_pixel (pixel_format p) = 8
                   \/ 8 * bytes_per_pixel (pixel_format p) = 24
                   \/ 8 * bytes_per_pixel (pixel_format p) = 32)
    by (destruct (pixel_format p); cbn; try lia; contradiction).
  set (bits := 8 * bytes_per_pixel (pixel_format p)) in *.
  set (n := width p * bytes_per_pixel (pixel_format p)).
  assert (HS : buffer_stride p = n + line_padding p) by reflexivity.
  assert (Hn : 1 <= n) by (unfold n; nia).
  assert (HSh : buffer_stride p <= buffer_stride p * height p) by nia.
  assert (Hdsp : determine_stride_props p = buffer_stride p).
  { rewrite determine_stride_props_eq. apply usize_small. fold n. lia. }
  destruct (file_stride_bounds bits (width p) Hdepth Hw) as [Hfs _].
  pose proof (file_padding_range bits (width p)) as Hfp.
  assert (Hstride : file_stride bits (width p) = n + file_padding bits (width p)).
  { unfold file_padding. rewrite Z.abs_eq by lia. unfold bits.
    rewrite (Z.mul_comm 8), Z.div_mul by lia. fold n. lia. }
  assert (Hheight : abs (if negb force_bottom_up
                            && bool_decide (orientation p = top_down)
                         then i32 (- i32 (height p)) else i32 (height p))
                    = height p).
  { rewrite (i32_small (height p)) by lia.
    destruct (negb force_bottom_up && _).
    - rewrite i32_small by lia. rewrite abs_neg by lia. lia.
    - apply abs_pos. lia. }
  (* the length of the file *)
  assert (Hlength : Z.of_nat (length (saved_file p force_bottom_up b))
                    = 54 + (if bool_decide (pixel_format p = Mono8) then 1024 else 0)
                      + file_stride bits (width p) * height p).
  { rewrite saved_file_eq, !length_app, length_header_bytes.
    destruct (save_header_fields p force_bottom_up) as (-> & _ & _ & ->).
    rewrite (i32_small (width p)) by lia. fold bits.
    rewrite determine_line_padding_eq by assumption.
    rewrite Hdsp. replace (buffer_stride p - line_padding p) with n by lia.
    rewrite (usize_small n) by lia.
    rewrite !Nat2Z.inj_add.
    rewrite (length_concat_saved_lines p _ (buffer_stride p) b n
               (file_padding bits (width p)) (Z.to_nat (height p)))
      by (try lia; nia).
    rewrite Z2Nat.id by lia. rewrite Hstride.
    destruct (bool_decide_reflect (pixel_format p = Mono8));
      [rewrite length_gray_ramp|]; cbn [length]; lia. }
  split; [exact Hlength|].
  rewrite Hlength, save_header_eq. cbv zeta. cbn [fst].
  cbn [bmp_header.offset bmp_header.size bmp_header.bits_per_pixel bmp_header.width].
  fold bits. rewrite (i32_small (width p)) by lia.
  split; [destruct (bool_decide (pixel_format p = Mono8)); reflexivity|].
  split.
  { rewrite Hheight, determine_stride_eq by assumption.
    rewrite (usize_small (height p)) by lia.
    rewrite (usize_small (file_stride bits (width p) * height p)) by nia.
    unfold u32. rewrite Zplus_mod_idemp_r. f_equal.
    destruct (bool_decide (pixel_format p = Mono8)); lia. }
  split; [reflexivity|]. split; [reflexivity|].
  intros Hmono. rewrite saved_file_eq.
  rewrite bool_decide_eq_true_2 by assumption.
  match goal with
  | |- take _ (drop _ (?l1 ++ ?l2 ++ ?l3)) = _ =>
      rewrite (drop_app_length' l1 (l2 ++ l3) 54)
        by (rewrite length_header_bytes; reflexivity)
  end.
  apply take_app_length'. rewrite length_gray_ramp. reflexivity.
Qed.

Lemma saved_file_layout_witness :
  exists bytes,
    files sample_disk !! "image.bmp"%string = Some bytes
    /\ let header := header_of_bytes (take 54 bytes) in
       let table :=
         if bool_decide (pixel_format sample_properties = Mono8) then 1024 else 0 in
       let bits := 8 * bytes_per_pixel (pixel_format sample_properties) in
       Z.of_nat (length bytes)
       = 54 + table + file_stride bits (width sample_properties)
                      * height sample_properties
       /\ bmp_header.offset header = 54 + table
       /\ bmp_header.size header = u32 (Z.of_nat (length bytes))
       /\ bmp_header.bits_per_pixel header = bits
       /\ bmp_header.width header = width sample_properties
       /\ (pixel_format sample_properties = Mono8 ->
           take 1024 (drop 54 bytes) = gray_ramp 256 0).
Proof.
  apply (saved_file_layout "image.bmp"%string sample_buffer 8 sample_properties
                               true empty_disk sample_disk).
  - reflexivity.
  - vm_compute. reflexivity.
  - cbn. lia.
  - cbn. lia.
  - cbn. lia.
  - vm_compute. discriminate.
  - vm_compute. reflexivity.
Defined.

(** X14: the properties of a file that [save] wrote, for a width and a
    height below [2 ^ 31] and a device that works: the properties-only
    [load] succeeds and returns the width, the height and the pixel
    format that were saved, the line padding of the file, and
    [top_down] exactly when a top-down buffer was saved with
    [force_bottom_up] false. *)
Theorem save_then_load_properties f b buffersize p force_bottom_up fs fs' q :
  save (Some f) (Some b) buffersize p force_bottom_up fs = (ok, fs') ->
  pending_faults fs' = [] ->
  0 < width p < 2 ^ 31 -> 0 < height p < 2 ^ 31 ->
  load (Some f) q fs'
  = (ok,
     {| width := width p; height := height p;
        line_padding := file_padding (8 * bytes_per_pixel (pixel_format p)) (width p);
        pixel_format := pixel_format p;
        orientation :=
          if negb force_bottom_up && bool_decide (orientation p = top_down)
          then top_down else bottom_up |}).
Proof.
  intros Hsave Hq Hw Hh.
  apply save_ok_inv in Hsave.
  destruct Hsave as (f' & b' & [= <-] & [= <-] & _ & _ & Hf & _ & _ & Hfile).
  rewrite (load_saved_file f q fs' p force_bottom_up b Hfile Hq Hw Hh Hf).
  rewrite save_header_orientation. reflexivity.
Qed.

Lemma save_then_load_properties_witness :
  load (Some "image.bmp"%string) default_image_properties sample_disk
  = (ok,
     {| width := width sample_properties; height := height sample_properties;
        line_padding :=
          file_padding (8 * bytes_per_pixel (pixel_format sample_properties))
                       (width sample_properties);
        pixel_format := pixel_format sample_properties;
        orientation :=
          if negb true && bool_decide (orientation sample_properties = top_down)
          then top_down else bottom_up |}).
Proof.
  apply (save_then_load_properties "image.bmp"%string sample_buffer 8
           sample_properties true empty_disk sample_disk default_image_properties).
  - vm_compute. reflexivity.
  - vm_compute. reflexivity.
  - cbn. lia.
  - cbn. lia.
Defined.

Lemma save_lines_ext P orientation_in_file S line_padding_in_file
    (buffer buffer' : list byte) count :
  forall line result file,
  (forall l, line <= l < line + Z.of_nat count ->
     bytes_at (line_offset P orientation_in_file S l)
              (usize (S - line_padding P)) buffer
     = bytes_at (line_offset P orientation_in_file S l)
                (usize (S - line_padding P)) buffer') ->
  save_lines P orientation_in_file S line_padding_in_file buffer count line result file
  = save_lines P orientation_in_file S line_padding_in_file buffer' count line
               result file.
Proof.
  induction count as [|count IH]; intros line result file Hsame;
    cbn [save_lines]; [reflexivity|].
  cbv zeta. rewrite (Hsame line) by lia.
  destruct (ofstream.fail (ofstream.write _ file)); [reflexivity|].
  destruct (negb _ && _).
  - destruct (ofstream.fail (ofstream.write _ _)); [reflexivity|].
    apply IH. intros l Hl. apply Hsame. lia.
  - apply IH. intros l Hl. apply Hsame. lia.
Qed.

Lemma bytes_at_ext p p' n (buffer buffer' : list byte) :
  (forall j : nat, (j < Z.to_nat n)%nat ->
     buffer !! (Z.to_nat p + j)%nat = buffer' !! (Z.to_nat p' + j)%nat) ->
  bytes_at p n buffer = bytes_at p' n buffer'.
Proof.
  intros Hsame. unfold bytes_at. apply list_eq. intros j.
  destruct (Nat.lt_ge_cases j (Z.to_nat n)) as [Hj | Hj].
  - rewrite !lookup_take_lt, !lookup_drop by assumption. apply Hsame, Hj.
  - rewrite !lookup_take_ge by assumption. reflexivity.
Qed.

(** X15: [save] reads the pixel bytes of the buffer and nothing else.
    Two buffers that agree on the first [width * bytes_per_pixel] bytes
    of every row give the same result and leave the same disk, whatever
    their line-padding bytes and the bytes after the image are. *)
Theorem save_ignores_padding f b b' buffersize p force_bottom_up fs :
  0 <= height p < 2 ^ 32 -> 0 <= width p -> 0 <= line_padding p ->
  buffer_stride p * height p < 2 ^ 64 ->
  (forall r c,
     0 <= r < height p -> 0 <= c < width p * bytes_per_pixel (pixel_format p) ->
     b !! Z.to_nat (r * buffer_stride p + c)
     = b' !! Z.to_nat (r * buffer_stride p + c)) ->
  save (Some f) (Some b) buffersize p force_bottom_up fs
  = save (Some f) (Some b') buffersize p force_bottom_up fs.
Proof.
  intros Hh Hw Hpad Hfit Hsame. unfold save.
  destruct (_ || _); [reflexivity|].
  destruct (_ <? _); [reflexivity|].
  destruct (negb _); [reflexivity|].
  destruct (save_header p force_bottom_up) as [header orientation_in_file].
  match goal with
  | |- (let '(_, _) := ?table in _) = _ => destruct table as [r1 file1]
  end.
  rewrite (save_lines_ext p orientation_in_file (determine_stride_props p) _ b b');
    [reflexivity|].
  intros l Hl. rewrite Z2Nat.id in Hl by lia.
  assert (Hbpp : 0 <= bytes_per_pixel (pixel_format p))
    by (destruct (pixel_format p); cbn; lia).
  set (n := width p * bytes_per_pixel (pixel_format p)) in *.
  assert (HS : buffer_stride p = n + line_padding p) by reflexivity.
  assert (Hn : 0 <= n) by (unfold n; nia).
  assert (Hdsp : determine_stride_props p = buffer_stride p).
  { rewrite determine_stride_props_eq. apply usize_small. fold n. nia. }
  rewrite Hdsp. replace (buffer_stride p - line_padding p) with n by lia.
  rewrite (usize_small n) by nia.
  rewrite line_offset_exact by (try lia; nia).
  apply bytes_at_ext. intros j Hj.
  set (r := if bool_decide (orientation p = orientation_in_file)
            then l else height p - 1 - l).
  assert (Hro : row_offset p orientation_in_file (buffer_stride p) l
                = r * buffer_stride p).
  { unfold row_offset, r. case_bool_decide; reflexivity. }
  assert (Hr : 0 <= r < height p) by (unfold r; case_bool_decide; lia).
  rewrite Hro.
  replace (Z.to_nat (r * buffer_stride p) + j)%nat
    with (Z.to_nat (r * buffer_stride p + Z.of_nat j)) by nia.
  apply Hsame; lia.
Qed.

Lemma save_ignores_padding_witness :
  save (Some "image.bmp"%string) (Some sample_buffer) 8 sample_properties true
       empty_disk
  = save (Some "image.bmp"%string) (Some (map byte.of_Z [1; 2; 3; 0; 4; 5; 6; 0])) 8
         sample_properties true empty_disk.
Proof.
  apply (save_ignores_padding "image.bmp"%string sample_buffer
           (map byte.of_Z [1; 2; 3; 0; 4; 5; 6; 0]) 8 sample_properties true
           empty_disk).
  - cbn. lia.
  - cbn. lia.
  - cbn. lia.
  - vm_compute. reflexivity.
  - intros r c Hr Hc. cbn in Hr, Hc.
    assert (r = 0 \/ r = 1) as [-> | ->] by lia;
      (assert (c = 0 \/ c = 1 \/ c = 2) as [-> | [-> | ->]] by lia); reflexivity.
Defined.

(** ** Gray tables *)

Lemma check_is_linear_mono8_from_lookup color_table :
  forall i, 0 <= i < 256 ->
  check_is_linear_mono8_from i color_table = true ->
  forall (k : nat) entry,
  color_table !! k = Some entry ->
  byte.unsigned (color_table_entry.b entry) = (i + Z.of_nat k) mod 256
  /\ byte.unsigned (color_table_entry.g entry) = (i + Z.of_nat k) mod 256
  /\ byte.unsigned (color_table_entry.r entry) = (i + Z.of_nat k) mod 256.
Proof.
  induction color_table as [|entry0 color_table IH]; intros i Hi Hlin k entry Hk;
    [discriminate|].
  cbn [check_is_linear_mono8_from] in Hlin.
  destruct (Z.eqb_spec (byte.unsigned (color_table_entry.b entry0)) i) as [Eb|];
    [|discriminate].
  destruct (Z.eqb_spec (byte.unsigned (color_table_entry.g entry0)) i) as [Eg|];
    [|discriminate].
  destruct (Z.eqb_spec (byte.unsigned (color_table_entry.r entry0)) i) as [Er|];
    [|discriminate].
  cbn [andb negb] in Hlin.
  destruct k as [|k].
  - injection Hk as <-. rewrite Z.add_0_r, Z.mod_small by lia. auto.
  - cbn in Hk.
    destruct (IH ((i + 1) mod 256) ltac:(apply Z.mod_pos_bound; lia) Hlin k entry Hk)
      as (Hb & Hg & Hr).
    rewrite Zplus_mod_idemp_l in Hb, Hg, Hr.
    replace (i + Z.of_nat (S k)) with (i + 1 + Z.of_nat k) by lia. auto.
Qed.

(** A table of 256 entries that counts up from 0 is the identity. *)
Lemma linear_table_identity color_table index :
  check_is_linear_mono8 color_table = true -> length color_table = 256%nat ->
  color_table_entry.b (color_table_at color_table index) = index.
Proof.
  intros Hlin Hlen. unfold color_table_at.
  pose proof (byte.unsigned_range index) as Hrange.
  destruct (lookup_lt_is_Some_2 color_table (Z.to_nat (byte.unsigned index))
              ltac:(lia)) as [entry Hentry].
  rewrite Hentry. cbn [default from_option id].
  destruct (check_is_linear_mono8_from_lookup color_table 0 ltac:(lia) Hlin _ _ Hentry)
    as (Hb & _).
  apply byte.unsigned_inj. rewrite Hb, Z.add_0_l, Z2Nat.id by lia.
  apply Z.mod_small. lia.
Qed.

Lemma store_at_bytes_at p n (buffer : list byte) :
  store_at p (bytes_at p n buffer) buffer = buffer.
Proof.
  unfold store_at, bytes_at. apply list_eq. intros i.
  destruct (Nat.lt_ge_cases i (Z.to_nat p)) as [Hlt | Hge].
  - apply list_lookup_inserts_lt. assumption.
  - destruct (Nat.lt_ge_cases i
                (Z.to_nat p + length (take (Z.to_nat n) (drop (Z.to_nat p) buffer))))
      as [Hin | Hout].
    + destruct (Nat.lt_ge_cases i (length buffer)) as [Hb | Hb].
      * rewrite list_lookup_inserts by lia.
        rewrite lookup_take_lt by (rewrite length_take in Hin; lia).
        rewrite lookup_drop. f_equal. lia.
      * rewrite length_take, length_drop in Hin. lia.
    + apply list_lookup_inserts_ge. assumption.
Qed.

(** X16: a color table of 256 entries that [check_is_linear_mono8]
    accepts is gray, so the file is [Mono8], and decoding through it is
    the identity: the loop that skips the table gives the result, the
    stream and the buffer of the loop that applies it to every pixel. *)
Theorem linear_table_shortcut color_table :
  check_is_linear_mono8 color_table = true -> length color_table = 256%nat ->
  check_is_mono8 color_table = true
  /\ forall P orientation_in_file S stride_in_file line_padding_in_file header
            count line result file buffer,
       load_lines_mono8 P orientation_in_file S stride_in_file line_padding_in_file
                        header color_table true count line result file buffer
       = load_lines_mono8 P orientation_in_file S stride_in_file line_padding_in_file
                          header color_table false count line result file buffer.
Proof.
  intros Hlin Hlen. split.
  - apply check_is_mono8_gray, Forall_lookup. intros k entry Hk.
    destruct (check_is_linear_mono8_from_lookup color_table 0 ltac:(lia) Hlin k entry Hk)
      as (Hb & Hg & Hr).
    split; apply byte.unsigned_inj; congruence.
  - intros P orientation_in_file S stride_in_file line_padding_in_file header count.
    induction count as [|count IH]; intros line result file buffer;
      cbn [load_lines_mono8]; [reflexivity|].
    cbv zeta. destruct (ifstream.read _ file) as [chunk file1].
    destruct (ifstream.fail file1); [reflexivity|]. cbn [negb].
    rewrite (map_ext _ id) by (intros index; apply linear_table_identity; assumption).
    rewrite map_id, store_at_bytes_at.
    destruct (negb (line_padding_in_file =? 0)); [|apply IH].
    destruct (ifstream.fail (ifstream.seekg_cur _ _)); [reflexivity | apply IH].
Qed.

Lemma linear_table_shortcut_witness :
  check_is_mono8 gray_table = true
  /\ forall P orientation_in_file S stride_in_file line_padding_in_file header
            count line result file buffer,
       load_lines_mono8 P orientation_in_file S stride_in_file line_padding_in_file
                        header gray_table true count line result file buffer
       = load_lines_mono8 P orientation_in_file S stride_in_file line_padding_in_file
                          header gray_table false count line result file buffer.
Proof.
  apply (linear_table_shortcut gray_table); vm_compute; reflexivity.
Defined.

(** ** What the buffer overload of [load] stores *)

(** X17: the buffer overload of [load] stores the pixel bytes and
    nothing else.  Decoding on a working device a file that holds all
    its lines into a buffer that holds the image, the call leaves every
    byte of the buffer that is not among the first
    [width * bytes_per_pixel] bytes of a row as it was: the line-padding
    bytes of the rows and the bytes after the image. *)
Theorem load_buffer_keeps_other_bytes
    f buffer buffersize p flp fo fs bytes p0 lines rest :
  files fs !! f = Some bytes -> pending_faults fs = [] ->
  load (Some f) p fs = (ok, p0) ->
  (fo = true -> orientation p <> orientation_invalid) ->
  let header := header_of_bytes (take 54 bytes) in
  let p' := forced_properties p0 p flp fo in
  height p0 < 2 ^ 31 ->
  0 <= line_padding p' ->
  buffer_stride p' * height p' <= buffersize ->
  buffersize <= Z.of_nat (length buffer) -> buffersize < 2 ^ 64 ->
  drop (Z.to_nat (bmp_header.offset header)) bytes = concat lines ++ rest ->
  Z.of_nat (length lines) = height p0 ->
  Forall (fun file_line =>
            Z.of_nat (length file_line)
            = file_stride (bmp_header.bits_per_pixel header) (bmp_header.width header))
         lines ->
  exists buffer',
    load_buffer (Some f) (Some buffer) buffersize p flp fo fs = (ok, Some buffer', p')
    /\ length buffer' = length buffer
    /\ forall k : nat,
         (forall r, 0 <= r < height p' ->
            Z.of_nat k < r * buffer_stride p'
            \/ r * buffer_stride p' + width p' * bytes_per_pixel (pixel_format p')
               <= Z.of_nat k) ->
         buffer' !! k = buffer !! k.
Proof.
  intros Hfile Hq Hload Hfo header p' Hh31 Hpad Hfit Hbuf Hsize Hdata Hcount Hlines.
  pose proof (load_buffer_working f buffer buffersize p flp fo fs bytes p0 lines rest
                Hfile Hq Hload Hfo Hh31 Hpad Hfit Hbuf Hsize Hdata Hcount Hlines)
    as Hcall.
  cbv zeta in Hcall. fold header p' in Hcall.
  destruct (load_ok_header f p fs bytes p0 Hfile Hload) as [Hacc Hp0].
  fold header in Hacc, Hp0.
  eexists. split; [exact Hcall|].
  assert (Hh : 0 < height p' < 2 ^ 31).
  { change (height p') with (height p0).
    rewrite Hp0, determine_image_properties_accepted in * by assumption.
    cbn [height] in *. destruct Hacc as (_ & _ & _ & _ & _ & Hh & _). lia. }
  assert (Hw : 0 < width p').
  { change (width p') with (width p0).
    rewrite Hp0, determine_image_properties_accepted by assumption.
    cbn [width]. destruct Hacc as (_ & _ & _ & _ & Hw & _). lia. }
  assert (Hbpp : 0 <= bytes_per_pixel (pixel_format p'))
    by (destruct (pixel_format p'); cbn; lia).
  assert (HS : 0 <= buffer_stride p') by (unfold buffer_stride; nia).
  split; [apply length_place_lines|].
  intros k Hk.
  apply place_lines_outside; try lia; try nia.
  { rewrite length_map. change (height p') with (height p0). lia. }
  intros i row Hi. rewrite list_lookup_fmap in Hi.
  destruct (lines !! i) as [file_line|] eqn:Hline; [|discriminate].
  injection Hi as <-.
  assert (Hi' : Z.of_nat i < height p')
    by (apply lookup_lt_Some in Hline; change (height p') with (height p0); lia).
  rewrite (length_decoded_row header _ p0 p flp fo file_line Hacc Hp0)
    by (rewrite Forall_lookup in Hlines; exact (Hlines i file_line Hline)).
  fold p'. rewrite Z.add_0_l. unfold row_offset.
  case_bool_decide; apply Hk; lia.
Qed.

Lemma load_buffer_keeps_other_bytes_witness :
  let p0 := {| width := 3; height := 2; line_padding := 1;
               pixel_format := Mono8; orientation := bottom_up |} in
  exists buffer',
    load_buffer (Some "image.bmp"%string) (Some sample_buffer) 8
                default_image_properties false false sample_disk
    = (ok, Some buffer', forced_properties p0 default_image_properties false false)
    /\ length buffer' = length sample_buffer
    /\ buffer' !! 3%nat = sample_buffer !! 3%nat.
Proof.
  intros p0.
  destruct (load_buffer_keeps_other_bytes "image.bmp"%string sample_buffer 8
              default_image_properties false false sample_disk sample_file p0
              sample_lines [])
    as (buffer' & Hcall & Hlen & Hkeep).
  - vm_compute. reflexivity.
  - vm_compute. reflexivity.
  - vm_compute. reflexivity.
  - discriminate.
  - cbn. lia.
  - cbn. lia.
  - vm_compute. discriminate.
  - vm_compute. discriminate.
  - lia.
  - vm_compute. reflexivity.
  - reflexivity.
  - repeat constructor.
  - exists buffer'. split; [exact Hcall|]. split; [exact Hlen|].
    apply Hkeep. intros r Hr. cbn in Hr. unfold buffer_stride. cbn.
    assert (r = 0 \/ r = 1) as [-> | ->] by lia; lia.
Defined.



(** ** Files that end too early *)

Lemma load_and_check_header_passes stream header_out :
  ifstream.fail stream = false -> ifstream.faults stream = [] ->
  (ifstream.gpos stream + 54 <= length (ifstream.contents stream))%nat ->
  let header :=
    header_of_bytes (take 54 (drop (ifstream.gpos stream) (ifstream.contents stream))) in
  accepted header ->
  bmp_header.image_size_bytes header = 0
  \/ bmp_header.image_size_bytes header
     = file_stride (bmp_header.bits_per_pixel header) (bmp_header.width header)
       * Z.abs (bmp_header.height header) ->
  load_and_check_header stream header_out
  = (ok,
     ifstream.mk (ifstream.is_open stream) (ifstream.contents stream)
                 (ifstream.gpos stream + 54) false [],
     header).
Proof.
  intros Hf Hq Hlen header Hacc Hsize. unfold load_and_check_header.
  rewrite read_full
    by first [assumption | rewrite Hq; reflexivity
             | change (Z.to_nat bmp_header.sizeof) with 54%nat; lia].
  change (Z.to_nat bmp_header.sizeof) with 54%nat.
  rewrite store_full
    by (rewrite length_header_bytes, length_take, length_drop; lia).
  fold header. cbn [ifstream.fail]. rewrite Hq. cbn [next_fault snd].
  destruct Hacc as (Hr & Htype & Hinfo & Hoff & Hw & Hh & Hb & Hc & Hnc8 & Hnc).
  destruct Hr as (_ & _ & _ & _ & _ & _ & Hwr & Hhr & _ & _ & _ & Hsr & _).
  rewrite (image_data_size_check (bmp_header.bits_per_pixel header)
             (bmp_header.width header) (bmp_header.height header)
             (bmp_header.image_size_bytes header) Hb (conj Hw (proj2 Hwr)) Hhr Hh Hsr).
  assert (Hcheck : (bmp_header.image_size_bytes header =? 0)
                   || (bmp_header.image_size_bytes header
                       =? file_stride (bmp_header.bits_per_pixel header)
                                      (bmp_header.width header)
                          * Z.abs (bmp_header.height header)) = true).
  { destruct Hsize as [-> | <-]; [reflexivity|].
    rewrite Z.eqb_refl. apply orb_true_r. }
  rewrite Hcheck, Htype, Hc. cbn [Z.eqb Pos.eqb negb orb].
  change bmp_header.sizeof with 54.
  destruct (Z.ltb_spec (bmp_header.bitmap_info_header_size header) 40); [lia|].
  destruct (Z.ltb_spec (bmp_header.offset header) 54); [lia|].
  destruct (Z.eqb_spec (bmp_header.height header) 0); [lia|].
  destruct (Z.leb_spec (bmp_header.width header) 0); [lia|]. cbn [orb].
  destruct Hb as [Hb | [Hb | Hb]]; rewrite Hb.
  - cbn [Z.eqb Pos.eqb negb orb andb]. destruct (Hnc8 Hb) as [Hn1 Hn2].
    destruct (Z.ltb_spec 256 (bmp_header.num_colors header)); [lia|].
    destruct (Z.ltb_spec 256 (bmp_header.important_colors header)); [lia|].
    reflexivity.
  - cbn [Z.eqb Pos.eqb negb orb andb].
    destruct (Hnc ltac:(lia)) as [-> ->]. reflexivity.
  - cbn [Z.eqb Pos.eqb negb orb andb].
    destruct (Hnc ltac:(lia)) as [-> ->]. reflexivity.
Qed.

(** X19: an 8-bit file that ends before the end of its color table.  On
    a working device, when the header passes the checks and the file is
    shorter than the position of the table plus its four bytes per
    entry, both overloads of [load] report [file_read_error]; the
    properties are reset and the buffer is left as it was. *)
Theorem load_truncated_color_table f p fs bytes :
  files fs !! f = Some bytes -> pending_faults fs = [] ->
  (54 <= length bytes)%nat ->
  let header := header_of_bytes (take 54 bytes) in
  accepted header ->
  bmp_header.image_size_bytes header = 0
  \/ bmp_header.image_size_bytes header
     = file_stride (bmp_header.bits_per_pixel header) (bmp_header.width header)
       * Z.abs (bmp_header.height header) ->
  bmp_header.bits_per_pixel header = 8 ->
  Z.of_nat (length bytes)
  < bmp_header.bitmap_info_header_size header + 14 + 4 * color_table_length header ->
  bmp_header.bitmap_info_header_size header + 14 < 2 ^ 32 ->
  load (Some f) p fs = (file_read_error, default_image_properties)
  /\ forall buffer buffersize flp fo,
       (fo = true -> orientation p <> orientation_invalid) ->
       load_buffer (Some f) (Some buffer) buffersize p flp fo fs
       = (file_read_error, Some buffer, default_image_properties).
Proof.
  intros Hfile Hq Hlen header Hacc Hsize Hbits Hshort Hinfo.
  assert (Hload : load (Some f) p fs = (file_read_error, default_image_properties)).
  { unfold load. rewrite (open_ifstream_file f fs bytes Hfile Hq).
    unfold load_image_properties. cbn [ifstream.is_open negb].
    rewrite load_and_check_header_passes;
      cbn [ifstream.fail ifstream.faults ifstream.gpos ifstream.contents];
      rewrite ?drop_0; try assumption; try reflexivity; try lia.
    fold header. rewrite Hbits. cbn [is_ok andb Z.eqb Pos.eqb].
    pose proof (color_table_length_range header Hacc Hbits) as Hn.
    destruct Hacc as (Hr & _ & Hi40 & _).
    unfold load_color_table, ifstream.seekg.
    cbn [ifstream.fail ifstream.faults next_fault].
    rewrite u32_small by lia.
    destruct (Z.ltb_spec (bmp_header.bitmap_info_header_size header + 14) 0); [lia|].
    cbn [orb ifstream.fail].
    assert (Hresized : exists table,
              (if negb (bmp_header.num_colors header =? 0)
               then resize (bmp_header.num_colors header) []
               else if (bmp_header.num_colors header =? 0)
                       && (bmp_header.bits_per_pixel header =? 1)
               then resize 1 []
               else if (bmp_header.num_colors header =? 0)
                       && (bmp_header.bits_per_pixel header =? 4)
               then resize 16 []
               else if (bmp_header.num_colors header =? 0)
                       && (bmp_header.bits_per_pixel header =? 8)
               then resize 256 []
               else []) = table
              /\ Z.of_nat (length table) = color_table_length header).
    { eexists. split; [reflexivity|]. unfold color_table_length in *.
      rewrite Hbits.
      destruct (Z.eqb_spec (bmp_header.num_colors header) 0);
        cbn [negb andb Z.eqb Pos.eqb]; rewrite length_resize; lia. }
    destruct Hresized as (table & -> & Htable).
    rewrite Htable.
    destruct (Z.eqb_spec (color_table_length header) 0); [lia|]. cbn [negb].
    unfold ifstream.read. cbn [ifstream.fail ifstream.faults next_fault
                               ifstream.contents ifstream.gpos ifstream.is_open].
    rewrite bool_decide_eq_true_2; [reflexivity|].
    rewrite length_take, length_drop.
    change color_table_entry.sizeof with 4.
    rewrite usize_small by lia. lia. }
  split; [exact Hload|].
  intros buffer buffersize flp fo Hfo.
  apply load_buffer_of_failed_load; [exact Hload | discriminate | exact Hfo].
Qed.

Lemma load_truncated_color_table_witness :
  load (Some "cut.bmp"%string) sample_properties cut_table_disk
  = (file_read_error, default_image_properties)
  /\ forall buffer buffersize flp fo,
       (fo = true -> orientation sample_properties <> orientation_invalid) ->
       load_buffer (Some "cut.bmp"%string) (Some buffer) buffersize
                   sample_properties flp fo cut_table_disk
       = (file_read_error, Some buffer, default_image_properties).
Proof.
  apply (load_truncated_color_table "cut.bmp"%string sample_properties
           cut_table_disk (take 100 sample_file)).
  - vm_compute. reflexivity.
  - reflexivity.
  - vm_compute. lia.
  - vm_compute.
    repeat match goal with
           | |- _ /\ _ => split
           | |- _ = _ -> False => discriminate
           | |- _ -> _ => intros ?
           | |- _ = _ => reflexivity
           | |- _ \/ _ => left; reflexivity
           | H : ?x = ?x -> False |- _ => destruct (H eq_refl)
           end.
  - left. vm_compute. reflexivity.
  - vm_compute. reflexivity.
  - vm_compute. reflexivity.
  - vm_compute. reflexivity.
Defined.

Lemma read_ends count s chunk data :
  ends_with s (chunk ++ data) -> Z.to_nat count = length chunk ->
  exists s', ifstream.read count s = (chunk, s') /\ ends_with s' data.
Proof.
  intros (Hf & Hq & Hd) Hn. unfold ifstream.read.
  rewrite Hf, Hq. cbn [next_fault]. rewrite Hd, Hn, take_app_length.
  rewrite bool_decide_eq_false_2 by lia.
  eexists. split; [reflexivity|].
  repeat split; cbn [ifstream.fail ifstream.faults ifstream.gpos ifstream.contents].
  rewrite <- drop_drop, Hd. apply drop_app_length.
Qed.

(** A read of more bytes than the file has left fails. *)
Lemma read_short count s data :
  ends_with s data -> (length data < Z.to_nat count)%nat ->
  ifstream.fail (snd (ifstream.read count s)) = true
  /\ length (fst (ifstream.read count s)) <> Z.to_nat count.
Proof.
  intros (Hf & Hq & Hd) Hn. unfold ifstream.read.
  rewrite Hf, Hq. cbn [next_fault snd fst ifstream.fail]. rewrite Hd.
  rewrite length_take. split; [apply bool_decide_eq_true_2|]; lia.
Qed.

Lemma seekg_cur_ends off s skipped data :
  ends_with s (skipped ++ data) -> off = Z.of_nat (length skipped) ->
  ends_with (ifstream.seekg_cur off s) data.
Proof.
  intros (Hf & Hq & Hd) ->. unfold ifstream.seekg_cur.
  rewrite Hf, Hq. cbn [next_fault orb].
  destruct (Z.ltb_spec (Z.of_nat (ifstream.gpos s) + Z.of_nat (length skipped)) 0);
    [lia|].
  repeat split; cbn [ifstream.fail ifstream.faults ifstream.gpos ifstream.contents].
  replace (Z.to_nat (Z.of_nat (ifstream.gpos s) + Z.of_nat (length skipped)))
    with (ifstream.gpos s + length skipped)%nat by lia.
  rewrite <- drop_drop, Hd. apply drop_app_length.
Qed.

Lemma seekg_ends pos s data :
  ifstream.fail s = false -> ifstream.faults s = [] -> 0 <= pos ->
  drop (Z.to_nat pos) (ifstream.contents s) = data ->
  ends_with (ifstream.seekg pos s) data.
Proof.
  intros Hf Hq Hp Hd. unfold ifstream.seekg. rewrite Hf, Hq. cbn [next_fault orb].
  destruct (Z.ltb_spec pos 0); [lia|].
  repeat split; cbn [ifstream.fail ifstream.faults ifstream.gpos ifstream.contents].
  assumption.
Qed.

Section truncated_loops.
Variable P : image_properties.
Variable orientation_in_file : orientation_type.
Variables S stride_in_file line_padding_in_file : Z.
Variable header : bmp_header.t.
Variable color_table : list color_table_entry.t.

Hypothesis padding_range : 0 <= line_padding_in_file <= stride_in_file.
Hypothesis stride_range : stride_in_file < 2 ^ 64.

Lemma load_lines_direct_truncated lines (more : nat) rest :
  forall line file buffer,
  ends_with file (concat lines ++ rest) ->
  Forall (fun file_line => length file_line = Z.to_nat stride_in_file) lines ->
  Z.of_nat (length rest) < stride_in_file - line_padding_in_file ->
  fst (fst (load_lines_direct P orientation_in_file S stride_in_file
              line_padding_in_file (length lines + Datatypes.S more) line ok
              file buffer))
  = file_read_error.
Proof.
  intros line file buffer Hd Hlen Hrest. revert line file buffer Hd.
  induction lines as [|file_line lines IH]; intros line file buffer Hd.
  - cbn [length Nat.add load_lines_direct]. cbn [concat app] in Hd.
    rewrite usize_small by lia.
    destruct (read_short (stride_in_file - line_padding_in_file) file rest Hd
                ltac:(lia)) as [Hfail _].
    destruct (ifstream.read _ file) as [chunk file1]. cbn [snd] in Hfail.
    rewrite Hfail. reflexivity.
  - inversion Hlen as [|? ? Hl0 Hlen']; subst.
    destruct (split_line stride_in_file line_padding_in_file padding_range
                         file_line Hl0) as (Hsplit & Htake & Hdrop).
    cbn [length Nat.add load_lines_direct].
    cbn [concat] in Hd. rewrite Hsplit, <- !app_assoc in Hd.
    rewrite usize_small by lia.
    destruct (read_ends (stride_in_file - line_padding_in_file) file _ _ Hd)
      as (file1 & -> & Hd1); [symmetry; exact Htake|].
    rewrite (proj1 Hd1).
    destruct (Z.eqb_spec line_padding_in_file 0) as [Hp|Hp]; cbn [negb].
    + apply IH; [assumption|].
      assert (drop (Z.to_nat (stride_in_file - line_padding_in_file)) file_line = [])
        as Hnil by (apply length_zero_iff_nil; lia).
      rewrite Hnil in Hd1. exact Hd1.
    + pose proof (seekg_cur_ends line_padding_in_file file1 _ _ Hd1 (eq_sym Hdrop))
        as Hd2.
      rewrite (proj1 Hd2). apply IH; assumption.
Qed.

Lemma load_lines_mono8_truncated linear_lut lines (more : nat) rest :
  forall line file buffer,
  ends_with file (concat lines ++ rest) ->
  Forall (fun file_line => length file_line = Z.to_nat stride_in_file) lines ->
  Z.of_nat (length rest) < stride_in_file - line_padding_in_file ->
  fst (fst (load_lines_mono8 P orientation_in_file S stride_in_file
              line_padding_in_file header color_table linear_lut
              (length lines + Datatypes.S more) line ok file buffer))
  = file_read_error.
Proof.
  intros line file buffer Hd Hlen Hrest. revert line file buffer Hd.
  induction lines as [|file_line lines IH]; intros line file buffer Hd.
  - cbn [length Nat.add load_lines_mono8]. cbn [concat app] in Hd.
    rewrite usize_small by lia.
    destruct (read_short (stride_in_file - line_padding_in_file) file rest Hd
                ltac:(lia)) as [Hfail _].
    destruct (ifstream.read _ file) as [chunk file1]. cbn [snd] in Hfail.
    rewrite Hfail. reflexivity.
  - inversion Hlen as [|? ? Hl0 Hlen']; subst.
    destruct (split_line stride_in_file line_padding_in_file padding_range
                         file_line Hl0) as (Hsplit & Htake & Hdrop).
    cbn [length Nat.add load_lines_mono8].
    cbn [concat] in Hd. rewrite Hsplit, <- !app_assoc in Hd.
    rewrite usize_small by lia.
    destruct (read_ends (stride_in_file - line_padding_in_file) file _ _ Hd)
      as (file1 & -> & Hd1); [symmetry; exact Htake|].
    rewrite (proj1 Hd1).
    destruct (Z.eqb_spec line_padding_in_file 0) as [Hp|Hp]; cbn [negb].
    + apply IH; [assumption|].
      assert (drop (Z.to_nat (stride_in_file - line_padding_in_file)) file_line = [])
        as Hnil by (apply length_zero_iff_nil; lia).
      rewrite Hnil in Hd1. exact Hd1.
    + pose proof (seekg_cur_ends line_padding_in_file file1 _ _ Hd1 (eq_sym Hdrop))
        as Hd2.
      rewrite (proj1 Hd2). apply IH; assumption.
Qed.

Lemma load_lines_indexed_truncated lines (more : nat) rest :
  forall line file buffer stride_buffer,
  ends_with file (concat lines ++ rest) ->
  Forall (fun file_line => length file_line = Z.to_nat stride_in_file) lines ->
  length stride_buffer = Z.to_nat stride_in_file ->
  Z.of_nat (length rest) < stride_in_file ->
  fst (fst (load_lines_indexed P orientation_in_file S header color_table
              (length lines + Datatypes.S more) line ok stride_buffer file buffer))
  = file_read_error.
Proof.
  intros line file buffer stride_buffer Hd Hlen Hsb Hrest.
  revert line file buffer stride_buffer Hd Hsb.
  induction lines as [|file_line lines IH]; intros line file buffer stride_buffer Hd Hsb.
  - cbn [length Nat.add load_lines_indexed]. cbn [concat app] in Hd.
    destruct (read_short (Z.of_nat (length stride_buffer)) file rest Hd ltac:(lia))
      as [_ Hshort].
    destruct (ifstream.read _ file) as [chunk file1]. cbn [fst] in Hshort.
    assert (Hlen' : length (store chunk stride_buffer) = length stride_buffer)
      by (unfold store; apply length_inserts).
    rewrite Hlen'.
    destruct (Nat.eqb_spec (length chunk) (length stride_buffer)); [lia|].
    reflexivity.
  - inversion Hlen as [|? ? Hl0 Hlen']; subst.
    cbn [length Nat.add load_lines_indexed].
    cbn [concat] in Hd. rewrite <- app_assoc in Hd.
    destruct (read_ends (Z.of_nat (length stride_buffer)) file _ _ Hd)
      as (file1 & -> & Hd1); [lia|].
    rewrite store_full by lia.
    rewrite Nat.eqb_refl. cbn [negb].
    apply IH; assumption.
Qed.
End truncated_loops.

(** X20: a file that ends inside its pixel data.  On a working device,
    when the properties load, the buffer size covers the image and the
    file holds fewer lines than the height, followed by fewer bytes than
    the pixels of one line, the buffer overload of [load] reports
    [file_read_error]. *)
Theorem load_truncated_pixel_data
    f buffer buffersize p flp fo fs bytes p0 lines rest :
  files fs !! f = Some bytes -> pending_faults fs = [] ->
  load (Some f) p fs = (ok, p0) ->
  (fo = true -> orientation p <> orientation_invalid) ->
  let header := header_of_bytes (take 54 bytes) in
  let p' := forced_properties p0 p flp fo in
  height p0 < 2 ^ 31 ->
  0 <= line_padding p' ->
  buffer_stride p' * height p' <= buffersize -> buffersize < 2 ^ 64 ->
  drop (Z.to_nat (bmp_header.offset header)) bytes = concat lines ++ rest ->
  Forall (fun file_line =>
            Z.of_nat (length file_line)
            = file_stride (bmp_header.bits_per_pixel header) (bmp_header.width header))
         lines ->
  Z.of_nat (length lines) < height p0 ->
  Z.of_nat (length rest)
  < bmp_header.bits_per_pixel header / 8 * bmp_header.width header ->
  fst (fst (load_buffer (Some f) (Some buffer) buffersize p flp fo fs))
  = file_read_error.
Proof.
  intros Hfile Hq Hload Hfo header p' Hh31 Hpad Hfit Hsize Hdata Hlines Hcount Hrest.
  set (color_table := loaded_color_table header bytes).
  unfold load in Hload. rewrite (open_ifstream_file f fs bytes Hfile Hq) in Hload.
  destruct (load_image_properties _ _ _ _) as [[[[r0 s0] h] t] q0] eqn:E.
  injection Hload as -> ->.
  pose proof (load_image_properties_faults_nil _ _ _ _ _ _ _ E eq_refl) as Hq0.
  apply load_image_properties_inv in E as Hinv.
  destruct Hinv as [[Hne _] | (_ & Hacc & _ & Hf0 & Hc0 & Hh & Ht & Hp0)];
    [congruence|].
  cbn [ifstream.gpos ifstream.contents] in Hc0, Hh, Ht. rewrite drop_0 in Hh.
  assert (h = header) as -> by exact Hh. clear Hh.
  assert (t = color_table) as ->.
  { unfold color_table, loaded_color_table.
    destruct (bmp_header.bits_per_pixel header =? 8); exact Ht. }
  clear Ht.
  rewrite determine_image_properties_accepted in Hp0 by assumption.
  destruct Hacc as (Hr & _ & _ & Hoff & Hw & Hh0 & Hb & _ & _) .
  destruct Hr as (_ & _ & _ & _ & _ & _ & Hwr & Hhr & _).
  set (bpp := bmp_header.bits_per_pixel header) in *.
  set (w := bmp_header.width header) in *.
  set (hh := bmp_header.height header) in *.
  assert (Hwp : width p' = w) by (unfold p'; rewrite Hp0; reflexivity).
  assert (Hhp : height p' = Z.abs hh) by (unfold p'; rewrite Hp0; reflexivity).
  assert (Hh0' : height p0 = Z.abs hh) by (rewrite Hp0; reflexivity).
  assert (Hfp : pixel_format p'
                = if bpp =? 8 then (if check_is_mono8 color_table then Mono8 else BGR8)
                  else if bpp =? 24 then BGR8 else BGRA8)
    by (unfold p'; rewrite Hp0; reflexivity).
  assert (Habs : abs hh = Z.abs hh).
  { destruct (Z_le_gt_dec 0 hh); [rewrite abs_pos | rewrite abs_neg]; lia. }
  assert (Hbpp : 1 <= bytes_per_pixel (pixel_format p') <= 4).
  { rewrite Hfp. destruct (bpp =? 8); [destruct (check_is_mono8 _)|destruct (bpp =? 24)];
      cbn; lia. }
  assert (Hstride : determine_stride_props p' = buffer_stride p').
  { rewrite determine_stride_props_eq. unfold buffer_stride. apply usize_small.
    unfold buffer_stride in Hfit. nia. }
  assert (HS : 0 <= buffer_stride p') by (unfold buffer_stride; nia).
  unfold load_buffer.
  destruct (fo && bool_decide (orientation p = orientation_invalid)) eqn:Hfo'.
  { exfalso. apply andb_true_iff in Hfo'. destruct Hfo' as [-> Ho].
    apply bool_decide_eq_true in Ho. apply Hfo; [reflexivity | exact Ho]. }
  rewrite (open_ifstream_file f fs bytes Hfile Hq), E. cbn [is_ok].
  pose proof (forced_properties_code p0 p flp fo) as Hforced. cbv zeta in Hforced.
  rewrite !Hforced. fold p'. clear Hforced. fold header. fold bpp w hh.
  rewrite Hstride, Habs, (usize_small (Z.abs hh)) by lia.
  rewrite <- Hhp. rewrite (usize_small (buffer_stride p' * height p')) by nia.
  destruct (Z.ltb_spec buffersize (buffer_stride p' * height p')); [lia|].
  pose proof (seekg_ends (bmp_header.offset header) s0 (concat lines ++ rest)
                Hf0 Hq0 ltac:(lia) ltac:(rewrite Hc0; exact Hdata)) as Hd.
  rewrite (proj1 Hd).
  rewrite determine_stride_eq, determine_line_padding_eq by (try assumption; lia).
  pose proof (file_padding_range bpp w) as Hfpad.
  destruct (file_stride_bounds bpp w Hb ltac:(lia)) as [Hfs _].
  assert (Hlines' : Forall (fun file_line : list byte =>
                              length file_line = Z.to_nat (file_stride bpp w)) lines).
  { eapply Forall_impl; [exact Hlines|]. cbn. intros. lia. }
  assert (Hcb : file_stride bpp w - file_padding bpp w = bpp / 8 * w)
    by (unfold file_padding; rewrite Z.abs_eq by lia; lia).
  rewrite Hfp.
  set (more := (Z.to_nat (height p') - length lines - 1)%nat).
  assert (Hn : Z.to_nat (height p') = (length lines + S more)%nat) by lia.
  rewrite Hn.
  destruct (Z.eqb_spec bpp 8) as [Hb8|Hb8].
  - assert (Hlt : (8 <? bpp) = false) by (rewrite Hb8; reflexivity).
    rewrite Hlt. cbn [andb].
    destruct (check_is_mono8 color_table) eqn:Hmono.
    + rewrite bool_decide_eq_true_2 by reflexivity.
      pose proof (load_lines_mono8_truncated p' (orientation p0) (buffer_stride p')
                    (file_stride bpp w) (file_padding bpp w) header color_table
                    ltac:(lia) ltac:(lia) (check_is_linear_mono8 color_table)
                    lines more rest 0
                    (ifstream.seekg (bmp_header.offset header) s0) buffer
                    Hd Hlines' ltac:(lia)) as Hloop.
      destruct (load_lines_mono8 _ _ _ _ _ _ _ _ _ _ _ _ _) as [[r file'] b'].
      exact Hloop.
    + rewrite bool_decide_eq_false_2 by discriminate.
      rewrite bool_decide_eq_true_2 by reflexivity. cbn [andb].
      pose proof (load_lines_indexed_truncated p' (orientation p0) (buffer_stride p')
                    (file_stride bpp w) header color_table
                    lines more rest 0
                    (ifstream.seekg (bmp_header.offset header) s0) buffer
                    (replicate (Z.to_nat (file_stride bpp w)) Byte.x00)
                    Hd Hlines' ltac:(apply length_replicate) ltac:(lia)) as Hloop.
      destruct (load_lines_indexed _ _ _ _ _ _ _ _ _ _ _) as [[r file'] b'].
      exact Hloop.
  - assert (Hlt : (8 <? bpp) = true)
      by (destruct Hb as [? | [-> | ->]]; [lia | reflexivity ..]).
    rewrite Hlt.
    assert (Hdirect : bool_decide ((if bpp =? 24 then BGR8 else BGRA8) = BGR8)
                      || bool_decide ((if bpp =? 24 then BGR8 else BGRA8) = BGRA8)
                      = true) by (destruct (bpp =? 24); reflexivity).
    rewrite Hdirect. cbn [andb].
    pose proof (load_lines_direct_truncated p' (orientation p0) (buffer_stride p')
                  (file_stride bpp w) (file_padding bpp w) ltac:(lia) ltac:(lia)
                  lines more rest 0
                  (ifstream.seekg (bmp_header.offset header) s0) buffer
                  Hd Hlines' ltac:(lia)) as Hloop.
    destruct (load_lines_direct _ _ _ _ _ _ _ _ _ _) as [[r file'] b'].
    exact Hloop.
Qed.

Lemma load_truncated_pixel_data_witness :
  fst (fst (load_buffer (Some "cut.bmp"%string) (Some (replicate 8 Byte.x00)) 8
                        default_image_properties false false cut_pixels_disk))
  = file_read_error.
Proof.
  apply (load_truncated_pixel_data "cut.bmp"%string (replicate 8 Byte.x00) 8
           default_image_properties false false cut_pixels_disk
           (take 1084 sample_file)
           {| width := 3; height := 2; line_padding := 1;
              pixel_format := Mono8; orientation := bottom_up |}
           [map byte.of_Z [4; 5; 6; 0]] (map byte.of_Z [1; 2])).
  - vm_compute. reflexivity.
  - reflexivity.
  - vm_compute. reflexivity.
  - discriminate.
  - cbn. lia.
  - cbn. lia.
  - vm_compute. discriminate.
  - lia.
  - vm_compute. reflexivity.
  - repeat constructor.
  - cbn. lia.
  - vm_compute. reflexivity.
Defined.

(** ** Sizes, orientations and results *)

(** X21: the recipe of loading the properties, sizing the buffer with
    [compute_buffer_size] and loading the image.  On a working device,
    for a file that holds all its lines and whose properties load with a
    height below [2 ^ 31], the buffer overload of [load] called with a
    buffer of [compute_buffer_size] bytes and no forced value succeeds
    and returns the properties of the first load; the size is the exact
    product of the stride and the height. *)
Theorem load_with_computed_size f buffer p fs bytes p0 lines rest :
  files fs !! f = Some bytes -> pending_faults fs = [] ->
  load (Some f) p fs = (ok, p0) ->
  height p0 < 2 ^ 31 ->
  let header := header_of_bytes (take 54 bytes) in
  drop (Z.to_nat (bmp_header.offset header)) bytes = concat lines ++ rest ->
  Z.of_nat (length lines) = height p0 ->
  Forall (fun file_line =>
            Z.of_nat (length file_line)
            = file_stride (bmp_header.bits_per_pixel header) (bmp_header.width header))
         lines ->
  Z.of_nat (length buffer) = fst (compute_buffer_size p0) ->
  fst (compute_buffer_size p0) = buffer_stride p0 * height p0
  /\ exists buffer',
       load_buffer (Some f) (Some buffer) (fst (compute_buffer_size p0)) p
                   false false fs
       = (ok, Some buffer', p0)
       /\ length buffer' = length buffer.
Proof.
  intros Hfile Hq Hload Hh31 header Hdata Hcount Hlines Hbuf.
  destruct (load_ok_header f p fs bytes p0 Hfile Hload) as [Hacc Hp0].
  fold header in Hacc, Hp0.
  rewrite determine_image_properties_accepted in Hp0 by assumption.
  pose proof Hacc as (Hr & _ & _ & _ & Hw & Hh0 & Hb & _).
  destruct Hr as (_ & _ & _ & _ & _ & _ & Hwr & Hhr & _).
  pose proof (file_padding_range (bmp_header.bits_per_pixel header)
                                 (bmp_header.width header)) as Hfp.
  assert (Hwidth : 0 < width p0 < 2 ^ 31) by (rewrite Hp0; cbn [width]; lia).
  assert (Hheight : 0 < height p0) by (rewrite Hp0; cbn [height]; lia).
  assert (Hpad : 0 <= line_padding p0 <= 3) by (rewrite Hp0; exact Hfp).
  assert (Hbpp : 1 <= bytes_per_pixel (pixel_format p0) <= 4).
  { rewrite Hp0. cbn [pixel_format].
    destruct (_ =? 8); [destruct (check_is_mono8 _)|destruct (_ =? 24)]; cbn; lia. }
  assert (Hforced : forced_properties p0 p false false = p0)
    by (destruct p0; reflexivity).
  assert (Hexact : fst (compute_buffer_size p0) = buffer_stride p0 * height p0).
  { assert (Hs : 0 <= buffer_stride p0 <= 2 ^ 33 + 3)
      by (unfold buffer_stride; nia).
    apply compute_buffer_size_exact; try lia.
    - intros Hinv. rewrite Hinv in Hbpp. cbn in Hbpp. lia.
    - fold (buffer_stride p0). nia. }
  split; [exact Hexact|].
  pose proof (load_buffer_working f buffer (fst (compute_buffer_size p0)) p
                false false fs bytes p0 lines rest Hfile Hq Hload
                ltac:(discriminate)) as Hcall.
  cbv zeta in Hcall. rewrite Hforced in Hcall. fold header in Hcall.
  eexists. split.
  - apply Hcall; try assumption; try lia.
    assert (Hs : 0 <= buffer_stride p0 <= 2 ^ 33 + 3)
      by (unfold buffer_stride; nia).
    nia.
  - apply length_place_lines.
Qed.

Lemma load_with_computed_size_witness :
  let p0 := {| width := 3; height := 2; line_padding := 1;
               pixel_format := Mono8; orientation := bottom_up |} in
  fst (compute_buffer_size p0) = buffer_stride p0 * height p0
  /\ exists buffer',
       load_buffer (Some "image.bmp"%string) (Some (replicate 8 Byte.x00))
                   (fst (compute_buffer_size p0)) default_image_properties
                   false false sample_disk
       = (ok, Some buffer', p0)
       /\ length buffer' = length (replicate 8 Byte.x00).
Proof.
  intros p0.
  apply (load_with_computed_size "image.bmp"%string (replicate 8 Byte.x00)
           default_image_properties sample_disk sample_file p0 sample_lines []).
  - vm_compute. reflexivity.
  - vm_compute. reflexivity.
  - vm_compute. reflexivity.
  - cbn. lia.
  - vm_compute. reflexivity.
  - reflexivity.
  - repeat constructor.
  - vm_compute. reflexivity.
Defined.

Lemma save_lines_ext_props P P' orientation_in_file orientation_in_file' S
    line_padding_in_file (buffer buffer' : list byte) count :
  line_padding P = line_padding P' ->
  forall line result file,
  (forall l, line <= l < line + Z.of_nat count ->
     bytes_at (line_offset P orientation_in_file S l)
              (usize (S - line_padding P)) buffer
     = bytes_at (line_offset P' orientation_in_file' S l)
                (usize (S - line_padding P)) buffer') ->
  save_lines P orientation_in_file S line_padding_in_file buffer count line result file
  = save_lines P' orientation_in_file' S line_padding_in_file buffer' count line
               result file.
Proof.
  intros Hpad.
  induction count as [|count IH]; intros line result file Hsame;
    cbn [save_lines]; [reflexivity|].
  cbv zeta. rewrite <- Hpad. rewrite (Hsame line) by lia.
  destruct (ofstream.fail (ofstream.write _ file)); [reflexivity|].
  destruct (negb _ && _).
  - destruct (ofstream.fail (ofstream.write _ _)); [reflexivity|].
    apply IH. intros l Hl. apply Hsame. lia.
  - apply IH. intros l Hl. apply Hsame. lia.
Qed.

(** X22: the orientation of a buffer that is saved names the order of
    its rows.  With [force_bottom_up] set, saving a top-down buffer
    writes what saving a bottom-up buffer with the same rows in reverse
    order writes: the calls give the same result and leave the same
    disk. *)
Theorem save_top_down_mirrors f b b' buffersize p fs :
  orientation p = top_down ->
  0 <= height p < 2 ^ 32 -> 0 <= width p -> 0 <= line_padding p ->
  buffer_stride p * height p < 2 ^ 64 ->
  (forall r c,
     0 <= r < height p -> 0 <= c < width p * bytes_per_pixel (pixel_format p) ->
     b' !! Z.to_nat (r * buffer_stride p + c)
     = b !! Z.to_nat ((height p - 1 - r) * buffer_stride p + c)) ->
  save (Some f) (Some b) buffersize p true fs
  = save (Some f) (Some b') buffersize
         {| width := width p; height := height p; line_padding := line_padding p;
            pixel_format := pixel_format p; orientation := bottom_up |}
         true fs.
Proof.
  intros Ho Hh Hw Hpad Hfit Hmirror.
  set (p' := {| width := width p; height := height p;
                line_padding := line_padding p;
                pixel_format := pixel_format p; orientation := bottom_up |}).
  assert (Hstride : determine_stride_props p' = determine_stride_props p)
    by reflexivity.
  assert (Hheader : save_header p' true = save_header p true).
  { rewrite !save_header_eq. reflexivity. }
  unfold save. rewrite Hstride, Hheader.
  change (height p') with (height p). change (width p') with (width p).
  change (pixel_format p') with (pixel_format p).
  change (orientation p') with bottom_up. rewrite Ho.
  rewrite !(bool_decide_eq_false_2 (_ = orientation_invalid)) by discriminate.
  destruct (_ || _); [reflexivity|].
  destruct (_ <? _); [reflexivity|].
  destruct (negb _); [reflexivity|].
  pose proof (save_header_orientation p true) as Hoif. cbn [negb andb] in Hoif.
  destruct (save_header p true) as [header orientation_in_file].
  cbn [snd] in Hoif. subst orientation_in_file.
  match goal with
  | |- (let '(_, _) := ?table in _) = _ => destruct table as [r1 file1]
  end.
  rewrite (save_lines_ext_props p p' bottom_up bottom_up
             (determine_stride_props p) _ b b'); [reflexivity | reflexivity |].
  intros l Hl. rewrite Z2Nat.id in Hl by lia.
  assert (Hbpp : 0 <= bytes_per_pixel (pixel_format p))
    by (destruct (pixel_format p); cbn; lia).
  set (n := width p * bytes_per_pixel (pixel_format p)) in *.
  assert (HS : buffer_stride p = n + line_padding p) by reflexivity.
  assert (Hn : 0 <= n) by (unfold n; nia).
  assert (Hdsp : determine_stride_props p = buffer_stride p).
  { rewrite determine_stride_props_eq. apply usize_small. fold n. nia. }
  rewrite Hdsp. replace (buffer_stride p - line_padding p) with n by lia.
  rewrite (usize_small n) by nia.
  rewrite !line_offset_exact by (try lia; try (change (height p') with (height p)); nia).
  unfold row_offset. change (orientation p') with bottom_up.
  change (height p') with (height p). rewrite Ho.
  rewrite bool_decide_eq_false_2 by discriminate.
  rewrite bool_decide_eq_true_2 by reflexivity.
  apply bytes_at_ext. intros j Hj.
  replace (Z.to_nat (l * buffer_stride p) + j)%nat
    with (Z.to_nat (l * buffer_stride p + Z.of_nat j)) by nia.
  replace (Z.to_nat ((height p - 1 - l) * buffer_stride p) + j)%nat
    with (Z.to_nat ((height p - 1 - l) * buffer_stride p + Z.of_nat j)) by nia.
  symmetry. apply Hmirror; lia.
Qed.

Lemma save_top_down_mirrors_witness :
  save (Some "image.bmp"%string) (Some sample_buffer) 8 sample_properties true
       empty_disk
  = save (Some "image.bmp"%string) (Some (map byte.of_Z [4; 5; 6; 0; 1; 2; 3; 0])) 8
         {| width := width sample_properties; height := height sample_properties;
            line_padding := line_padding sample_properties;
            pixel_format := pixel_format sample_properties;
            orientation := bottom_up |}
         true empty_disk.
Proof.
  apply (save_top_down_mirrors "image.bmp"%string sample_buffer
           (map byte.of_Z [4; 5; 6; 0; 1; 2; 3; 0]) 8 sample_properties empty_disk).
  - reflexivity.
  - cbn. lia.
  - cbn. lia.
  - cbn. lia.
  - vm_compute. reflexivity.
  - intros r c Hr Hc. cbn in Hr, Hc.
    assert (r = 0 \/ r = 1) as [-> | ->] by lia;
      (assert (c = 0 \/ c = 1 \/ c = 2) as [-> | [-> | ->]] by lia); reflexivity.
Defined.

Lemma load_and_check_header_result stream header_out :
  In (fst (fst (load_and_check_header stream header_out)))
     [ok; not_a_bmp_file; corrupt; unsupported_compression;
      unsupported_bit_per_pixel; unsupported_use_of_color_table;
      too_large_color_table].
Proof.
  unfold load_and_check_header.
  destruct (ifstream.read _ stream) as [chunk stream'].
  destruct (ifstream.fail stream'); [cbn; auto|]. cbn [fst].
  repeat match goal with
         | |- context [if ?c then _ else _] => destruct c
         end; cbn; auto 10.
Qed.

Lemma load_image_properties_result stream p :
  In (fst (fst (fst (fst (load_image_properties stream bmp_header.zero [] p)))))
     [ok; file_not_found; not_a_bmp_file; corrupt; unsupported_compression;
      unsupported_bit_per_pixel; unsupported_use_of_color_table;
      too_large_color_table; file_read_error].
Proof.
  unfold load_image_properties.
  destruct (negb (ifstream.is_open stream)); [cbn; auto|].
  pose proof (load_and_check_header_result stream bmp_header.zero) as Hheader.
  destruct (load_and_check_header stream bmp_header.zero) as [[r1 s1] h1].
  cbn [fst] in Hheader.
  destruct (is_ok r1 && (bmp_header.bits_per_pixel h1 =? 8)).
  - pose proof (load_color_table_result s1 h1 []) as Htable. cbv zeta in Htable.
    destruct (load_color_table s1 h1 []) as [[r2 s2] t2]. cbn [fst] in Htable |- *.
    destruct Htable as [-> | [-> | ->]]; cbn; auto 10.
  - cbn [fst]. cbn in Hheader |- *.
    destruct Hheader as [<- | [<- | [<- | [<- | [<- | [<- | [<- | []]]]]]]]; auto 10.
Qed.

(** X23: the results of the properties-only [load] for a file name that
    is set: [ok], [file_not_found], the seven verdicts on the header, and
    [file_read_error] for the color table.  It never reports
    [invalid_argument], [buffer_too_small], a write error or the invalid
    result, and it reports [null_argument] exactly for a null file
    name. *)
Theorem load_results filename p fs :
  (filename <> None ->
   In (fst (load filename p fs))
      [ok; file_not_found; not_a_bmp_file; corrupt; unsupported_compression;
       unsupported_bit_per_pixel; unsupported_use_of_color_table;
       too_large_color_table; file_read_error])
  /\ (fst (load filename p fs) = null_argument <-> filename = None).
Proof.
  destruct filename as [f|].
  - assert (Hrange : In (fst (load (Some f) p fs))
                        [ok; file_not_found; not_a_bmp_file; corrupt;
                         unsupported_compression; unsupported_bit_per_pixel;
                         unsupported_use_of_color_table; too_large_color_table;
                         file_read_error]).
    { unfold load.
      pose proof (load_image_properties_result (open_ifstream f fs) p) as Hr.
      destruct (load_image_properties _ _ _ _) as [[[[r s] h] t] q]. exact Hr. }
    split; [intros _; exact Hrange|].
    split; [|discriminate].
    intros Hnull. rewrite Hnull in Hrange. cbn in Hrange.
    repeat (destruct Hrange as [Hrange | Hrange]; [discriminate Hrange|]).
    contradiction.
  - split; [intros Hset; contradiction|]. split; reflexivity.
Qed.

Lemma load_results_witness :
  In (fst (load (Some "image.bmp"%string) sample_properties empty_disk))
     [ok; file_not_found; not_a_bmp_file; corrupt; unsupported_compression;
      unsupported_bit_per_pixel; unsupported_use_of_color_table;
      too_large_color_table; file_read_error].
Proof.
  apply (load_results (Some "image.bmp"%string) sample_properties empty_disk).
  discriminate.
Defined.

(** X24: the argument checks of the buffer overload of [load] come
    before the file is opened.  The call returns [null_argument] exactly
    when the file name or the buffer is null, and [invalid_argument]
    exactly when both are set and an invalid orientation is forced; in
    both cases the buffer and the properties are left as they were,
    whatever the path names. *)
Theorem load_buffer_validation filename buffer buffersize p flp fo fs :
  (fst (fst (load_buffer filename buffer buffersize p flp fo fs)) = null_argument
   <-> (filename = None \/ buffer = None))
  /\ (fst (fst (load_buffer filename buffer buffersize p flp fo fs))
      = invalid_argument
      <-> (filename <> None /\ buffer <> None
           /\ fo = true /\ orientation p = orientation_invalid))
  /\ (In (fst (fst (load_buffer filename buffer buffersize p flp fo fs)))
         [null_argument; invalid_argument] ->
      load_buffer filename buffer buffersize p flp fo fs
      = (fst (fst (load_buffer filename buffer buffersize p flp fo fs)), buffer, p)).
Proof.
  destruct buffer as [b|], filename as [f|];
    try (split; [split; [auto | reflexivity]|];
         split; [split; [discriminate | intros (H1 & H2 & _); contradiction]|];
         intros _; reflexivity).
  destruct (decide (fo = true /\ orientation p = orientation_invalid))
    as [[-> Ho] | Hvalid].
  { unfold load_buffer. rewrite bool_decide_eq_true_2 by assumption. cbn [andb fst].
    split; [split; [discriminate | intros [H | H]; discriminate H]|].
    split; [split; [intros _; repeat split; try discriminate; assumption
                   | reflexivity]|].
    intros _. reflexivity. }
  assert (Hfo : fo = true -> orientation p <> orientation_invalid)
    by (intros -> Ho; apply Hvalid; auto).
  destruct (load (Some f) p fs) as [r0 p0] eqn:Hload.
  assert (Hr0 : In r0 [ok; file_not_found; not_a_bmp_file; corrupt;
                       unsupported_compression; unsupported_bit_per_pixel;
                       unsupported_use_of_color_table; too_large_color_table;
                       file_read_error]).
  { unfold load in Hload.
    pose proof (load_image_properties_result (open_ifstream f fs) p) as Hr.
    destruct (load_image_properties _ _ _ _) as [[[[r s] h] t] q].
    injection Hload as <- _. exact Hr. }
  assert (Hres : fst (fst (load_buffer (Some f) (Some b) buffersize p flp fo fs))
                 <> null_argument
                 /\ fst (fst (load_buffer (Some f) (Some b) buffersize p flp fo fs))
                    <> invalid_argument).
  { destruct (decide (r0 = ok)) as [-> | Hne].
    - destruct (load_buffer_of_loaded f b buffersize p flp fo fs p0 Hload Hfo)
        as (hh & _ & _ & _ & _ & _ & [(_ & ->) | (_ & r & b' & -> & Hr)]);
        cbn [fst]; [split; discriminate|].
      destruct Hr as [-> | [-> | ->]]; split; discriminate.
    - rewrite (load_buffer_of_failed_load f b buffersize p flp fo fs r0 p0
                 Hload Hne Hfo). cbn [fst].
      cbn in Hr0.
      repeat (destruct Hr0 as [<- | Hr0]; [split; discriminate|]).
      contradiction. }
  destruct Hres as [Hnn Hni].
  split; [split; [intros H; contradiction | intros [H | H]; discriminate H]|].
  split; [split; [intros H; contradiction
                 | intros (_ & _ & H1 & H2); exfalso; apply Hvalid; auto]|].
  intros [H | [H | []]]; [symmetry in H; contradiction ..].
Qed.

(** X25: saving again changes nothing.  After a call of [save] that
    returned [ok] on a device that works, the same call returns [ok]
    again and leaves the disk as the first call left it: the file is
    truncated and written anew, not appended to. *)
Theorem save_is_idempotent f b buffersize p force_bottom_up fs fs' :
  save (Some f) (Some b) buffersize p force_bottom_up fs = (ok, fs') ->
  pending_faults fs' = [] ->
  save (Some f) (Some b) buffersize p force_bottom_up fs' = (ok, fs').
Proof.
  intros Hsave Hq. apply save_cases in Hsave.
  destruct Hsave as [([=] & _) | (f' & b' & [= <-] & [= <-] & Hsave)].
  destruct Hsave as [([=] & _) | (Haccepted & Hsave)].
  destruct Hsave as [([=] & _) | (Hfit & Hsave)].
  destruct Hsave as [([=] & _) | (Hfree & bytes & q & -> & Hsave)].
  destruct Hsave as [(_ & ->) | ([=] & _)].
  cbn [pending_faults] in Hq. subst q.
  unfold save_rejects in Haccepted.
  assert (Hsize : fst (compute_buffer_size p)
                  = usize (determine_stride_props p * height p)).
  { unfold compute_buffer_size. cbn [fst].
    destruct (Z.eqb_spec (height p) 0); [tauto|].
    destruct (Z.eqb_spec (width p) 0); [tauto|].
    rewrite bool_decide_eq_false_2 by tauto. reflexivity. }
  rewrite save_working; cbn [files write_protected pending_faults];
    try tauto; try lia; try reflexivity.
  rewrite insert_insert_eq. reflexivity.
Qed.

Lemma save_is_idempotent_witness :
  save (Some "image.bmp"%string) (Some sample_buffer) 8 sample_properties true
       sample_disk
  = (ok, sample_disk).
Proof.
  apply (save_is_idempotent "image.bmp"%string sample_buffer 8 sample_properties
                            true empty_disk sample_disk).
  - vm_compute. reflexivity.
  - vm_compute. reflexivity.
Defined.



(** X27: the bytes the buffer overload of [load] stores for a file
    line, on a working device and for a file that holds all its lines.
    For 24 and 32 bits per pixel the pixel bytes of the line are copied
    as they are; for 8 bits per pixel with a gray color table every pixel
    is stored as the blue value of the table entry of its index. *)
Theorem load_stored_bytes f buffer buffersize p flp fo fs bytes p0 lines rest :
  files fs !! f = Some bytes -> pending_faults fs = [] ->
  load (Some f) p fs = (ok, p0) ->
  (fo = true -> orientation p <> orientation_invalid) ->
  let header := header_of_bytes (take 54 bytes) in
  let color_table := loaded_color_table header bytes in
  let p' := forced_properties p0 p flp fo in
  height p0 < 2 ^ 31 ->
  0 <= line_padding p' ->
  buffer_stride p' * height p' <= buffersize ->
  buffersize <= Z.of_nat (length buffer) -> buffersize < 2 ^ 64 ->
  drop (Z.to_nat (bmp_header.offset header)) bytes = concat lines ++ rest ->
  Z.of_nat (length lines) = height p0 ->
  Forall (fun file_line =>
            Z.of_nat (length file_line)
            = file_stride (bmp_header.bits_per_pixel header) (bmp_header.width header))
         lines ->
  exists buffer',
    load_buffer (Some f) (Some buffer) buffersize p flp fo fs = (ok, Some buffer', p')
    /\ forall (i : nat) file_line,
         lines !! i = Some file_line ->
         (8 < bmp_header.bits_per_pixel header ->
          forall j : nat,
            Z.of_nat j
            < bmp_header.bits_per_pixel header / 8 * bmp_header.width header ->
            buffer' !! (Z.to_nat (row_offset p' (orientation p0) (buffer_stride p')
                                             (Z.of_nat i)) + j)%nat
            = file_line !! j)
         /\ (bmp_header.bits_per_pixel header = 8 -> Forall gray color_table ->
             forall (c : nat) index,
               Z.of_nat c < bmp_header.width header ->
               file_line !! c = Some index ->
               (Z.to_nat (byte.unsigned index) < length color_table)%nat ->
               buffer' !! (Z.to_nat (row_offset p' (orientation p0) (buffer_stride p')
                                                (Z.of_nat i)) + c)%nat
               = Some (color_table_entry.b (color_table_at color_table index))).
Proof.
  intros Hfile Hq Hload Hfo header color_table p' Hh31 Hpad Hfit Hbuf Hsize
    Hdata Hcount Hlines.
  destruct (load_buffer_rows f buffer buffersize p flp fo fs bytes p0 lines rest
              Hfile Hq Hload Hfo Hh31 Hpad Hfit Hbuf Hsize Hdata Hcount Hlines)
    as (buffer' & Hcall & Hrows).
  fold header color_table p' in Hcall, Hrows.
  exists buffer'. split; [exact Hcall|].
  intros i file_line Hline.
  assert (Hlen : Z.of_nat (length file_line)
                 = file_stride (bmp_header.bits_per_pixel header)
                               (bmp_header.width header))
    by (rewrite Forall_lookup in Hlines; exact (Hlines i file_line Hline)).
  destruct (load_ok_header f p fs bytes p0 Hfile Hload) as [Hacc _].
  fold header in Hacc.
  destruct Hacc as (Hr & _ & _ & _ & Hw & _ & Hb & _).
  destruct Hr as (_ & _ & _ & _ & _ & _ & Hwr & _).
  pose proof (file_padding_range (bmp_header.bits_per_pixel header)
                                 (bmp_header.width header)) as Hfp.
  unfold file_padding in Hfp. rewrite Z.abs_eq in Hfp by lia.
  specialize (Hrows i file_line Hline). unfold decoded_row in Hrows.
  split.
  - intros Hdeep j Hj.
    destruct (Z.ltb_spec 8 (bmp_header.bits_per_pixel header)); [|lia].
    rewrite Hrows by (rewrite length_take; lia).
    apply lookup_take_lt. lia.
  - intros Hb8 Hgray c index Hc Hindex Hrange.
    rewrite Hb8 in Hrows, Hfp, Hlen. change (8 <? 8) with false in Hrows.
    change (8 / 8) with 1 in Hfp.
    apply check_is_mono8_gray in Hgray. rewrite Hgray in Hrows.
    assert (Hpixel : take (Z.to_nat (bmp_header.width header)) file_line !! c
                     = Some index)
      by (rewrite lookup_take_lt by lia; exact Hindex).
    unfold decode_mono8 in Hrows.
    destruct (check_is_linear_mono8 color_table) eqn:Hlin.
    + rewrite Hrows by (rewrite length_take; lia).
      rewrite Hpixel. f_equal.
      unfold color_table_at.
      destruct (lookup_lt_is_Some_2 color_table (Z.to_nat (byte.unsigned index))
                  Hrange) as [entry Hentry].
      rewrite Hentry. cbn [default from_option id].
      destruct (check_is_linear_mono8_from_lookup color_table 0 ltac:(lia) Hlin _ _
                  Hentry) as (Hblue & _).
      pose proof (byte.unsigned_range index) as Hbyte.
      apply byte.unsigned_inj. rewrite Hblue, Z.add_0_l, Z2Nat.id by lia.
      symmetry. apply Z.mod_small. lia.
    + rewrite Hrows by (rewrite length_map, length_take; lia).
      rewrite list_lookup_fmap, Hpixel. reflexivity.
Qed.

Lemma load_stored_bytes_witness :
  let p0 := {| width := 3; height := 2; line_padding := 1;
               pixel_format := Mono8; orientation := bottom_up |} in
  exists buffer',
    load_buffer (Some "image.bmp"%string) (Some (replicate 8 Byte.x00)) 8
                default_image_properties false false sample_disk
    = (ok, Some buffer', forced_properties p0 default_image_properties false false)
    /\ buffer' !! 1%nat = Some (byte.of_Z 5).
Proof.
  intros p0.
  destruct (load_stored_bytes "image.bmp"%string (replicate 8 Byte.x00) 8
              default_image_properties false false sample_disk sample_file p0
              sample_lines [])
    as (buffer' & Hcall & Hstored).
  - vm_compute. reflexivity.
  - vm_compute. reflexivity.
  - vm_compute. reflexivity.
  - discriminate.
  - cbn. lia.
  - cbn. lia.
  - vm_compute. discriminate.
  - vm_compute. discriminate.
  - lia.
  - vm_compute. reflexivity.
  - reflexivity.
  - repeat constructor.
  - exists buffer'. split; [exact Hcall|].
    destruct (Hstored 0%nat (map byte.of_Z [4; 5; 6; 0]) eq_refl) as [_ Hgray].
    apply (Hgray eq_refl
             ltac:(apply check_is_mono8_gray; vm_compute; reflexivity)
             1%nat (byte.of_Z 5)).
    + vm_compute. reflexivity.
    + reflexivity.
    + vm_compute. lia.
Defined.
